(** * Demand forecasting and background sync of the restaurant back end

    A shallow embedding of [backend/ml_predictions.py] (class
    [PredictionEngine]), of the prediction table operations of
    [backend/database.py] and of [backend/sync_service.py] (class
    [SyncService]), together with the properties of the forecaster and of
    the sync loop. The sales analytics and the order and stock operations of
    [backend/database.py] and two endpoints of [backend/main.py] follow in
    modules of their own.

    Conventions.
    - The floats of the engine are embedded twice. For the statements on
      bounds, order and shape, which rounding to the nearest float
      preserves, they are idealised as exact rationals ([Q]); the values a
      NumPy computation can additionally produce (the mean of an empty
      selection, a division by zero) are kept apart in [npfloat]. For the
      statements on the exact values of a forecast they are the binary64
      numbers of the machine ([Float64], [PredictionEngine64]). The
      amounts of the orders and of the stock are idealised as rationals,
      and nothing is stated of them that depends on the rounding.
    - pandas and Prophet are outside the repository: they enter through
      the class [Libraries].
    - A Python function that catches its own exceptions and returns
      [None] is an [option]; one that can raise returns a [result].
    - The engine is embedded on a database that answers: its reads and
      writes are given by their effect. The sync service is embedded with
      the outcome of every data-store call, the clock and the cancellation
      of the task supplied from outside, one [Cycle] per turn of the
      loop. *)

From Stdlib Require Import ZArith QArith Qround Qminmax String List Lia.
From Stdlib Require Import SpecFloat.
From stdpp Require Import gmap strings list fin_maps.
Import ListNotations.

Local Open Scope Z_scope.
Local Open Scope string_scope.
Local Open Scope list_scope.

(** ** Numbers *)

Module PyNum.

(** A float as NumPy may produce it: a finite value, an infinity, or
    not-a-number. *)
Inductive npfloat : Type :=
| Fin (q : Q)
| PInf
| NInf
| NaN.

(** [a < b] on floats: every comparison with [NaN] is false. *)
Definition np_ltb (a b : npfloat) : bool :=
  match a, b with
  | NaN, _ | _, NaN => false
  | Fin x, Fin y => negb (Qle_bool y x)
  | NInf, (Fin _ | PInf) => true
  | Fin _, PInf => true
  | _, _ => false
  end.

(** Python's [max(a, b)] and [min(a, b)]: the first argument is kept
    unless the second is strictly larger (smaller). *)
Definition py_max (a b : npfloat) : npfloat := if np_ltb a b then b else a.
Definition py_min (a b : npfloat) : npfloat := if np_ltb b a then b else a.

(** [x * c] for a finite constant [c > 0]. *)
Definition np_scale (x : npfloat) (c : Q) : npfloat :=
  match x with
  | Fin q => Fin (q * c)
  | other => other
  end.

(** [w / a] for a finite [w], NumPy style: no exception on a zero
    divisor but an infinity, or [NaN] for [0 / 0]. *)
Definition np_div (w : Q) (a : npfloat) : npfloat :=
  match a with
  | Fin d =>
      if Qeq_bool d 0 then
        match (w ?= 0)%Q with
        | Eq => NaN
        | Gt => PInf
        | Lt => NInf
        end
      else Fin (w / d)
  | PInf | NInf => Fin 0
  | NaN => NaN
  end.

(** [max(a, b)] on finite floats. *)
Definition py_maxQ (a b : Q) : Q := if Qle_bool b a then a else b.

(** [c - x] for a finite [c]. *)
Definition np_rsub (c : Q) (x : npfloat) : npfloat :=
  match x with
  | Fin q => Fin (c - q)
  | PInf => NInf
  | NInf => PInf
  | NaN => NaN
  end.

(** [int(x)] on a finite float: truncation toward zero. *)
Definition trunc (q : Q) : Z := Z.quot (Qnum q) (Z.pos (Qden q)).

(** [int(x)]: raises ([None]) on an infinity or [NaN]. *)
Definition py_int (x : npfloat) : option Z :=
  match x with
  | Fin q => Some (trunc q)
  | _ => None
  end.

(** [round(x)]: to the nearest integer, ties to the even one. *)
Definition py_round (q : Q) : Z :=
  let f := Qfloor q in
  match (q - inject_Z f ?= 1 # 2)%Q with
  | Lt => f
  | Gt => f + 1
  | Eq => if Z.even f then f else f + 1
  end.

(** [round(x, 1)]: to one decimal. *)
Definition round1 (q : Q) : Q := py_round (q * 10) # 10.

Definition np_round1 (x : npfloat) : npfloat :=
  match x with
  | Fin q => Fin (round1 q)
  | other => other
  end.

Definition sum (ys : list Z) : Z := fold_right Z.add 0 ys.

(** [Series.mean()]: [NaN] on an empty selection. *)
Definition mean (ys : list Z) : npfloat :=
  match ys with
  | [] => NaN
  | _ :: _ => Fin (sum ys # Pos.of_nat (length ys))
  end.

End PyNum.

Import PyNum.

(** ** Data model *)

(** One row of [get_historical_order_data]: the columns the engine reads.
    [y] is [SUM(oi.quantity)] over an [INTEGER NOT NULL] column. *)
Record HistRow : Type := mkHist {
  ds : string;
  period : string;
  dish_id : string;
  dish_name : string;
  y : Z
}.

(** The dictionary [_predict_dish_demand] returns. *)
Record Prediction : Type := mkPrediction {
  p_dish_id : string;
  p_dish_name : string;
  p_period : string;
  predicted_demand : Z;
  confidence : npfloat;
  recommended_prep : Z;
  factors : list string;
  prediction_date : string
}.

Inductive Weekday : Type :=
| Monday | Tuesday | Wednesday | Thursday | Friday | Saturday | Sunday.

(** [Timestamp.dayofweek] as the number pandas gives. *)
Definition dow_index (w : Weekday) : nat :=
  match w with
  | Monday => 0 | Tuesday => 1 | Wednesday => 2 | Thursday => 3
  | Friday => 4 | Saturday => 5 | Sunday => 6
  end%nat.

(** What [model.predict] yields for the one future row. *)
Record Forecast : Type := mkForecast {
  yhat : Q;
  yhat_lower : Q;
  yhat_upper : Q
}.

(** The libraries the engine calls. [to_datetime] is [None] where
    [pd.to_datetime] raises; [prophet] stands for building the model,
    [model.fit] on the prepared frame and [model.predict] on the target row,
    and is [None] where any of them raises. *)
Class Libraries : Type := {
  Timestamp : Type;
  to_datetime : string -> option Timestamp;
  dayofweek : Timestamp -> Weekday;
  month : Timestamp -> Z;
  prophet : list (Timestamp * Z) -> Timestamp -> option Forecast
}.

(** Values of the result dictionaries. *)
Inductive PyVal : Type :=
| VInt (n : Z)
| VStr (s : string).

(** A row of the [predictions] table without its key columns
    ([UNIQUE(dish_id, prediction_date, period)]); [factors] stands for its
    JSON text. *)
Record PredRow : Type := mkPredRow {
  row_id : Z;
  row_predicted_demand : Z;
  row_confidence : npfloat;
  row_recommended_prep : Z;
  row_factors : list string;
  row_created_at : string
}.

(** The part of the database the engine works on. *)
Record Store : Type := mkStore {
  historical_order_data : list HistRow;
  predictions : gmap (string * string * string) PredRow;
  predictions_seq : Z
}.

(** ** The prediction engine *)

Module PredictionEngine.

Section Engine.

Context `{Libs : Libraries}.

Definition dow_names : list string :=
  ["Monday"; "Tuesday"; "Wednesday"; "Thursday"; "Friday"; "Saturday"; "Sunday"].

Definition is_weekend (r : Timestamp * Z) : bool :=
  (5 <=? dow_index (dayofweek (fst r)))%nat.

(** [DataFrame.tail(n)] *)
Definition tail {A : Type} (n : nat) (l : list A) : list A :=
  drop (length l - n)%nat l.

Definition _analyze_prediction_factors (target_date : Timestamp)
    (period : string) (historical_data : list (Timestamp * Z))
    (predicted_value : Q) : list string :=
  let factors : list string := [] in
  let dow := dow_index (dayofweek target_date) in
  let factors :=
    if (5 <=? dow)%nat then
      let weekend_avg :=
        mean (map snd (List.filter is_weekend historical_data)) in
      let weekday_avg :=
        mean (map snd (List.filter (fun r => negb (is_weekend r))
                         historical_data)) in
      if np_ltb (np_scale weekday_avg 1.2) weekend_avg then
        factors ++ ["Weekend boost (" +:+ nth dow dow_names "" +:+ ")"]
      else if np_ltb weekend_avg (np_scale weekday_avg 0.8) then
        factors ++ ["Weekend decline (" +:+ nth dow dow_names "" +:+ ")"]
      else factors
    else factors ++ ["Weekday pattern (" +:+ nth dow dow_names "" +:+ ")"] in
  let factors :=
    if String.eqb period "morning" then factors ++ ["Breakfast/morning rush"]
    else if String.eqb period "afternoon" then factors ++ ["Lunch period demand"]
    else if String.eqb period "evening" then factors ++ ["Dinner rush period"]
    else factors in
  let recent_data := tail 10 historical_data in
  let factors :=
    if (5 <=? length recent_data)%nat then
      let recent_avg := mean (map snd recent_data) in
      let overall_avg := mean (map snd historical_data) in
      if np_ltb (np_scale overall_avg 1.15) recent_avg then
        factors ++ ["Upward trend detected"]
      else if np_ltb recent_avg (np_scale overall_avg 0.85) then
        factors ++ ["Downward trend detected"]
      else factors ++ ["Stable demand pattern"]
    else factors in
  let month := month target_date in
  let factors :=
    if existsb (Z.eqb month) [12; 1; 2] then factors ++ ["Winter seasonality"]
    else if existsb (Z.eqb month) [6; 7; 8] then factors ++ ["Summer seasonality"]
    else factors in
  take 4 factors.

(** [df[(df['dish_id'] == dish_id) & (df['period'] == period)]] *)
Definition select (df : list HistRow) (dish : string) (per : string)
    : list HistRow :=
  List.filter (fun r => String.eqb (dish_id r) dish && String.eqb (period r) per) df.

(** [prophet_data]: the [ds] column converted, with the [y] column; [None]
    where a conversion raises. *)
Fixpoint prepare (rows : list HistRow) : option (list (Timestamp * Z)) :=
  match rows with
  | [] => Some []
  | r :: rest =>
      match to_datetime (ds r), prepare rest with
      | Some t, Some l => Some ((t, y r) :: l)
      | _, _ => None
      end
  end.

(** The confidence of a fitted forecast before it is rounded. *)
Definition raw_confidence (interval_width : Q) (avg_historical : npfloat)
    : npfloat :=
  py_max (Fin 50.0)
    (py_min (Fin 95.0)
       (np_rsub 100 (np_scale (np_div interval_width avg_historical) 100))).

Definition safety_multiplier (confidence : npfloat) : Q :=
  if np_ltb (Fin 80) confidence then 1.2%Q else 1.3%Q.

(** The body of [_predict_dish_demand]; every exception raised inside it is
    caught by its own handler, which returns [None]. *)
Definition _predict_dish_demand (df : list HistRow) (dish_id dish_name : string)
    (period : string) (target_date : string) : option Prediction :=
  let dish_data := select df dish_id period in
  if (length dish_data <? 5)%nat then
    let avg_demand :=
      if (0 <? length dish_data)%nat then mean (map y dish_data) else Fin 5 in
    match py_int avg_demand, py_int (np_scale avg_demand 1.2) with
    | Some d, Some r =>
        Some {| p_dish_id := dish_id;
                p_dish_name := dish_name;
                p_period := period;
                predicted_demand := Z.max 1 d;
                confidence := Fin 60.0;
                recommended_prep := Z.max 2 r;
                factors := ["Limited historical data"; "Fallback average"];
                prediction_date := target_date |}
    | _, _ => None
    end
  else
    match prepare dish_data with
    | None => None
    | Some prophet_data =>
        match to_datetime target_date with
        | None => None
        | Some target_datetime =>
            match prophet prophet_data target_datetime with
            | None => None
            | Some forecast =>
                let predicted_value := py_maxQ 1 (yhat forecast) in
                let lower_bound := py_maxQ 0 (yhat_lower forecast) in
                let upper_bound := yhat_upper forecast in
                let interval_width := (upper_bound - lower_bound)%Q in
                let avg_historical := mean (map snd prophet_data) in
                let confidence := raw_confidence interval_width avg_historical in
                let factors :=
                  _analyze_prediction_factors target_datetime period
                    prophet_data predicted_value in
                let safety_multiplier := safety_multiplier confidence in
                let recommended_prep :=
                  Z.max 2 (trunc (predicted_value * safety_multiplier)) in
                Some {| p_dish_id := dish_id;
                        p_dish_name := dish_name;
                        p_period := period;
                        predicted_demand := trunc predicted_value;
                        confidence := np_round1 confidence;
                        recommended_prep := recommended_prep;
                        factors := factors;
                        prediction_date := target_date |}
            end
        end
    end.

(** [df[['dish_id', 'dish_name']].drop_duplicates()]: the first occurrence
    of every pair, in the order of the frame. *)
Fixpoint drop_duplicates (seen : list (string * string))
    (l : list (string * string)) : list (string * string) :=
  match l with
  | [] => []
  | x :: rest =>
      if decide (x ∈ seen) then drop_duplicates seen rest
      else x :: drop_duplicates (x :: seen) rest
  end.

Definition unique_dishes (df : list HistRow) : list (string * string) :=
  drop_duplicates [] (map (fun r => (dish_id r, dish_name r)) df).

Definition periods : list string := ["morning"; "afternoon"; "evening"].

(** [DatabaseManager.save_predictions]: one [INSERT OR REPLACE] per
    prediction. The row that holds the key, if any, is replaced by a new
    row, which takes the next [AUTOINCREMENT] id and the current time. *)
Definition insert_or_replace (now : string) (db : Store) (pred : Prediction)
    : Store :=
  let id := predictions_seq db + 1 in
  {| historical_order_data := historical_order_data db;
     predictions :=
       <[ (p_dish_id pred, prediction_date pred, p_period pred) :=
            {| row_id := id;
               row_predicted_demand := predicted_demand pred;
               row_confidence := confidence pred;
               row_recommended_prep := recommended_prep pred;
               row_factors := factors pred;
               row_created_at := now |} ]> (predictions db);
     predictions_seq := id |}.

Definition save_predictions (now : string) (preds : list Prediction)
    (db : Store) : Store :=
  fold_left (insert_or_replace now) preds db.

(** The inner loop of [generate_predictions] over the three periods of
    one dish. *)
Definition predict_periods (df : list HistRow) (target_date : string)
    (dish : string * string) (acc : list Prediction) : list Prediction :=
  fold_left
    (fun acc period =>
       match _predict_dish_demand df (fst dish) (snd dish) period target_date with
       | Some prediction => acc ++ [prediction]
       | None => acc
       end)
    periods acc.

(** The loop over the dishes: the predictions and [dishes_processed]. *)
Definition predict_dishes (df : list HistRow) (target_date : string)
    (dishes : list (string * string)) : list Prediction * Z :=
  fold_left
    (fun '(predictions, dishes_processed) dish =>
       (predict_periods df target_date dish predictions, dishes_processed + 1))
    dishes ([], 0).

(** [generate_predictions] from its second statement on: [target_date] is
    the date after the first statement has put tomorrow in the place of a
    missing one, and [now] is the time of the data-store. Returns the result
    dictionary and the database. *)
Definition generate_predictions (now : string) (target_date : string)
    (db : Store) : gmap string PyVal * Store :=
  let historical_data := historical_order_data db in
  match historical_data with
  | [] =>
      ({[ "message" := VStr "No historical data available";
          "predictions_generated" := VInt 0 ]}, db)
  | _ :: _ =>
      let df := historical_data in
      let '(predictions, dishes_processed) :=
        predict_dishes df target_date (unique_dishes df) in
      let db :=
        match predictions with
        | [] => db
        | _ :: _ => save_predictions now predictions db
        end in
      ({[ "predictions_generated" := VInt (Z.of_nat (length predictions));
          "dishes_processed" := VInt dishes_processed;
          "target_date" := VStr target_date;
          "message" := VStr "Predictions generated successfully" ]}, db)
  end.

(** [DatabaseManager.get_predictions] as far as the stored columns go: the
    rows of one prediction date. *)
Definition get_predictions (date : string) (db : Store)
    : gmap (string * string * string) PredRow :=
  filter (fun kv => snd (fst (fst kv)) = date) (predictions db).

End Engine.

End PredictionEngine.

(** ** The sync service *)

Module SyncService.

(** [asyncio.CancelledError] is not an [Exception]: the handlers written
    [except Exception] let it pass. *)
Inductive exn : Type :=
| Exception (msg : string)
| CancelledError.

Inductive result (A : Type) : Type :=
| Return (a : A)
| Raise (e : exn).

Arguments Return {A} a.
Arguments Raise {A} e.

#[export] Instance result_bind : MBind result := fun A B k r =>
  match r with
  | Return a => k a
  | Raise e => Raise e
  end.

(** A row of the [sync_log] table (without its id and time stamp). *)
Record SyncLogRow : Type := mkLogRow {
  sync_type : string;
  status : string;
  records_affected : Z;
  error_message : option string
}.

(** The attributes of a [SyncService] object. *)
Record Service : Type := mkService {
  is_running : bool;
  last_sync : option string;
  sync_interval : Z;
  errors : list string
}.

(** The service, the [sync_log] table, and the sleeps done so far (in
    seconds, oldest first). *)
Record World : Type := mkWorld {
  self : Service;
  sync_log : list SyncLogRow;
  slept : list Z
}.

(** What the surroundings do during one turn of the loop: the readings of
    the clock, the outcome of the data-store calls of the three steps,
    whether the insert into [sync_log] goes through, and whether the task is
    cancelled while it sleeps ([sync_task.cancel()], which only
    [stop_auto_sync] calls). *)
Record Cycle : Type := mkCycle {
  now_synced : string;
  now_failed : string;
  now_loop : string;
  get_daily_sales : result bool;
  generate_predictions : Z -> result Z;
  delete_old_rows : result (Z * Z * Z);
  log_written : bool;
  sleep_cancelled : bool
}.

Definition _sync_analytics (c : Cycle) : result Z :=
  sales_data ← get_daily_sales c;
  if (sales_data : bool) then Return 1 else Return 0.

(** The loop over [range(1, 4)]: an [Exception] of one day is skipped. *)
Fixpoint sync_days (c : Cycle) (days : list Z) (predictions_generated : Z)
    : result Z :=
  match days with
  | [] => Return predictions_generated
  | days_ahead :: rest =>
      match generate_predictions c days_ahead with
      | Return n => sync_days c rest (predictions_generated + n)
      | Raise (Exception _) => sync_days c rest predictions_generated
      | Raise CancelledError => Raise CancelledError
      end
  end.

Definition _sync_predictions (c : Cycle) : result Z :=
  sync_days c [1; 2; 3] 0.

Definition _cleanup_old_data (c : Cycle) : result Z :=
  counts ← delete_old_rows c;
  let '(old_predictions, old_transactions, old_logs) := counts in
  Return (0 + old_predictions + old_transactions + old_logs).

(** [_log_sync_operation]: the insert into [sync_log]. Where the insert
    fails the handler of the function only reports it, and the table stays
    as it is. *)
Definition _log_sync_operation (c : Cycle) (status : string)
    (records_affected : Z) (error_message : option string) (w : World)
    : World :=
  if log_written c then
    {| self := self w;
       sync_log := sync_log w ++ [mkLogRow "auto_sync" status records_affected
                                     error_message];
       slept := slept w |}
  else w.

Definition set_last_sync (t : string) (w : World) : World :=
  {| self := {| is_running := is_running (self w);
                last_sync := Some t;
                sync_interval := sync_interval (self w);
                errors := errors (self w) |};
     sync_log := sync_log w;
     slept := slept w |}.

(** [self.errors.append(e)] *)
Definition errors_append (e : string) (w : World) : World :=
  {| self := {| is_running := is_running (self w);
                last_sync := last_sync (self w);
                sync_interval := sync_interval (self w);
                errors := errors (self w) ++ [e] |};
     sync_log := sync_log w;
     slept := slept w |}.

(** The three steps in the [try] of [manual_sync]. *)
Definition steps (c : Cycle) : result (Z * Z * Z) :=
  analytics_count ← _sync_analytics c;
  predictions_count ← _sync_predictions c;
  cleanup_count ← _cleanup_old_data c;
  Return (analytics_count, predictions_count, cleanup_count).

(** The dictionary [manual_sync] returns (without the duration). *)
Record SyncResult : Type := mkSyncResult {
  res_last_sync : string;
  res_analytics : Z;
  res_predictions : Z;
  res_cleanup : Z;
  res_status : string
}.

Definition manual_sync (c : Cycle) (w : World) : result SyncResult * World :=
  match steps c with
  | Return (analytics_count, predictions_count, cleanup_count) =>
      let w := set_last_sync (now_synced c) w in
      let w :=
        _log_sync_operation c "success"
          (analytics_count + predictions_count + cleanup_count) None w in
      (Return {| res_last_sync := now_synced c;
                 res_analytics := analytics_count;
                 res_predictions := predictions_count;
                 res_cleanup := cleanup_count;
                 res_status := "success" |}, w)
  | Raise (Exception e) =>
      let error_msg := "Sync failed: " +:+ e in
      let w := errors_append (now_failed c +:+ ": " +:+ error_msg) w in
      let w := _log_sync_operation c "error" 0 (Some error_msg) w in
      (Raise (Exception e), w)
  | Raise CancelledError => (Raise CancelledError, w)
  end.

(** [await asyncio.sleep(seconds)] when it is not cancelled. *)
Definition sleep (seconds : Z) (w : World) : World :=
  {| self := self w; sync_log := sync_log w; slept := slept w ++ [seconds] |}.

(** Where the task of [_sync_loop] stands: at the head of its [while], or
    ended. *)
Inductive loop_state : Type :=
| Looping (w : World)
| Exited (w : World).

Definition world_of (l : loop_state) : World :=
  match l with
  | Looping w | Exited w => w
  end.

(** [_sync_loop], one turn per element of the script. With the script
    used up the task stands at the head of the loop. *)
Fixpoint _sync_loop (script : list Cycle) (w : World) : loop_state :=
  match script with
  | [] => Looping w
  | c :: script =>
      if is_running (self w) then
        match manual_sync c w with
        | (Return _, w) =>
            if sleep_cancelled c then Exited w
            else _sync_loop script (sleep (sync_interval (self w)) w)
        | (Raise CancelledError, w) => Exited w
        | (Raise (Exception e), w) =>
            let w := errors_append (now_loop c +:+ ": " +:+ e) w in
            if sleep_cancelled c then Exited w
            else _sync_loop script (sleep 60 w)
        end
      else Exited w
  end.

(** The dictionary [get_status] returns. *)
Record Status : Type := mkStatus {
  st_is_running : bool;
  st_last_sync : option string;
  sync_interval_minutes : Z;
  recent_errors : list string;
  total_errors : Z
}.

(** [l[-n:]] *)
Definition last_n {A : Type} (n : nat) (l : list A) : list A :=
  drop (length l - n)%nat l.

Definition get_status (s : Service) : Status :=
  {| st_is_running := is_running s;
     st_last_sync := last_sync s;
     sync_interval_minutes := sync_interval s / 60;
     recent_errors :=
       match errors s with
       | [] => []
       | _ :: _ => last_n 5 (errors s)
       end;
     total_errors := Z.of_nat (length (errors s)) |}.

(** *** Vocabulary of the statements *)

(** The message of the [Exception] the cycle raises, if it raises one. *)
Definition failure (c : Cycle) : option string :=
  match steps c with
  | Raise (Exception e) => Some e
  | _ => None
  end.

Definition message (c : Cycle) : string := default "" (failure c).

(** The cycle fails, and the sleep that follows is not cancelled. *)
Definition fails_and_sleeps (c : Cycle) : bool :=
  match failure c with
  | Some _ => negb (sleep_cancelled c)
  | None => false
  end.

(** The task is cancelled during the turn: in the cycle or in the sleep. *)
Definition cancelled (c : Cycle) : Prop :=
  steps c = Raise CancelledError \/ sleep_cancelled c = true.

(** The row [manual_sync] logs for a failure with the message [e]. *)
Definition error_row (e : string) : SyncLogRow :=
  mkLogRow "auto_sync" "error" 0 (Some ("Sync failed: " +:+ e)).

(** The two entries a failed turn of the loop appends to [errors]: the one
    of [manual_sync], then the one of the loop. *)
Definition error_entries (c : Cycle) : list string :=
  match failure c with
  | Some e => [now_failed c +:+ ": " +:+ ("Sync failed: " +:+ e);
               now_loop c +:+ ": " +:+ e]
  | None => []
  end.

(** The row a failed turn adds to the sync log, where the insert goes
    through. *)
Definition log_entries (c : Cycle) : list SyncLogRow :=
  match failure c with
  | Some e => if log_written c then [error_row e] else []
  | None => []
  end.

End SyncService.

(** ** Vocabulary of the statements *)

Module Vocabulary.

Import PredictionEngine.

(** Equality of floats up to the representation of a rational. *)
Definition np_eq (a b : npfloat) : Prop :=
  match a, b with
  | Fin x, Fin y => (x == y)%Q
  | PInf, PInf | NInf, NInf | NaN, NaN => True
  | _, _ => False
  end.

(** [clamp(x, lo, hi)] *)
Definition clamp (x lo hi : Q) : Q := Qmax lo (Qmin hi x).

(** The mean of a series that is not empty. *)
Definition average (ys : list Z) : Q := sum ys # Pos.of_nat (length ys).

(** The mean of the available quantities, or 5 if there are none. *)
Definition fallback_average (ys : list Z) : Q :=
  match ys with
  | [] => 5
  | _ :: _ => average ys
  end.

(** The fixed label of a daypart. *)
Definition period_factor (period : string) : option string :=
  if String.eqb period "morning" then Some "Breakfast/morning rush"
  else if String.eqb period "afternoon" then Some "Lunch period demand"
  else if String.eqb period "evening" then Some "Dinner rush period"
  else None.

(** The key of the row a prediction is saved in. *)
Definition key_of (p : Prediction) : string * string * string :=
  (p_dish_id p, prediction_date p, p_period p).

(** The columns [save_predictions] fills from a prediction. *)
Definition columns_of (p : Prediction) : Z * npfloat * Z * list string :=
  (predicted_demand p, confidence p, recommended_prep p, factors p).

(** The columns of a row that [save_predictions] writes. *)
Definition written_columns (r : PredRow)
    : Z * npfloat * Z * list string :=
  (row_predicted_demand r, row_confidence r, row_recommended_prep r,
   row_factors r).



Definition weekday_factors (day : string) : list string :=
  ["Weekend boost (" +:+ day +:+ ")"; "Weekend decline (" +:+ day +:+ ")";
   "Weekday pattern (" +:+ day +:+ ")"].

Definition trend_factors : list string :=
  ["Upward trend detected"; "Downward trend detected"; "Stable demand pattern"].

Definition season_factors : list string :=
  ["Winter seasonality"; "Summer seasonality"].

(** The forecast of the fallback branch for the average [avg]. *)
Definition fallback_of (avg : Q) (dish name per target : string) : Prediction :=
  {| p_dish_id := dish;
     p_dish_name := name;
     p_period := per;
     predicted_demand := Z.max 1 (trunc avg);
     confidence := Fin 60.0;
     recommended_prep := Z.max 2 (trunc (avg * 1.2));
     factors := ["Limited historical data"; "Fallback average"];
     prediction_date := target |}.

(** The forecast of the fitted branch for the model output [fc], the mean
    [avg] of the series and the factors [fs]. *)
Definition fitted_of (fc : Forecast) (avg : npfloat) (fs : list string)
    (dish name per target : string) : Prediction :=
  let value := py_maxQ 1 (yhat fc) in
  let width := (yhat_upper fc - py_maxQ 0 (yhat_lower fc))%Q in
  let raw := raw_confidence width avg in
  {| p_dish_id := dish;
     p_dish_name := name;
     p_period := per;
     predicted_demand := trunc value;
     confidence := np_round1 raw;
     recommended_prep := Z.max 2 (trunc (value * safety_multiplier raw));
     factors := fs;
     prediction_date := target |}.

Section WithLibraries.

Context `{Libs : Libraries}.

(** The four rules of [_analyze_prediction_factors], each with the
    entries it adds. *)
Definition weekday_part (t : Timestamp) (data : list (Timestamp * Z))
    : list string :=
  let dow := dow_index (dayofweek t) in
  if (5 <=? dow)%nat then
    let weekend_avg := mean (map snd (List.filter is_weekend data)) in
    let weekday_avg :=
      mean (map snd (List.filter (fun r => negb (is_weekend r)) data)) in
    if np_ltb (np_scale weekday_avg 1.2) weekend_avg then
      ["Weekend boost (" +:+ nth dow dow_names "" +:+ ")"]
    else if np_ltb weekend_avg (np_scale weekday_avg 0.8) then
      ["Weekend decline (" +:+ nth dow dow_names "" +:+ ")"]
    else []
  else ["Weekday pattern (" +:+ nth dow dow_names "" +:+ ")"].

Definition period_part (period : string) : list string :=
  match period_factor period with
  | Some label => [label]
  | None => []
  end.

Definition trend_part (data : list (Timestamp * Z)) : list string :=
  let recent := tail 10 data in
  if (5 <=? length recent)%nat then
    if np_ltb (np_scale (mean (map snd data)) 1.15) (mean (map snd recent))
    then ["Upward trend detected"]
    else if np_ltb (mean (map snd recent)) (np_scale (mean (map snd data)) 0.85)
    then ["Downward trend detected"]
    else ["Stable demand pattern"]
  else [].

Definition season_part (t : Timestamp) : list string :=
  if existsb (Z.eqb (month t)) [12; 1; 2] then ["Winter seasonality"]
  else if existsb (Z.eqb (month t)) [6; 7; 8] then ["Summer seasonality"]
  else [].

(** The forecast requests of a batch: every dish with each of the three
    periods, in the order of the loops. *)
Definition requests (dishes : list (string * string))
    : list (string * string * string) :=
  flat_map (fun dish => map (fun period => (fst dish, snd dish, period)) periods)
    dishes.

Definition answer (df : list HistRow) (target_date : string)
    (request : string * string * string) : option Prediction :=
  _predict_dish_demand df (fst (fst request)) (snd (fst request)) (snd request)
    target_date.

(** The forecasts of a batch: the answers to the requests that have
    one. *)
Definition produced (df : list HistRow) (target_date : string)
    (dishes : list (string * string)) : list Prediction :=
  omap (answer df target_date) (requests dishes).


End WithLibraries.

End Vocabulary.

(** ** Sample data *)

Module Samples.

Import PredictionEngine.

(** A calendar given by a table, and a model that returns the same
    forecast for every series ([None]: the fit raises). *)
Definition table_libs (calendar : list (string * (Weekday * Z)))
    (fit : option Forecast) : Libraries :=
  {| Timestamp := Weekday * Z;
     to_datetime := fun s =>
       snd <$> List.find (fun e => String.eqb (fst e) s) calendar;
     dayofweek := fst;
     month := snd;
     prophet := fun _ _ => fit |}.

Definition june : list (string * (Weekday * Z)) :=
  [("2024-06-01", (Saturday, 6)); ("2024-06-02", (Sunday, 6));
   ("2024-06-03", (Monday, 6)); ("2024-06-04", (Tuesday, 6));
   ("2024-06-05", (Wednesday, 6)); ("2024-06-06", (Thursday, 6));
   ("2024-06-07", (Friday, 6)); ("2024-06-08", (Saturday, 6))].

Definition fit_5_8 : Forecast :=
  {| yhat := 5.8; yhat_lower := 5; yhat_upper := 6.0625 |}.

Definition libs : Libraries := table_libs june (Some fit_5_8).

Definition soup (day per : string) (quantity : Z) : HistRow :=
  {| ds := day; period := per; dish_id := "d1"; dish_name := "Soup";
     y := quantity |}.

(** Four mornings with the quantities 3, 4, 3 and 5. *)
Definition four_mornings : list HistRow :=
  [soup "2024-06-03" "morning" 3; soup "2024-06-04" "morning" 4;
   soup "2024-06-05" "morning" 3; soup "2024-06-06" "morning" 5].

Definition five_mornings : list HistRow :=
  four_mornings ++ [soup "2024-06-07" "morning" 5].

(** The Saturday the samples forecast. *)
Definition target : string := "2024-06-08".

Definition empty_store (history : list HistRow) : Store :=
  {| historical_order_data := history; predictions := ∅;
     predictions_seq := 0 |}.

(** The forecast of the five mornings with the model of [libs]. *)
Definition fitted_morning : Prediction :=
  {| p_dish_id := "d1";
     p_dish_name := "Soup";
     p_period := "morning";
     predicted_demand := 5;
     confidence := Fin 73.4;
     recommended_prep := 7;
     factors := ["Breakfast/morning rush"; "Stable demand pattern";
                 "Summer seasonality"];
     prediction_date := target |}.

(** The database after a first call at ten o'clock, and after a second
    call an hour later. *)
Definition after_first : Store :=
  snd (@generate_predictions libs "2024-06-07 10:00:00" target
         (empty_store four_mornings)).


(** A running service, and a cycle whose retention step raises. *)
Definition running : SyncService.World :=
  {| SyncService.self :=
       {| SyncService.is_running := true;
          SyncService.last_sync := None;
          SyncService.sync_interval := 3600;
          SyncService.errors := [] |};
     SyncService.sync_log := [];
     SyncService.slept := [] |}.

Definition locked : SyncService.Cycle :=
  {| SyncService.now_synced := "2024-06-07T10:00:00";
     SyncService.now_failed := "2024-06-07T10:00:01";
     SyncService.now_loop := "2024-06-07T10:00:02";
     SyncService.get_daily_sales := SyncService.Return true;
     SyncService.generate_predictions := fun _ => SyncService.Return 3;
     SyncService.delete_old_rows :=
       SyncService.Raise (SyncService.Exception "database is locked");
     SyncService.log_written := true;
     SyncService.sleep_cancelled := false |}.

(** The same cycle with a database that also refuses the insert into
    [sync_log]. *)
Definition unlogged : SyncService.Cycle :=
  {| SyncService.now_synced := "2024-06-07T10:00:00";
     SyncService.now_failed := "2024-06-07T10:00:01";
     SyncService.now_loop := "2024-06-07T10:00:02";
     SyncService.get_daily_sales := SyncService.Return true;
     SyncService.generate_predictions := fun _ => SyncService.Return 3;
     SyncService.delete_old_rows :=
       SyncService.Raise (SyncService.Exception "database is locked");
     SyncService.log_written := false;
     SyncService.sleep_cancelled := false |}.

End Samples.

(** ** The sync service: control and the course of a run *)

Module SyncControl.

Import SyncService.

(** [set_sync_interval]: a [ValueError] below one minute. *)
Definition set_sync_interval (minutes : Z) (s : Service) : result Service :=
  if (minutes <? 1)%Z then
    Raise (Exception "Sync interval must be at least 1 minute")
  else
    Return {| is_running := is_running s;
              last_sync := last_sync s;
              sync_interval := minutes * 60;
              errors := errors s |}.

(** [start_auto_sync]: the service, and whether a task for [_sync_loop]
    was created. *)
Definition start_auto_sync (s : Service) : Service * bool :=
  if is_running s then (s, false)
  else ({| is_running := true;
           last_sync := last_sync s;
           sync_interval := sync_interval s;
           errors := errors s |}, true).

(** Calls of [start_auto_sync] in a row: the service, and the number of
    tasks created. *)
Fixpoint starts (n : nat) (s : Service) : Service * nat :=
  match n with
  | O => (s, O)
  | S n =>
      let '(s, created) := start_auto_sync s in
      let '(s, tasks) := starts n s in
      (s, ((if created then 1 else 0) + tasks)%nat)
  end.

(** *** Vocabulary of the statements *)


(** The row a turn adds to the sync log, where the insert goes through. *)
Definition log_rows (c : Cycle) : list SyncLogRow :=
  if log_written c then
    match steps c with
    | Return (analytics_count, predictions_count, cleanup_count) =>
        [mkLogRow "auto_sync" "success"
           (analytics_count + predictions_count + cleanup_count) None]
    | Raise (Exception e) => [error_row e]
    | Raise CancelledError => []
    end
  else [].

(** The sleep a turn ends with, for the interval [interval] of the
    service. *)
Definition sleeps (interval : Z) (c : Cycle) : list Z :=
  match steps c with
  | Return _ => if sleep_cancelled c then [] else [interval]
  | Raise (Exception _) => if sleep_cancelled c then [] else [60]
  | Raise CancelledError => []
  end.

(** The count a day of [_sync_predictions] adds. *)
Definition day_count (c : Cycle) (days_ahead : Z) : Z :=
  match generate_predictions c days_ahead with
  | Return n => n
  | Raise _ => 0
  end.

Definition day_cancelled (c : Cycle) (days_ahead : Z) : bool :=
  match generate_predictions c days_ahead with
  | Raise CancelledError => true
  | _ => false
  end.

(** The cycle goes through, and the sleep that follows is not
    cancelled. *)
Definition succeeds_and_sleeps (c : Cycle) : bool :=
  match steps c with
  | Return _ => negb (sleep_cancelled c)
  | Raise _ => false
  end.

(** [records_affected] of a cycle that goes through. *)
Definition records (c : Cycle) : Z :=
  match steps c with
  | Return (analytics_count, predictions_count, cleanup_count) =>
      analytics_count + predictions_count + cleanup_count
  | Raise _ => 0
  end.

End SyncControl.

(** ** Further vocabulary of the statements on the engine *)

Module Batch.

Import PredictionEngine Vocabulary.

(** The last prediction of a list that is saved under the key [k]. *)
Definition last_for (k : string * string * string) (preds : list Prediction)
    : option Prediction :=
  last (List.filter (fun p => bool_decide (key_of p = k)) preds).



End Batch.

(** ** Sales analytics ([DatabaseManager.get_sales_data]) *)

Module Analytics.

(** One row of the query of [get_sales_data]: a date and a period with
    the count, the sum and the average of the totals of their orders. The
    sum and the average may be NULL. *)
Record SalesRow : Type := mkSalesRow {
  sr_date : string;
  sr_period : string;
  orders_count : Z;
  revenue : option Q;
  avg_order_value : option Q
}.

(** The dictionary of one period. *)
Record PeriodData : Type := mkPeriodData {
  orders : Z;
  pd_revenue : Q;
  avg_order : Q
}.

(** The dictionary of one date. *)
Record DaySales : Type := mkDaySales {
  date : string;
  morning : PeriodData;
  afternoon : PeriodData;
  evening : PeriodData;
  total : PeriodData
}.

Definition nothing : PeriodData :=
  {| orders := 0; pd_revenue := 0; avg_order := 0 |}.

Definition fresh (d : string) : DaySales :=
  {| date := d; morning := nothing; afternoon := nothing; evening := nothing;
     total := nothing |}.

(** [float(x or 0)] *)
Definition or_zero (x : option Q) : Q := default 0%Q x.

Definition data_of (row : SalesRow) : PeriodData :=
  {| orders := orders_count row;
     pd_revenue := or_zero (revenue row);
     avg_order := or_zero (avg_order_value row) |}.

(** [sales_by_date[date][period] = data] for one of the three periods. *)
Definition assign (period : string) (data : PeriodData) (day : DaySales)
    : DaySales :=
  if String.eqb period "morning" then
    {| date := date day; morning := data; afternoon := afternoon day;
       evening := evening day; total := total day |}
  else if String.eqb period "afternoon" then
    {| date := date day; morning := morning day; afternoon := data;
       evening := evening day; total := total day |}
  else
    {| date := date day; morning := morning day; afternoon := afternoon day;
       evening := data; total := total day |}.

(** [sales_by_date], a dictionary in the order of insertion: [key in d]
    and the change of the value of a key. *)
Definition has_key {A : Type} (k : string) (d : list (string * A)) : bool :=
  existsb (fun e => String.eqb (fst e) k) d.

Fixpoint alter_at {A : Type} (f : A -> A) (k : string) (d : list (string * A))
    : list (string * A) :=
  match d with
  | [] => []
  | (k', v) :: rest =>
      if String.eqb k' k then (k', f v) :: rest
      else (k', v) :: alter_at f k rest
  end.

Definition is_daypart (period : string) : bool :=
  existsb (String.eqb period) ["morning"; "afternoon"; "evening"].

(** The body of the first loop. *)
Definition group_row (sales_by_date : list (string * DaySales))
    (row : SalesRow) : list (string * DaySales) :=
  let date := sr_date row in
  let sales_by_date :=
    if has_key date sales_by_date then sales_by_date
    else sales_by_date ++ [(date, fresh date)] in
  let period := sr_period row in
  if is_daypart period then
    alter_at (assign period (data_of row)) date sales_by_date
  else sales_by_date.

(** The body of the second loop. *)
Definition with_total (date_data : DaySales) : DaySales :=
  let total_orders :=
    orders (morning date_data) + orders (afternoon date_data)
    + orders (evening date_data) in
  let total_revenue :=
    (pd_revenue (morning date_data) + pd_revenue (afternoon date_data)
     + pd_revenue (evening date_data))%Q in
  {| date := date date_data;
     morning := morning date_data;
     afternoon := afternoon date_data;
     evening := evening date_data;
     total := {| orders := total_orders;
                 pd_revenue := total_revenue;
                 avg_order :=
                   if (0 <? total_orders)%Z
                   then (total_revenue / inject_Z total_orders)%Q
                   else 0%Q |} |}.

(** [get_sales_data] on the rows [results] of its query. *)
Definition get_sales_data (results : list SalesRow) : list DaySales :=
  let sales_by_date := fold_left group_row results [] in
  map (fun e => with_total (snd e)) sales_by_date.

(** [get_daily_sales] on the rows of the query for the one date. *)
Definition get_daily_sales (results : list SalesRow) : option DaySales :=
  match get_sales_data results with
  | [] => None
  | first :: _ => Some first
  end.

(** *** Vocabulary of the statements *)

(** The rows of a date and period. *)
Definition rows_of (results : list SalesRow) (d period : string)
    : list SalesRow :=
  List.filter
    (fun r => String.eqb (sr_date r) d && String.eqb (sr_period r) period)
    results.

(** The data of the last row of a date and period, and nothing if there is
    no such row. *)
Definition entry_for (results : list SalesRow) (d period : string)
    : PeriodData :=
  match last (rows_of results d period) with
  | Some row => data_of row
  | None => nothing
  end.

(** The dictionary of a date after the first loop. *)
Definition shape (results : list SalesRow) (d : string) : DaySales :=
  {| date := d;
     morning := entry_for results d "morning";
     afternoon := entry_for results d "afternoon";
     evening := entry_for results d "evening";
     total := nothing |}.

(** The rows of a date in one of the three periods. *)
Definition daypart_rows (results : list SalesRow) (d : string)
    : list SalesRow :=
  List.filter
    (fun r => String.eqb (sr_date r) d && is_daypart (sr_period r)) results.

(** The key by which the query groups. *)
Definition group_key (r : SalesRow) : string * string :=
  (sr_date r, sr_period r).

End Analytics.

(** ** What SQLite does to the values bound to a statement *)

Module Sqlite.

(** An integer that fits INTEGER, 64 bits with a sign: binding another one
    raises OverflowError. *)
Definition fits64 (n : Z) : bool := (- 2 ^ 63 <=? n)%Z && (n <? 2 ^ 63)%Z.

Definition hyphen : Ascii.ascii := Ascii.ascii_of_nat 45.

Definition is_digit (c : Ascii.ascii) : bool :=
  (48 <=? Ascii.nat_of_ascii c)%nat && (Ascii.nat_of_ascii c <=? 57)%nat.

(** A date as [strftime('%Y-%m-%d')] writes it. A column declared DATE
    has NUMERIC affinity: a text that reads as a number is stored as that
    number, so that two such texts may be one value. A date of this form
    does not read as a number and is stored as the text it is. *)
Definition iso_date (s : string) : bool :=
  match list_ascii_of_string s with
  | [y1; y2; y3; y4; h1; m1; m2; h2; d1; d2] =>
      forallb is_digit [y1; y2; y3; y4; m1; m2; d1; d2]
      && Ascii.eqb h1 hyphen && Ascii.eqb h2 hyphen
  | _ => false
  end.

End Sqlite.

(** ** Orders and stock ([DatabaseManager.create_order],
    [_update_inventory_for_dish], [update_ingredient_quantity]) *)

Module Inventory.

Import SyncService.

(** A row of [ingredients]. The columns the database clock fills are left
    out, here and in the other tables. A REAL column without NOT NULL may
    hold NULL ([None]); the numbers are finite and idealised as
    rationals. *)
Record Ingredient : Type := mkIngredient {
  ing_name : string;
  unit : string;
  quantity_today : option Q;
  min_threshold : option Q;
  cost_per_unit : option Q;
  supplier : option string
}.

(** A row of [dish_ingredients]. *)
Record DishIngredient : Type := mkDishIngredient {
  di_dish_id : string;
  di_ingredient_id : string;
  di_quantity : Q
}.

(** A row of [orders], under its id. *)
Record OrderRow : Type := mkOrderRow {
  total : Q;
  subtotal : Q;
  tax : Q;
  order_status : string;
  payment_method : option string;
  customer_id : option string;
  cashier_id : option string
}.

(** A row of [order_items]. *)
Record OrderItemRow : Type := mkOrderItemRow {
  oi_order_id : string;
  oi_dish_id : string;
  oi_quantity : Z;
  oi_price : Q;
  oi_notes : option string
}.

(** A row of [inventory_transactions]. *)
Record Transaction : Type := mkTransaction {
  tx_ingredient_id : string;
  transaction_type : string;
  quantity_change : Q;
  reference_id : option string;
  tx_notes : option string
}.

(** The tables the order operations touch: [dishes] by its ids,
    [ingredients] and [orders] by their primary key, the others in the order
    of their row ids. *)
Record Tables : Type := mkTables {
  dishes : gset string;
  ingredients : gmap string Ingredient;
  dish_ingredients : list DishIngredient;
  orders : gmap string OrderRow;
  order_items : list OrderItemRow;
  inventory_transactions : list Transaction
}.

(** An item of an order and the order, as the request model [OrderCreate]
    dumps them. *)
Record OrderItem : Type := mkOrderItem {
  item_dish_id : string;
  item_quantity : Z;
  item_price : Q;
  item_notes : option string
}.

Record OrderData : Type := mkOrderData {
  od_total : Q;
  od_subtotal : Q;
  od_tax : Q;
  od_payment_method : string;
  od_customer_id : option string;
  od_cashier_id : string;
  items : list OrderItem
}.

Definition set_ingredients (f : gmap string Ingredient -> gmap string Ingredient)
    (t : Tables) : Tables :=
  {| dishes := dishes t;
     ingredients := f (ingredients t);
     dish_ingredients := dish_ingredients t;
     orders := orders t;
     order_items := order_items t;
     inventory_transactions := inventory_transactions t |}.

(** [SET quantity_today = ...] on one row. *)
Definition set_quantity (f : option Q -> option Q) (row : Ingredient)
    : Ingredient :=
  {| ing_name := ing_name row;
     unit := unit row;
     quantity_today := f (quantity_today row);
     min_threshold := min_threshold row;
     cost_per_unit := cost_per_unit row;
     supplier := supplier row |}.

(** [INSERT INTO inventory_transactions]: the connection enforces foreign
    keys, so the ingredient has to exist. *)
Definition insert_transaction (tx : Transaction) (t : Tables)
    : result Tables :=
  if bool_decide (tx_ingredient_id tx ∈ dom (ingredients t)) then
    Return {| dishes := dishes t;
              ingredients := ingredients t;
              dish_ingredients := dish_ingredients t;
              orders := orders t;
              order_items := order_items t;
              inventory_transactions := inventory_transactions t ++ [tx] |}
  else Raise (Exception "FOREIGN KEY constraint failed").

(** [INSERT INTO orders]: the id is the primary key. *)
Definition insert_order (order_id : string) (row : OrderRow) (t : Tables)
    : result Tables :=
  if bool_decide (order_id ∈ dom (orders t)) then
    Raise (Exception "UNIQUE constraint failed: orders.id")
  else
    Return {| dishes := dishes t;
              ingredients := ingredients t;
              dish_ingredients := dish_ingredients t;
              orders := <[order_id := row]> (orders t);
              order_items := order_items t;
              inventory_transactions := inventory_transactions t |}.

(** [INSERT INTO order_items]: the quantity has to fit INTEGER when it is
    bound, and the order and the dish have to exist. *)
Definition insert_order_item (row : OrderItemRow) (t : Tables)
    : result Tables :=
  if negb (Sqlite.fits64 (oi_quantity row)) then
    Raise (Exception "Python int too large to convert to SQLite INTEGER")
  else if bool_decide (oi_order_id row ∈ dom (orders t))
     && bool_decide (oi_dish_id row ∈ dishes t) then
    Return {| dishes := dishes t;
              ingredients := ingredients t;
              dish_ingredients := dish_ingredients t;
              orders := orders t;
              order_items := order_items t ++ [row];
              inventory_transactions := inventory_transactions t |}
  else Raise (Exception "FOREIGN KEY constraint failed").

(** A [for] loop whose body may raise. *)
Fixpoint for_each {A S : Type} (body : S -> A -> result S) (xs : list A)
    (s : S) : result S :=
  match xs with
  | [] => Return s
  | x :: xs => s' ← body s x; for_each body xs s'
  end.

(** The body of the loop of [_update_inventory_for_dish]. A NULL stock
    stays NULL under the subtraction. *)
Definition use_ingredient (quantity : Z) (order_id : string) (t : Tables)
    (ingredient : DishIngredient) : result Tables :=
  let ingredient_id := di_ingredient_id ingredient in
  let usage_quantity := (di_quantity ingredient * inject_Z quantity)%Q in
  let t :=
    set_ingredients
      (alter (set_quantity (fmap (fun q => (q - usage_quantity)%Q)))
         ingredient_id) t in
  insert_transaction
    {| tx_ingredient_id := ingredient_id;
       transaction_type := "usage";
       quantity_change := (- usage_quantity)%Q;
       reference_id := Some order_id;
       tx_notes := None |} t.

Definition _update_inventory_for_dish (t : Tables) (dish_id : string)
    (quantity : Z) (order_id : string) : result Tables :=
  let ingredients :=
    List.filter (fun r => String.eqb (di_dish_id r) dish_id)
      (dish_ingredients t) in
  for_each (use_ingredient quantity order_id) ingredients t.

(** The body of the loop of [create_order]. *)
Definition add_item (order_id : string) (t : Tables) (item : OrderItem)
    : result Tables :=
  t ← insert_order_item
        {| oi_order_id := order_id;
           oi_dish_id := item_dish_id item;
           oi_quantity := item_quantity item;
           oi_price := item_price item;
           oi_notes := item_notes item |} t;
  _update_inventory_for_dish t (item_dish_id item) (item_quantity item)
    order_id.

(** [create_order], with the id [uuid4] draws: the answer and the tables
    afterwards, committed or rolled back. *)
Definition create_order (order_id : string) (order_data : OrderData)
    (t : Tables) : result string * Tables :=
  let attempt :=
    t ← insert_order order_id
          {| total := od_total order_data;
             subtotal := od_subtotal order_data;
             tax := od_tax order_data;
             order_status := "completed";
             payment_method := Some (od_payment_method order_data);
             customer_id := od_customer_id order_data;
             cashier_id := Some (od_cashier_id order_data) |} t;
    for_each (add_item order_id) (items order_data) t in
  match attempt with
  | Return t' => (Return order_id, t')
  | Raise e => (Raise e, t)
  end.

(** [update_ingredient_quantity]: the tables afterwards, and what it
    raises if it does. *)
Definition update_ingredient_quantity (ingredient_id : string) (quantity : Q)
    (t : Tables) : option exn * Tables :=
  let attempt :=
    insert_transaction
      {| tx_ingredient_id := ingredient_id;
         transaction_type := "adjustment";
         quantity_change := quantity;
         reference_id := None;
         tx_notes := Some "Manual quantity update" |}
      (set_ingredients
         (alter (set_quantity (fun _ => Some quantity)) ingredient_id) t) in
  match attempt with
  | Return t' => (None, t')
  | Raise e => (Some e, t)
  end.

Definition get_ingredient_by_id (ingredient_id : string) (t : Tables)
    : option Ingredient :=
  ingredients t !! ingredient_id.

(** *** Vocabulary of the statements *)

Definition sumQ (qs : list Q) : Q := fold_right Qplus 0%Q qs.

(** The stock of an ingredient, where it has a row with a stock. *)
Definition stock (t : Tables) (ingredient_id : string) : option Q :=
  row ← ingredients t !! ingredient_id; quantity_today row.

(** The rows of [dish_ingredients] of a dish. *)
Definition recipe (t : Tables) (dish_id : string) : list DishIngredient :=
  List.filter (fun r => String.eqb (di_dish_id r) dish_id)
    (dish_ingredients t).

(** What an order uses: an ingredient and a quantity for every row of the
    recipe of every item. *)
Definition usages (t : Tables) (order_items : list OrderItem)
    : list (string * Q) :=
  flat_map
    (fun item =>
       map (fun r => (di_ingredient_id r,
                      (di_quantity r * inject_Z (item_quantity item))%Q))
         (recipe t (item_dish_id item)))
    order_items.

(** The quantity of an ingredient in a list of uses, and the quantity an
    order uses. *)
Definition amount (us : list (string * Q)) (ingredient_id : string) : Q :=
  sumQ (map snd (List.filter (fun u => String.eqb (fst u) ingredient_id) us)).

Definition used (t : Tables) (order_items : list OrderItem)
    (ingredient_id : string) : Q :=
  amount (usages t order_items) ingredient_id.

(** The rows written for a use and for an item. *)
Definition usage_row (order_id : string) (u : string * Q) : Transaction :=
  {| tx_ingredient_id := fst u;
     transaction_type := "usage";
     quantity_change := (- snd u)%Q;
     reference_id := Some order_id;
     tx_notes := None |}.

Definition item_row (order_id : string) (item : OrderItem) : OrderItemRow :=
  {| oi_order_id := order_id;
     oi_dish_id := item_dish_id item;
     oi_quantity := item_quantity item;
     oi_price := item_price item;
     oi_notes := item_notes item |}.

(** The sum of the changes logged for an ingredient. *)
Definition logged (txs : list Transaction) (ingredient_id : string) : Q :=
  sumQ (map quantity_change
          (List.filter (fun tx => String.eqb (tx_ingredient_id tx) ingredient_id)
             txs)).

(** [t'] is [t] after the uses [us] of an order: a row logged for every
    use, the stock of every ingredient lowered by its amount, and the other
    tables but [order_items] as they were. *)
Definition after_uses (order_id : string) (us : list (string * Q))
    (t t' : Tables) : Prop :=
  dishes t' = dishes t
  /\ dish_ingredients t' = dish_ingredients t
  /\ orders t' = orders t
  /\ dom (ingredients t') = dom (ingredients t)
  /\ inventory_transactions t'
     = inventory_transactions t ++ map (usage_row order_id) us
  /\ (forall i q0, stock t i = Some q0 ->
        exists q', stock t' i = Some q' /\ q' == q0 - amount us i)
  /\ (forall i, stock t i = None -> stock t' i = None)
  /\ (forall i, ~ In i (map fst us) ->
        ingredients t' !! i = ingredients t !! i).

(** The quantities of the items fit INTEGER, their dishes exist, and so do
    the ingredients of their recipes. *)
Definition orderable (t : Tables) (order_items : list OrderItem) : Prop :=
  Forall (fun item => Sqlite.fits64 (item_quantity item) = true) order_items
  /\ Forall (fun item => item_dish_id item ∈ dishes t) order_items
  /\ Forall (fun u => fst u ∈ dom (ingredients t)) (usages t order_items).

End Inventory.

(** ** Two endpoints of [main.py] *)

Module Endpoints.

Import SyncService.

(** What the body of an endpoint raises: an [HTTPException] of its own,
    or what the data store raised. What it comes to: the data to answer
    with, or something raised. *)
Inductive raised : Type :=
| Http (status_code : Z) (detail : string)
| Store (e : exn).

Inductive body (A : Type) : Type :=
| Answers (data : A)
| Raises (r : raised).

Arguments Answers {A} data.
Arguments Raises {A} r.

(** What the client gets: [ApiResponse(success=True, data=...)], an
    [HTTPException] turned into an error response, or, where a
    [CancelledError] passes, nothing from the endpoint. *)
Inductive reply (A : Type) : Type :=
| ApiResponse (data : A)
| HTTPException (status_code : Z) (detail : string)
| Passes.

Arguments ApiResponse {A} data.
Arguments HTTPException {A} status_code detail.
Arguments Passes {A}.

(** What becomes of the reply of an endpoint with a [response_model]: it
    is sent, or, where the data it returns do not fit the model, FastAPI
    answers 500 in its place; that is after the endpoint has returned, so
    that its handler does not see it. *)
Inductive response (A : Type) : Type :=
| Sent (r : reply A)
| ResponseValidationError.

Arguments Sent {A} r.
Arguments ResponseValidationError {A}.

Definition response_model {A : Type} (fits : A -> bool) (r : reply A)
    : response A :=
  match r with
  | ApiResponse data => if fits data then Sent r else ResponseValidationError
  | HTTPException _ _ | Passes => Sent r
  end.

(** [IngredientResponse] on a row of [ingredients]: [quantity_today] and
    [min_threshold] are floats there, so NULL does not fit; [cost_per_unit]
    and [supplier] are optional. *)
Definition IngredientResponse (row : Inventory.Ingredient) : bool :=
  bool_decide (is_Some (Inventory.quantity_today row))
  && bool_decide (is_Some (Inventory.min_threshold row)).

Section Handler.

(** [str()] of an [HTTPException], which Starlette defines. *)
Variable http_str : Z -> string -> string.

(** [try: ... except Exception as e: raise HTTPException(status_code=500,
    detail=str(e))]. An [HTTPException] is an [Exception]. *)
Definition except_exception {A : Type} (b : body A) : reply A :=
  match b with
  | Answers data => ApiResponse data
  | Raises (Http status_code detail) =>
      HTTPException 500 (http_str status_code detail)
  | Raises (Store (Exception msg)) => HTTPException 500 msg
  | Raises (Store CancelledError) => Passes
  end.

(** [GET /api/analytics/daily-sales], on the rows of the query of
    [db.get_daily_sales]. *)
Definition get_daily_sales (results : list Analytics.SalesRow)
    : reply Analytics.DaySales :=
  except_exception
    match Analytics.get_daily_sales results with
    | Some daily_sales => Answers daily_sales
    | None => Raises (Http 404 "No sales data found for this date")
    end.

(** [PUT /api/ingredients/{ingredient_id}/quantity], with
    [response_model=ApiResponse[IngredientResponse]]: what the client gets
    and the tables afterwards. *)
Definition update_ingredient_quantity (ingredient_id : string) (quantity : Q)
    (t : Inventory.Tables)
    : response Inventory.Ingredient * Inventory.Tables :=
  let '(failure, t) :=
    Inventory.update_ingredient_quantity ingredient_id quantity t in
  (response_model IngredientResponse
     (except_exception
        match failure with
        | Some e => Raises (Store e)
        | None =>
            match Inventory.get_ingredient_by_id ingredient_id t with
            | Some updated_ingredient => Answers updated_ingredient
            | None => Raises (Http 404 "Ingredient not found")
            end
        end), t).

End Handler.

End Endpoints.

(** ** Further sample data *)

Module MoreSamples.

Import PredictionEngine Samples.

(** A cycle in which everything goes through: sales for yesterday, three
    forecasts a day, and three old rows deleted. *)
Definition smooth : SyncService.Cycle :=
  {| SyncService.now_synced := "2024-06-07T11:00:00";
     SyncService.now_failed := "2024-06-07T11:00:01";
     SyncService.now_loop := "2024-06-07T11:00:02";
     SyncService.get_daily_sales := SyncService.Return true;
     SyncService.generate_predictions := fun _ => SyncService.Return 3;
     SyncService.delete_old_rows := SyncService.Return (2, 1, 0);
     SyncService.log_written := true;
     SyncService.sleep_cancelled := false |}.

(** The world [running] once the interval is set to half an hour. *)
Definition half_hourly : SyncService.World :=
  {| SyncService.self :=
       {| SyncService.is_running := true;
          SyncService.last_sync := None;
          SyncService.sync_interval := 30 * 60;
          SyncService.errors := [] |};
     SyncService.sync_log := [];
     SyncService.slept := [] |}.

(** The fallback forecast of the four mornings. *)
Definition fallback_morning : Prediction :=
  {| p_dish_id := "d1";
     p_dish_name := "Soup";
     p_period := "morning";
     predicted_demand := 3;
     confidence := Fin 60.0;
     recommended_prep := 4;
     factors := ["Limited historical data"; "Fallback average"];
     prediction_date := target |}.



(** Five mornings on which nothing was sold. *)
Definition idle_mornings : list HistRow :=
  [soup "2024-06-03" "morning" 0; soup "2024-06-04" "morning" 0;
   soup "2024-06-05" "morning" 0; soup "2024-06-06" "morning" 0;
   soup "2024-06-07" "morning" 0].

(** The rows of the sales query for a Tuesday with two breakfasts, three
    lunches and an order at night. *)
Definition tuesday_rows : list Analytics.SalesRow :=
  [Analytics.mkSalesRow "2024-06-04" "afternoon" 3 (Some 45%Q) (Some 15%Q);
   Analytics.mkSalesRow "2024-06-04" "morning" 2 (Some 20%Q) (Some 10%Q);
   Analytics.mkSalesRow "2024-06-04" "other" 1 (Some 8%Q) (Some 8%Q)].

Definition tuesday : Analytics.DaySales :=
  {| Analytics.date := "2024-06-04";
     Analytics.morning := Analytics.mkPeriodData 2 20 10;
     Analytics.afternoon := Analytics.mkPeriodData 3 45 15;
     Analytics.evening := Analytics.nothing;
     Analytics.total := Analytics.mkPeriodData 5 65 (65 # 5) |}.

(** A kitchen with one kilogram of flour and a dish that takes 0.4 kg of
    it, and an order of five of that dish. *)
Definition flour : Inventory.Ingredient :=
  Inventory.mkIngredient "Flour" "kg" (Some 1%Q) (Some 0%Q) (Some 0%Q) None.

Definition pantry : Inventory.Tables :=
  {| Inventory.dishes := {["d1"]};
     Inventory.ingredients := {["i1" := flour]};
     Inventory.dish_ingredients := [Inventory.mkDishIngredient "d1" "i1" 0.4];
     Inventory.orders := ∅;
     Inventory.order_items := [];
     Inventory.inventory_transactions := [] |}.

Definition five_soups : Inventory.OrderData :=
  {| Inventory.od_total := 11;
     Inventory.od_subtotal := 10;
     Inventory.od_tax := 1;
     Inventory.od_payment_method := "cash";
     Inventory.od_customer_id := None;
     Inventory.od_cashier_id := "c1";
     Inventory.items := [Inventory.mkOrderItem "d1" 5 2 None] |}.

Definition after_order : Inventory.Tables :=
  snd (Inventory.create_order "o1" five_soups pantry).

(** A kitchen whose salt has no threshold. *)
Definition salt : Inventory.Ingredient :=
  Inventory.mkIngredient "Salt" "kg" (Some 1%Q) None (Some 0%Q) None.

Definition cellar : Inventory.Tables :=
  {| Inventory.dishes := ∅;
     Inventory.ingredients := {["i3" := salt]};
     Inventory.dish_ingredients := [];
     Inventory.orders := ∅;
     Inventory.order_items := [];
     Inventory.inventory_transactions := [] |}.

(** A rendering of the two [HTTPException]s of the samples by [str()]. *)
Definition http_str (status_code : Z) (detail : string) : string :=
  (if (status_code =? 404)%Z then "404" else "500") +:+ ": " +:+ detail.

End MoreSamples.

(** ** Binary64 arithmetic

    The floats of Python and NumPy as they are: IEEE 754 binary64 numbers
    with the operations rounded to nearest, ties to even, after the
    reference implementation [SpecFloat]. *)

Module Float64.

Definition float : Type := spec_float.

Definition prec : Z := 53.
Definition emax : Z := 1024.

Definition add : float -> float -> float := SFadd prec emax.
Definition sub : float -> float -> float := SFsub prec emax.
Definition mul : float -> float -> float := SFmul prec emax.
Definition div : float -> float -> float := SFdiv prec emax.

(** [a < b]: false whenever one of the two is not a number. *)
Definition ltb : float -> float -> bool := SFltb.

(** [float(n)], the nearest float of an integer. *)
Definition of_Z (n : Z) : float := binary_normalize prec emax n 0 false.

(** The literal [n / scale] for a power of ten [scale], as in [1.2] for
    [decimal 12 10]: both are exact below 2^53, and the quotient is rounded
    once, as the literal is. *)
Definition decimal (n scale : Z) : float := div (of_Z n) (of_Z scale).

(** Python's [max(a, b)] and [min(a, b)]: the first argument is kept
    unless the second is strictly larger (smaller). An integer argument
    stands as its float, which the uses that follow make of it. *)
Definition py_max (a b : float) : float := if ltb a b then b else a.
Definition py_min (a b : float) : float := if ltb b a then b else a.

(** [int(x)]: the fraction is cut off; an infinity raises OverflowError
    and not-a-number ValueError ([None]). *)
Definition to_Z (x : float) : option Z :=
  match x with
  | S754_zero _ => Some 0
  | S754_finite s m e =>
      let n :=
        match e with
        | Z0 => Zpos m
        | Zpos _ => Zpos m * 2 ^ e
        | Zneg p => Zpos m / 2 ^ Zpos p
        end in
      Some (if s then - n else n)
  | S754_infinity _ | S754_nan => None
  end.

(** [m / 2^p] rounded to the nearest integer, ties to the even one. *)
Definition half_even (m : Z) (p : positive) : Z :=
  let q := m / 2 ^ Zpos p in
  let r := m mod 2 ^ Zpos p in
  match 2 * r ?= 2 ^ Zpos p with
  | Lt => q
  | Gt => q + 1
  | Eq => if Z.even q then q else q + 1
  end.

(** [numpy.rint] *)
Definition rint (x : float) : float :=
  match x with
  | S754_finite s m (Zneg p) =>
      let n := half_even (Zpos m) p in
      if (n =? 0)%Z then S754_zero s
      else binary_normalize prec emax (if s then - n else n) 0 false
  | _ => x
  end.

(** [round(x, 1)] of a NumPy float64, which NumPy computes as
    [rint(x * 10) / 10]. On 50.0 and 95.0, the two Python floats the
    engine rounds, Python's own [round] gives the same, the number
    itself. *)
Definition round1 (x : float) : float :=
  div (rint (mul x (of_Z 10))) (of_Z 10).

(** [Series.mean()] of an integer column: the sum of the column as a
    float, divided by the count; not-a-number on an empty selection. The
    additions are exact, in whatever order they are made, while the sum of
    the absolute values stays within 2^53. *)
Definition mean (ys : list Z) : float :=
  match ys with
  | [] => S754_nan
  | _ :: _ => div (of_Z (sum ys)) (of_Z (Z.of_nat (length ys)))
  end.

(** *** Vocabulary of the statements *)

(** A finite number below [2^k] in absolute value. *)
Definition below (k : Z) (x : float) : bool :=
  match x with
  | S754_zero _ => true
  | S754_finite _ m e => (Zpos (digits2_pos m) + e <=? k)%Z
  | S754_infinity _ | S754_nan => false
  end.

(** The column sums exactly. *)
Definition sums_exactly (ys : list Z) : Prop :=
  sum (map Z.abs ys) <= 2 ^ 53.

End Float64.

(** ** The forecast of one series in binary64

    [_predict_dish_demand] and [_analyze_prediction_factors] once more, with
    the arithmetic of the floats as the machine does it. The statements on
    the exact values of a forecast are made of this embedding; those on
    bounds, order and shape are made of the idealised one above. *)

Module PredictionEngine64.

Import Float64.

(** What [model.predict] yields for the one future row. *)
Record Forecast : Type := mkForecast {
  yhat : float;
  yhat_lower : float;
  yhat_upper : float
}.

(** The dictionary [_predict_dish_demand] returns. *)
Record Prediction : Type := mkPrediction {
  p_dish_id : string;
  p_dish_name : string;
  p_period : string;
  predicted_demand : Z;
  confidence : float;
  recommended_prep : Z;
  factors : list string;
  prediction_date : string
}.

Section Engine.

Context `{Libs : Libraries}.

(** Building the model, [model.fit] and [model.predict]: [None] where one
    of them raises. *)
Variable model : list (Timestamp * Z) -> Timestamp -> option Forecast.

Definition _analyze_prediction_factors (target_date : Timestamp)
    (period : string) (historical_data : list (Timestamp * Z))
    (predicted_value : float) : list string :=
  let factors : list string := [] in
  let dow := dow_index (dayofweek target_date) in
  let dow_names := PredictionEngine.dow_names in
  let factors :=
    if (5 <=? dow)%nat then
      let weekend_avg :=
        mean (map snd (List.filter PredictionEngine.is_weekend
                         historical_data)) in
      let weekday_avg :=
        mean (map snd (List.filter
                         (fun r => negb (PredictionEngine.is_weekend r))
                         historical_data)) in
      if ltb (mul weekday_avg (decimal 12 10)) weekend_avg then
        factors ++ ["Weekend boost (" +:+ nth dow dow_names "" +:+ ")"]
      else if ltb weekend_avg (mul weekday_avg (decimal 8 10)) then
        factors ++ ["Weekend decline (" +:+ nth dow dow_names "" +:+ ")"]
      else factors
    else factors ++ ["Weekday pattern (" +:+ nth dow dow_names "" +:+ ")"] in
  let factors :=
    if String.eqb period "morning" then factors ++ ["Breakfast/morning rush"]
    else if String.eqb period "afternoon" then factors ++ ["Lunch period demand"]
    else if String.eqb period "evening" then factors ++ ["Dinner rush period"]
    else factors in
  let recent_data := PredictionEngine.tail 10 historical_data in
  let factors :=
    if (5 <=? length recent_data)%nat then
      let recent_avg := mean (map snd recent_data) in
      let overall_avg := mean (map snd historical_data) in
      if ltb (mul overall_avg (decimal 115 100)) recent_avg then
        factors ++ ["Upward trend detected"]
      else if ltb recent_avg (mul overall_avg (decimal 85 100)) then
        factors ++ ["Downward trend detected"]
      else factors ++ ["Stable demand pattern"]
    else factors in
  let month := month target_date in
  let factors :=
    if existsb (Z.eqb month) [12; 1; 2] then factors ++ ["Winter seasonality"]
    else if existsb (Z.eqb month) [6; 7; 8] then factors ++ ["Summer seasonality"]
    else factors in
  take 4 factors.

(** The confidence of a fitted forecast before it is rounded. *)
Definition raw_confidence (interval_width avg_historical : float) : float :=
  py_max (of_Z 50)
    (py_min (of_Z 95)
       (sub (of_Z 100) (mul (div interval_width avg_historical) (of_Z 100)))).

Definition safety_multiplier (confidence : float) : float :=
  if ltb (of_Z 80) confidence then decimal 12 10 else decimal 13 10.

(** The body of [_predict_dish_demand]; every exception raised inside it is
    caught by its own handler, which returns [None]. *)
Definition _predict_dish_demand (df : list HistRow) (dish_id dish_name : string)
    (period : string) (target_date : string) : option Prediction :=
  let dish_data := PredictionEngine.select df dish_id period in
  if (length dish_data <? 5)%nat then
    let avg_demand :=
      if (0 <? length dish_data)%nat then mean (map y dish_data)
      else of_Z 5 in
    match to_Z avg_demand, to_Z (mul avg_demand (decimal 12 10)) with
    | Some d, Some r =>
        Some {| p_dish_id := dish_id;
                p_dish_name := dish_name;
                p_period := period;
                predicted_demand := Z.max 1 d;
                confidence := of_Z 60;
                recommended_prep := Z.max 2 r;
                factors := ["Limited historical data"; "Fallback average"];
                prediction_date := target_date |}
    | _, _ => None
    end
  else
    match PredictionEngine.prepare dish_data with
    | None => None
    | Some prophet_data =>
        match to_datetime target_date with
        | None => None
        | Some target_datetime =>
            match model prophet_data target_datetime with
            | None => None
            | Some forecast =>
                let predicted_value := py_max (of_Z 1) (yhat forecast) in
                let lower_bound := py_max (of_Z 0) (yhat_lower forecast) in
                let upper_bound := yhat_upper forecast in
                let interval_width := sub upper_bound lower_bound in
                let avg_historical := mean (map snd prophet_data) in
                let confidence := raw_confidence interval_width avg_historical in
                let factors :=
                  _analyze_prediction_factors target_datetime period
                    prophet_data predicted_value in
                let safety_multiplier := safety_multiplier confidence in
                match to_Z (mul predicted_value safety_multiplier),
                      to_Z predicted_value with
                | Some r, Some d =>
                    Some {| p_dish_id := dish_id;
                            p_dish_name := dish_name;
                            p_period := period;
                            predicted_demand := d;
                            confidence := round1 confidence;
                            recommended_prep := Z.max 2 r;
                            factors := factors;
                            prediction_date := target_date |}
                | _, _ => None
                end
            end
        end
    end.

End Engine.

(** *** Vocabulary of the statements *)

(** The mean of the available quantities, or 5 if there are none. *)
Definition fallback_average (ys : list Z) : float :=
  match ys with
  | [] => of_Z 5
  | _ :: _ => mean ys
  end.

End PredictionEngine64.

(** ** Sample data for the binary64 forecasts *)

Module Samples64.

Import Float64 PredictionEngine64 Samples.

(** A model that returns the same forecast for every series. *)
Definition steady (fc : Forecast)
    : list (Weekday * Z * Z) -> Weekday * Z -> option Forecast :=
  fun _ _ => Some fc.

(** The forecast 5.8 within [5, 6.0625]. *)
Definition fit_5_8 : Forecast :=
  {| yhat := decimal 58 10;
     yhat_lower := of_Z 5;
     yhat_upper := decimal 60625 10000 |}.

(** The forecast 10 within [0, 1.4]. *)
Definition fit_10 : Forecast :=
  {| yhat := of_Z 10; yhat_lower := of_Z 0; yhat_upper := decimal 14 10 |}.

(** Three mornings with the quantities 13, 11 and 11. *)
Definition three_mornings : list HistRow :=
  [soup "2024-06-03" "morning" 13; soup "2024-06-04" "morning" 11;
   soup "2024-06-05" "morning" 11].

(** Five mornings with the quantity 7. *)
Definition sevens : list HistRow :=
  [soup "2024-06-03" "morning" 7; soup "2024-06-04" "morning" 7;
   soup "2024-06-05" "morning" 7; soup "2024-06-06" "morning" 7;
   soup "2024-06-07" "morning" 7].

End Samples64.

(** ** Sample data for two calls in succession *)

Module RegenerateSamples.

Import PredictionEngine Samples.






End RegenerateSamples.

(** ** The writes of [DatabaseManager.save_predictions] with their checks

    [PredictionEngine.save_predictions] is the effect of a call in which
    every insert goes through, as it does for the forecasts of
    [generate_predictions], whose dishes the query of the historical data
    has joined with the [dishes] table. Here is the call for any list: the
    connection enforces foreign keys, and one insert that fails rolls back
    all of them. *)

Module PredictionsTable.

Import PredictionEngine SyncService.

Definition is_nan (x : npfloat) : bool :=
  match x with
  | NaN => true
  | _ => false
  end.

(** One [INSERT OR REPLACE] in a database with the dishes [dishes]. The
    integers have to fit INTEGER when they are bound; not-a-number is
    stored as NULL, which the column [confidence] refuses; the dish has to
    exist. *)
Definition execute (dishes : gset string) (now : string) (db : Store)
    (pred : Prediction) : result Store :=
  if negb (Sqlite.fits64 (predicted_demand pred)
           && Sqlite.fits64 (recommended_prep pred)) then
    Raise (Exception "Python int too large to convert to SQLite INTEGER")
  else if is_nan (confidence pred) then
    Raise (Exception "NOT NULL constraint failed: predictions.confidence")
  else if bool_decide (p_dish_id pred ∈ dishes) then
    Return (insert_or_replace now db pred)
  else Raise (Exception "FOREIGN KEY constraint failed").

(** [save_predictions]: what it raises, if it does, and the database
    afterwards, committed or rolled back. *)
Definition save_predictions (dishes : gset string) (now : string)
    (predictions : list Prediction) (db : Store) : option exn * Store :=
  match Inventory.for_each (execute dishes now) predictions db with
  | Return db' => (None, db')
  | Raise e => (Some e, db)
  end.

(** *** Vocabulary of the statements *)

(** A prediction every check lets through. *)
Definition storable (dishes : gset string) (pred : Prediction) : bool :=
  Sqlite.fits64 (predicted_demand pred)
  && Sqlite.fits64 (recommended_prep pred)
  && negb (is_nan (confidence pred))
  && bool_decide (p_dish_id pred ∈ dishes).

End PredictionsTable.

(** ** Sample data for the predictions table *)

Module TableSamples.

Import PredictionEngine Samples.

(** The Friday before the target date, and the database after a call for
    the Friday. *)
Definition friday : string := "2024-06-07".

Definition with_friday : Store :=
  snd (@generate_predictions libs "2024-06-06 10:00:00" friday
         (empty_store four_mornings)).

(** Two predictions for the morning soup of the target date, the second
    with a demand of 9. *)
Definition morning_3 : Prediction :=
  {| p_dish_id := "d1";
     p_dish_name := "Soup";
     p_period := "morning";
     predicted_demand := 3;
     confidence := Fin 60.0;
     recommended_prep := 4;
     factors := ["Limited historical data"; "Fallback average"];
     prediction_date := target |}.

Definition morning_9 : Prediction :=
  {| p_dish_id := "d1";
     p_dish_name := "Soup";
     p_period := "morning";
     predicted_demand := 9;
     confidence := Fin 60.0;
     recommended_prep := 11;
     factors := ["Limited historical data"; "Fallback average"];
     prediction_date := target |}.

(** A prediction for a dish that does not exist. *)
Definition stray : Prediction :=
  {| p_dish_id := "d9";
     p_dish_name := "Stew";
     p_period := "morning";
     predicted_demand := 3;
     confidence := Fin 60.0;
     recommended_prep := 4;
     factors := [];
     prediction_date := target |}.

End TableSamples.

(** * Properties *)

(** ** Numbers *)

Section NumberFacts.

Local Open Scope Q_scope.

Lemma trunc_floor (q : Q) : (0 <= Qnum q)%Z -> trunc q = Qfloor q.
Proof.
  destruct q as [n d]; unfold trunc, Qfloor; simpl; intros Hn.
  apply Z.quot_div_nonneg; lia.
Qed.

Lemma trunc_ceiling (q : Q) : (Qnum q <= 0)%Z -> trunc q = Qceiling q.
Proof.
  destruct q as [n d]; unfold trunc, Qceiling, Qfloor; simpl; intros Hn.
  replace n with (- - n)%Z at 1 by lia.
  rewrite Z.quot_opp_l by lia.
  rewrite Z.quot_div_nonneg by lia. reflexivity.
Qed.

Lemma trunc_mono (a b : Q) : a <= b -> (trunc a <= trunc b)%Z.
Proof.
  intros Hab.
  destruct (Z_le_gt_dec 0 (Qnum a)) as [Ha|Ha];
    destruct (Z_le_gt_dec 0 (Qnum b)) as [Hb|Hb].
  - rewrite !trunc_floor by assumption. now apply Qfloor_resp_le.
  - exfalso. unfold Qle in Hab. nia.
  - rewrite (trunc_ceiling a) by lia. rewrite (trunc_floor b) by assumption.
    transitivity 0%Z.
    + change 0%Z with (Qceiling 0). apply Qceiling_resp_le.
      unfold Qle; simpl. nia.
    + change 0%Z with (Qfloor 0). apply Qfloor_resp_le.
      unfold Qle; simpl. nia.
  - rewrite !trunc_ceiling by lia. now apply Qceiling_resp_le.
Qed.

Lemma py_maxQ_l (a b : Q) : a <= py_maxQ a b.
Proof.
  unfold py_maxQ. destruct (Qle_bool b a) eqn:E.
  - apply Qle_refl.
  - apply Qlt_le_weak, Qnot_le_lt. intros H.
    apply Qle_bool_iff in H. congruence.
Qed.

Lemma py_round_lower (n : Z) (q : Q) : inject_Z n <= q -> (n <= py_round q)%Z.
Proof.
  intros H. apply Qfloor_resp_le in H. rewrite Qfloor_Z in H.
  unfold py_round.
  destruct (q - inject_Z (Qfloor q) ?= 1 # 2); [destruct (Z.even _)| |]; lia.
Qed.

Lemma py_round_upper (n : Z) (q : Q) : q <= inject_Z n -> (py_round q <= n)%Z.
Proof.
  intros H. pose proof (Qfloor_le q) as Hf.
  assert (Hfn : (Qfloor q <= n)%Z).
  { apply Qfloor_resp_le in H. now rewrite Qfloor_Z in H. }
  destruct (Z.eq_dec (Qfloor q) n) as [E|E].
  - unfold py_round. rewrite E.
    assert (Hlt : q - inject_Z n < 1 # 2).
    { apply Qle_lt_trans with 0; [|reflexivity].
      destruct q as [a d]. unfold Qle, Qminus, Qplus, Qopp, inject_Z in *.
      simpl in *. lia. }
    rewrite (proj1 (Qlt_alt _ _) Hlt). lia.
  - unfold py_round.
    destruct (q - inject_Z (Qfloor q) ?= 1 # 2); [destruct (Z.even _)| |]; lia.
Qed.

End NumberFacts.

(** ** One forecast *)

Section ForecastFacts.

Import PredictionEngine Vocabulary.

Context `{Libs : Libraries}.

Lemma mean_nonempty (ys : list Z) :
  ys <> [] -> mean ys = Fin (average ys).
Proof. destruct ys; [congruence | reflexivity]. Qed.

Lemma fallback_average_select (rows : list HistRow) :
  (if (0 <? length rows)%nat then mean (map y rows) else Fin 5)
  = Fin (fallback_average (map y rows)).
Proof. destruct rows; reflexivity. Qed.

Lemma prepare_y (rows : list HistRow) (data : list (Timestamp * Z)) :
  prepare rows = Some data -> map snd data = map y rows.
Proof.
  revert data; induction rows as [|r rows IH]; simpl; intros data H.
  - now inversion H.
  - destruct (to_datetime (ds r)); [|discriminate].
    destruct (prepare rows) as [l|]; [|discriminate].
    inversion H; subst; simpl. f_equal. now apply IH.
Qed.

Lemma prepare_length (rows : list HistRow) (data : list (Timestamp * Z)) :
  prepare rows = Some data -> length data = length rows.
Proof.
  intros H. apply prepare_y in H.
  rewrite <- (length_map snd data), H. apply length_map.
Qed.

Lemma predict_fallback (df : list HistRow) (dish name per target : string) :
  (length (select df dish per) < 5)%nat ->
  _predict_dish_demand df dish name per target
  = Some (fallback_of (fallback_average (map y (select df dish per)))
            dish name per target).
Proof.
  intros Hlen. unfold _predict_dish_demand.
  apply Nat.ltb_lt in Hlen. rewrite Hlen.
  rewrite fallback_average_select. reflexivity.
Qed.

Lemma predict_fitted (df : list HistRow) (dish name per target : string)
    (data : list (Timestamp * Z)) (t : Timestamp) (fc : Forecast) :
  (5 <= length (select df dish per))%nat ->
  prepare (select df dish per) = Some data ->
  to_datetime target = Some t ->
  prophet data t = Some fc ->
  _predict_dish_demand df dish name per target
  = Some (fitted_of fc (mean (map y (select df dish per)))
            (_analyze_prediction_factors t per data (py_maxQ 1 (yhat fc)))
            dish name per target).
Proof.
  intros Hlen Hprep Ht Hfit. unfold _predict_dish_demand.
  apply Nat.ltb_ge in Hlen. rewrite Hlen, Hprep, Ht, Hfit.
  rewrite (prepare_y _ _ Hprep). reflexivity.
Qed.

(** Every prediction comes from one of the two branches. *)
Lemma predict_inv (df : list HistRow) (dish name per target : string)
    (p : Prediction) :
  _predict_dish_demand df dish name per target = Some p ->
  ((length (select df dish per) < 5)%nat /\
   p = fallback_of (fallback_average (map y (select df dish per)))
         dish name per target)
  \/ ((5 <= length (select df dish per))%nat /\
      exists data t fc,
        prepare (select df dish per) = Some data /\
        to_datetime target = Some t /\
        prophet data t = Some fc /\
        p = fitted_of fc (mean (map y (select df dish per)))
              (_analyze_prediction_factors t per data (py_maxQ 1 (yhat fc)))
              dish name per target).
Proof.
  intros H.
  destruct (Nat.lt_ge_cases (length (select df dish per)) 5) as [Hlen|Hlen].
  - left. split; [assumption|].
    rewrite (predict_fallback _ _ _ _ _ Hlen) in H. congruence.
  - right. split; [assumption|].
    unfold _predict_dish_demand in H.
    pose proof Hlen as Hb. apply Nat.ltb_ge in Hb. rewrite Hb in H.
    destruct (prepare (select df dish per)) as [data|] eqn:Hprep; [|discriminate].
    destruct (to_datetime target) as [t|] eqn:Ht; [|discriminate].
    destruct (prophet data t) as [fc|] eqn:Hfit; [|discriminate].
    exists data, t, fc. repeat split; try assumption.
    rewrite (prepare_y _ _ Hprep) in H. now inversion H.
Qed.

(** *** Confidence *)

Lemma Qle_bool_false (a b : Q) : Qle_bool a b = false -> (b < a)%Q.
Proof.
  intros E. apply Qnot_le_lt. intros H. apply Qle_bool_iff in H. congruence.
Qed.

Lemma clamp_range (x : npfloat) :
  exists c, py_max (Fin 50.0) (py_min (Fin 95.0) x) = Fin c
            /\ (50 <= c)%Q /\ (c <= 95)%Q.
Proof.
  destruct x as [q| | |]; unfold py_min, py_max; simpl;
    try (eexists; split; [reflexivity|split; discriminate]).
  destruct (Qle_bool 95.0 q) eqn:E95; simpl.
  - eexists; split; [reflexivity|split; discriminate].
  - destruct (Qle_bool q 50.0) eqn:E50; simpl.
    + eexists; split; [reflexivity|split; discriminate].
    + exists q. split; [reflexivity|].
      apply Qle_bool_false in E95, E50.
      split; apply Qlt_le_weak.
      * eapply Qle_lt_trans; [|exact E50]. discriminate.
      * eapply Qlt_le_trans; [exact E95|]. discriminate.
Qed.

Lemma raw_confidence_range (width : Q) (avg : npfloat) :
  exists c, raw_confidence width avg = Fin c /\ (50 <= c)%Q /\ (c <= 95)%Q.
Proof. apply clamp_range. Qed.

Lemma round1_range (c : Q) :
  (50 <= c)%Q -> (c <= 95)%Q -> (50 <= round1 c)%Q /\ (round1 c <= 95)%Q.
Proof.
  intros Hlo Hhi. unfold round1.
  assert (H1 : (500 <= py_round (c * 10))%Z).
  { apply py_round_lower. destruct c as [n d].
    unfold Qle, Qmult, inject_Z in *; simpl in *. lia. }
  assert (H2 : (py_round (c * 10) <= 950)%Z).
  { apply py_round_upper. destruct c as [n d].
    unfold Qle, Qmult, inject_Z in *; simpl in *. lia. }
  unfold Qle; simpl. lia.
Qed.

(** The closed form of the confidence before rounding, for a series whose
    mean is not zero. *)
Lemma raw_confidence_clamp (width mu : Q) :
  ~ (mu == 0)%Q ->
  np_eq (raw_confidence width (Fin mu))
    (Fin (clamp (100 - width / mu * 100) 50 95)).
Proof.
  intros Hmu. unfold raw_confidence, np_div.
  destruct (Qeq_bool mu 0) eqn:E; [apply Qeq_bool_iff in E; contradiction|].
  simpl. set (x := (100 - width / mu * 100)%Q).
  unfold py_min, py_max, clamp; simpl.
  destruct (Qle_bool 95.0 x) eqn:E95; simpl.
  - apply Qle_bool_iff in E95.
    assert (H95 : (95 <= x)%Q) by (eapply Qle_trans; [|exact E95]; discriminate).
    rewrite (Q.max_r 50 (Qmin 95 x)).
    + now rewrite (Q.min_l 95 x H95).
    + apply Q.min_glb; [discriminate|]. eapply Qle_trans; [|exact H95]. discriminate.
  - apply Qle_bool_false in E95.
    assert (H95 : (x <= 95)%Q).
    { apply Qlt_le_weak. eapply Qlt_le_trans; [exact E95|discriminate]. }
    destruct (Qle_bool x 50.0) eqn:E50; simpl.
    + apply Qle_bool_iff in E50.
      assert (H50 : (x <= 50)%Q) by (eapply Qle_trans; [exact E50|discriminate]).
      rewrite (Q.max_l 50 (Qmin 95 x)); [reflexivity|].
      eapply Qle_trans; [apply Q.le_min_r|exact H50].
    + apply Qle_bool_false in E50.
      assert (H50 : (50 <= x)%Q).
      { apply Qlt_le_weak. eapply Qle_lt_trans; [|exact E50]. discriminate. }
      rewrite (Q.max_r 50 (Qmin 95 x)).
      * now rewrite (Q.min_r 95 x H95).
      * apply Q.min_glb; [discriminate|exact H50].
Qed.

(** The bounds of one forecast. *)
Lemma prediction_bounds (df : list HistRow) (dish name per target : string)
    (p : Prediction) :
  _predict_dish_demand df dish name per target = Some p ->
  1 <= predicted_demand p
  /\ Z.max 2 (predicted_demand p) <= recommended_prep p
  /\ ((length (select df dish per) < 5)%nat -> confidence p = Fin 60.0)
  /\ ((5 <= length (select df dish per))%nat ->
      exists c, confidence p = Fin c /\ (50 <= c)%Q /\ (c <= 95)%Q).
Proof.
  intros H. apply predict_inv in H.
  destruct H as [[Hlen ->]|[Hlen (data & t & fc & _ & _ & _ & ->)]].
  - unfold fallback_of; simpl.
    set (m := fallback_average _).
    assert (Hm : trunc m <= trunc (m * 1.2) \/ trunc m <= 0).
    { destruct (Qlt_le_dec m 0) as [Hneg|Hpos].
      - right. change 0 with (trunc 0). apply trunc_mono. now apply Qlt_le_weak.
      - left. apply trunc_mono. clearbody m. destruct m as [n d].
        unfold Qle, Qmult in *; simpl in *. lia. }
    repeat split; try lia.
  - unfold fitted_of; simpl.
    set (v := py_maxQ 1 (yhat fc)).
    set (raw := raw_confidence _ _).
    assert (Hv : (1 <= v)%Q) by apply py_maxQ_l.
    assert (H1 : 1 <= trunc v).
    { change 1 with (trunc 1) at 1. now apply trunc_mono. }
    assert (H2 : trunc v <= trunc (v * safety_multiplier raw)).
    { apply trunc_mono. unfold safety_multiplier. clearbody v.
      destruct (np_ltb (Fin 80) raw); destruct v as [n d];
        unfold Qle, Qmult in *; simpl in *; rewrite Pos2Z.inj_mul; nia. }
    repeat split; try lia.
    intros _. destruct (raw_confidence_range
      (yhat_upper fc - py_maxQ 0 (yhat_lower fc))
      (mean (map y (select df dish per)))) as (c & Hc & Hlo & Hhi).
    fold raw in Hc. rewrite Hc. simpl.
    exists (round1 c). split; [reflexivity|]. now apply round1_range.
Qed.

(** *** Factors *)

Lemma analyze_parts (t : Timestamp) (per : string)
    (data : list (Timestamp * Z)) (v : Q) :
  _analyze_prediction_factors t per data v
  = take 4 (weekday_part t data ++ period_part per ++ trend_part data
            ++ season_part t).
Proof.
  unfold _analyze_prediction_factors, weekday_part, period_part, period_factor,
    trend_part, season_part.
  f_equal.
  repeat match goal with
         | |- context [if ?b then _ else _] => destruct b
         end; reflexivity.
Qed.

Lemma weekday_part_cases (t : Timestamp) (data : list (Timestamp * Z)) :
  weekday_part t data = []
  \/ exists w, weekday_part t data = [w]
             /\ In w (weekday_factors (nth (dow_index (dayofweek t)) dow_names "")).
Proof.
  unfold weekday_part, weekday_factors.
  repeat match goal with
         | |- context [if ?b then _ else _] => destruct b
         end; auto; right; eexists; (split; [reflexivity|]); simpl; auto.
Qed.

Lemma trend_part_cases (data : list (Timestamp * Z)) :
  (5 <= length data)%nat ->
  exists tr, trend_part data = [tr] /\ In tr trend_factors.
Proof.
  intros Hlen. unfold trend_part, trend_factors.
  assert (Hrecent : (5 <=? length (tail 10 data))%nat = true).
  { apply Nat.leb_le. unfold tail. rewrite length_drop. lia. }
  rewrite Hrecent.
  repeat match goal with
         | |- context [if ?b then _ else _] => destruct b
         end; eexists; (split; [reflexivity|]); simpl; auto.
Qed.

Lemma trend_part_short (data : list (Timestamp * Z)) :
  (length data < 5)%nat -> trend_part data = [].
Proof.
  intros Hlen. unfold trend_part.
  assert (Hrecent : (5 <=? length (tail 10 data))%nat = false).
  { apply Nat.leb_gt. unfold tail. rewrite length_drop. lia. }
  now rewrite Hrecent.
Qed.

Lemma season_part_cases (t : Timestamp) :
  season_part t = []
  \/ exists s, season_part t = [s] /\ In s season_factors.
Proof.
  unfold season_part, season_factors.
  repeat match goal with
         | |- context [if ?b then _ else _] => destruct b
         end; auto; right; eexists; (split; [reflexivity|]); simpl; auto.
Qed.

(** The factors of a fitted forecast: at most one weekday entry, the label
    of the period, one trend entry, at most one season entry. *)
Lemma analyze_shape (t : Timestamp) (per label : string)
    (data : list (Timestamp * Z)) (v : Q) :
  period_factor per = Some label ->
  (5 <= length data)%nat ->
  exists wk tr se,
    _analyze_prediction_factors t per data v = wk ++ [label] ++ [tr] ++ se
    /\ (wk = [] \/ exists w, wk = [w] /\ exists day, In day dow_names
                                               /\ In w (weekday_factors day))
    /\ In tr trend_factors
    /\ (se = [] \/ exists s, se = [s] /\ In s season_factors).
Proof.
  intros Hper Hlen. rewrite analyze_parts. unfold period_part. rewrite Hper.
  destruct (trend_part_cases data Hlen) as (tr & -> & Htr).
  exists (weekday_part t data), tr, (season_part t).
  split; [|split; [|split]].
  - apply take_ge.
    destruct (weekday_part_cases t data) as [->|(w & -> & _)];
      destruct (season_part_cases t) as [->|(s & -> & _)]; simpl; lia.
  - destruct (weekday_part_cases t data) as [->|(w & -> & Hw)]; [now left|].
    right. exists w. split; [reflexivity|].
    exists (nth (dow_index (dayofweek t)) dow_names ""). split; [|exact Hw].
    destruct (dayofweek t); simpl; auto 10.
  - exact Htr.
  - apply season_part_cases.
Qed.

End ForecastFacts.

(** ** One batch *)

Section BatchFacts.

Import PredictionEngine Vocabulary.

Context `{Libs : Libraries}.

Lemma predict_key (df : list HistRow) (dish name per target : string)
    (p : Prediction) :
  _predict_dish_demand df dish name per target = Some p ->
  p_dish_id p = dish /\ p_dish_name p = name /\ p_period p = per
  /\ prediction_date p = target.
Proof.
  intros H. apply predict_inv in H.
  destruct H as [[_ ->]|[_ (data & t & fc & _ & _ & _ & ->)]]; now repeat split.
Qed.

Lemma predict_periods_app (df : list HistRow) (target : string)
    (dish : string * string) (acc : list Prediction) :
  predict_periods df target dish acc
  = acc ++ omap (answer df target)
             (map (fun period => (fst dish, snd dish, period)) periods).
Proof.
  unfold predict_periods, periods, answer; simpl.
  repeat match goal with
         | |- context [match ?o with Some _ => _ | None => _ end] => destruct o
         end; simpl; rewrite <- ?app_assoc, ?app_nil_r; reflexivity.
Qed.

Lemma predict_dishes_from (df : list HistRow) (target : string)
    (dishes : list (string * string)) (acc : list Prediction) (n : Z) :
  fold_left
    (fun '(predictions, dishes_processed) dish =>
       (predict_periods df target dish predictions, dishes_processed + 1))
    dishes (acc, n)
  = (acc ++ produced df target dishes, n + Z.of_nat (length dishes)).
Proof.
  revert acc n; induction dishes as [|dish dishes IH]; intros acc n.
  - simpl. f_equal; [now rewrite app_nil_r | lia].
  - cbn [fold_left]. rewrite IH, predict_periods_app.
    unfold produced. cbn [requests flat_map]. rewrite omap_app, <- app_assoc.
    f_equal. cbn [length]. lia.
Qed.

Lemma predict_dishes_produced (df : list HistRow) (target : string)
    (dishes : list (string * string)) :
  predict_dishes df target dishes
  = (produced df target dishes, Z.of_nat (length dishes)).
Proof. unfold predict_dishes. now rewrite predict_dishes_from. Qed.

Lemma in_requests (dishes : list (string * string)) (dish name per : string) :
  In (dish, name, per) (requests dishes)
  <-> In (dish, name) dishes /\ In per periods.
Proof.
  unfold requests. rewrite in_flat_map. split.
  - intros ([d n] & Hd & Hin). apply in_map_iff in Hin.
    destruct Hin as (per' & Heq & Hper). simpl in Heq.
    inversion Heq; subst. now split.
  - intros [Hd Hper]. exists (dish, name). split; [exact Hd|].
    apply in_map_iff. now exists per.
Qed.

Lemma in_produced (df : list HistRow) (target : string)
    (dishes : list (string * string)) (p : Prediction) :
  In p (produced df target dishes)
  <-> exists dish name per,
        In (dish, name) dishes /\ In per periods
        /\ _predict_dish_demand df dish name per target = Some p.
Proof.
  unfold produced. rewrite <- list_elem_of_In, list_elem_of_omap. split.
  - intros ([[dish name] per] & Hin & Hp). exists dish, name, per.
    apply list_elem_of_In, in_requests in Hin. destruct Hin. now repeat split.
  - intros (dish & name & per & Hd & Hper & Hp).
    exists (dish, name, per). split; [|exact Hp].
    apply list_elem_of_In, in_requests. now split.
Qed.

(** C6. Every forecast of a batch, on either path, has
    predicted_demand >= 1 and recommended_prep >= max(2, predicted_demand);
    with fewer than 5 observations of its dish and period its confidence is
    60.0 exactly, and otherwise (after a fit) its confidence lies in
    [50.0, 95.0]. *)
Theorem forecast_bounds (df : list HistRow) (target : string) (p : Prediction) :
  In p (fst (predict_dishes df target (unique_dishes df))) ->
  1 <= predicted_demand p
  /\ Z.max 2 (predicted_demand p) <= recommended_prep p
  /\ ((length (select df (p_dish_id p) (p_period p)) < 5)%nat ->
      confidence p = Fin 60.0)
  /\ ((5 <= length (select df (p_dish_id p) (p_period p)))%nat ->
      exists c, confidence p = Fin c /\ (50 <= c)%Q /\ (c <= 95)%Q).
Proof.
  rewrite predict_dishes_produced. cbn [fst]. intros Hin.
  apply in_produced in Hin. destruct Hin as (dish & name & per & _ & _ & Hp).
  destruct (predict_key _ _ _ _ _ _ Hp) as (-> & _ & -> & _).
  exact (prediction_bounds _ _ _ _ _ _ Hp).
Qed.

(** C8. The factors of every forecast made on the fitted path: between 1
    and 4 entries, the label of the period always among them, listed in
    the order weekday or weekend entry (at most one), label of the period,
    trend entry, season entry (at most one), and cut to the first 4. *)
Theorem fitted_factors (df : list HistRow) (target : string) (p : Prediction) :
  In p (fst (predict_dishes df target (unique_dishes df))) ->
  (5 <= length (select df (p_dish_id p) (p_period p)))%nat ->
  exists wk label tr se,
    factors p = wk ++ [label] ++ [tr] ++ se
    /\ factors p = take 4 (wk ++ [label] ++ [tr] ++ se)
    /\ (wk = [] \/ exists w, wk = [w] /\ exists day, In day dow_names
                                               /\ In w (weekday_factors day))
    /\ period_factor (p_period p) = Some label
    /\ In tr trend_factors
    /\ (se = [] \/ exists s, se = [s] /\ In s season_factors)
    /\ In label (factors p)
    /\ (1 <= length (factors p) <= 4)%nat.
Proof.
  rewrite predict_dishes_produced. cbn [fst]. intros Hin Hlen.
  apply in_produced in Hin. destruct Hin as (dish & name & per & _ & Hper & Hp).
  destruct (predict_key _ _ _ _ _ _ Hp) as (Hd & _ & Hpp & _).
  rewrite Hd, Hpp in Hlen. rewrite Hpp.
  apply predict_inv in Hp.
  destruct Hp as [[Hlt _]|[_ (data & t & fc & Hprep & _ & _ & ->)]]; [lia|].
  assert (Hlabel : exists label, period_factor per = Some label).
  { unfold periods in Hper. simpl in Hper.
    destruct Hper as [<-|[<-|[<-|[]]]]; eexists; reflexivity. }
  destruct Hlabel as [label Hlabel].
  rewrite <- (prepare_length _ _ Hprep) in Hlen.
  destruct (analyze_shape t per label data (py_maxQ 1 (yhat fc)) Hlabel Hlen)
    as (wk & tr & se & Heq & Hwk & Htr & Hse).
  exists wk, label, tr, se. cbn [factors fitted_of].
  assert (Hshort : (length (wk ++ [label] ++ [tr] ++ se) <= 4)%nat).
  { destruct Hwk as [->|(w & -> & _)]; destruct Hse as [->|(s & -> & _)];
      simpl; lia. }
  rewrite Heq. repeat split; try assumption.
  - symmetry. now apply take_ge.
  - apply in_or_app. right. now left.
  - rewrite !length_app. simpl. lia.
Qed.

End BatchFacts.

(** ** The predictions table *)

Section StoreFacts.

Import PredictionEngine Vocabulary.



Lemma save_historical (now : string) (preds : list Prediction) (db : Store) :
  historical_order_data (save_predictions now preds db)
  = historical_order_data db.
Proof.
  unfold save_predictions. revert db.
  induction preds as [|p preds IH]; intros db; simpl; [reflexivity|].
  now rewrite IH.
Qed.




End StoreFacts.

(** ** generate_predictions *)

Section GenerateFacts.

Import PredictionEngine Vocabulary.

Context `{Libs : Libraries}.

Lemma produced_nil (df : list HistRow) (target : string) :
  produced df target [] = [].
Proof. reflexivity. Qed.

(** The database after a call: the forecasts of the batch saved. *)
Lemma generate_store (now target : string) (db : Store) :
  snd (generate_predictions now target db)
  = save_predictions now
      (produced (historical_order_data db) target
         (unique_dishes (historical_order_data db))) db.
Proof.
  unfold generate_predictions.
  destruct (historical_order_data db) as [|r rows] eqn:Hdf; [reflexivity|].
  rewrite predict_dishes_produced.
  destruct (produced (r :: rows) target (unique_dishes (r :: rows)));
    reflexivity.
Qed.

Lemma generate_historical (now target : string) (db : Store) :
  historical_order_data (snd (generate_predictions now target db))
  = historical_order_data db.
Proof. rewrite generate_store. apply save_historical. Qed.

(** C4, in the form the code satisfies. With an empty historical window
    the call returns at once, without an error, the dictionary with the
    entries message and predictions_generated = 0 and no entry
    dishes_processed, and leaves the database as it was. *)
Theorem empty_window (now target : string) (db : Store) :
  historical_order_data db = [] ->
  generate_predictions now target db
  = ({[ "message" := VStr "No historical data available";
        "predictions_generated" := VInt 0 ]}, db)
  /\ fst (generate_predictions now target db) !! "predictions_generated"
     = Some (VInt 0)
  /\ fst (generate_predictions now target db) !! "dishes_processed" = None
  /\ snd (generate_predictions now target db) = db.
Proof.
  intros Hdf. unfold generate_predictions. rewrite Hdf. cbn [fst snd].
  repeat split.
Qed.



End GenerateFacts.

(** ** The sync loop *)

Section SyncFacts.

Import SyncService.

Lemma log_self (c : Cycle) (status : string) (n : Z) (m : option string)
    (w : World) :
  self (_log_sync_operation c status n m w) = self w.
Proof. unfold _log_sync_operation. now destruct (log_written c). Qed.

Lemma manual_sync_failure (c : Cycle) (w : World) (e : string) :
  steps c = Raise (Exception e) ->
  manual_sync c w
  = (Raise (Exception e),
     _log_sync_operation c "error" 0 (Some ("Sync failed: " +:+ e))
       (errors_append (now_failed c +:+ ": " +:+ ("Sync failed: " +:+ e)) w)).
Proof. intros H. unfold manual_sync. now rewrite H. Qed.

(** One failed turn: the loop goes on with the next cycle after a sleep of
    60 seconds. *)
Lemma sync_loop_failure (c : Cycle) (rest : list Cycle) (w : World) :
  is_running (self w) = true ->
  fails_and_sleeps c = true ->
  exists w1,
    _sync_loop (c :: rest) w = _sync_loop rest w1
    /\ sync_log w1 = sync_log w ++ log_entries c
    /\ errors (self w1) = errors (self w) ++ error_entries c
    /\ slept w1 = slept w ++ [60]
    /\ is_running (self w1) = true.
Proof.
  intros Hrun Hfail. unfold fails_and_sleeps, log_entries, error_entries in *.
  unfold failure in *.
  destruct (steps c) as [r|[e|]] eqn:Hsteps; try discriminate.
  apply negb_true_iff in Hfail.
  eexists. split.
  - cbn [_sync_loop]. rewrite Hrun, (manual_sync_failure c w e Hsteps), Hfail.
    reflexivity.
  - unfold _log_sync_operation.
    destruct (log_written c); simpl; rewrite <- ?app_assoc, ?app_nil_r;
      now repeat split.
Qed.

Lemma sync_loop_failures (script : list Cycle) (w : World) :
  is_running (self w) = true ->
  forallb fails_and_sleeps script = true ->
  exists w',
    _sync_loop script w = Looping w'
    /\ sync_log w' = sync_log w ++ flat_map log_entries script
    /\ errors (self w') = errors (self w) ++ flat_map error_entries script
    /\ slept w' = slept w ++ map (fun _ => 60) script
    /\ is_running (self w') = true.
Proof.
  revert w; induction script as [|c script IH]; intros w Hrun Hall.
  - exists w. simpl. rewrite !app_nil_r. now repeat split.
  - cbn [forallb] in Hall. apply andb_true_iff in Hall. destruct Hall as [Hc Hall].
    destruct (sync_loop_failure c script w Hrun Hc)
      as (w1 & Hstep & Hlog & Herr & Hslept & Hrun1).
    destruct (IH w1 Hrun1 Hall) as (w' & Hloop & Hlog' & Herr' & Hslept' & Hrun').
    exists w'. rewrite Hstep. split; [exact Hloop|].
    cbn [flat_map map].
    rewrite Hlog', Hlog, Herr', Herr, Hslept', Hslept, <- !app_assoc.
    now repeat split.
Qed.

(** The loop ends only where the task is cancelled. *)
Lemma sync_loop_exit (script : list Cycle) (w w' : World) :
  is_running (self w) = true ->
  _sync_loop script w = Exited w' ->
  Exists cancelled script.
Proof.
  revert w; induction script as [|c script IH]; intros w Hrun Hexit.
  - discriminate.
  - cbn [_sync_loop] in Hexit. rewrite Hrun in Hexit.
    unfold manual_sync in Hexit.
    destruct (steps c) as [[[a p] k]|[e|]] eqn:Hsteps.
    + destruct (sleep_cancelled c) eqn:Hsleep.
      * left. now right.
      * right. eapply IH; [|exact Hexit].
        cbn. now rewrite log_self.
    + destruct (sleep_cancelled c) eqn:Hsleep.
      * left. now right.
      * right. eapply IH; [|exact Hexit].
        cbn. now rewrite log_self.
    + left. now left.
Qed.

Lemma failing_log_entry (c : Cycle) :
  fails_and_sleeps c = true -> log_written c = true ->
  log_entries c = [error_row (message c)].
Proof.
  unfold fails_and_sleeps, log_entries, message. intros Hc ->.
  destruct (failure c); [reflexivity|discriminate].
Qed.

Lemma failing_log_entries (script : list Cycle) :
  forallb fails_and_sleeps script = true ->
  forallb log_written script = true ->
  flat_map log_entries script = map (fun c => error_row (message c)) script.
Proof.
  induction script as [|c script IH]; [reflexivity|].
  cbn [forallb flat_map map]. intros H Hlog.
  apply andb_true_iff in H. destruct H as [Hc H].
  apply andb_true_iff in Hlog. destruct Hlog as [Hw Hlog].
  now rewrite (IH H Hlog), (failing_log_entry c Hc Hw).
Qed.

Lemma failing_error_entries (script : list Cycle) :
  forallb fails_and_sleeps script = true ->
  length (flat_map error_entries script) = (2 * length script)%nat.
Proof.
  induction script as [|c script IH]; [reflexivity|].
  cbn [forallb flat_map]. intros H. apply andb_true_iff in H.
  destruct H as [Hc H]. rewrite length_app, (IH H).
  unfold fails_and_sleeps, error_entries in *.
  destruct (failure c); [simpl; lia|discriminate].
Qed.

(** C3, in the form the code satisfies. While the service runs, a cycle
    that raises an exception in the loop leaves its entries in the list of
    errors and, where the insert into the sync log goes through, an error
    row with its message there; the loop then sleeps 60 seconds and goes on
    with the next cycle. For every sequence of failing cycles the loop
    therefore still stands at its head, with one sleep of 60 seconds per
    cycle and, the inserts going through, one error row per cycle; it ends
    only where the task is cancelled. *)
Theorem loop_survives_failures (script : list Cycle) (w : World) :
  is_running (self w) = true ->
  (forallb fails_and_sleeps script = true ->
   exists w',
     _sync_loop script w = Looping w'
     /\ errors (self w') = errors (self w) ++ flat_map error_entries script
     /\ slept w' = slept w ++ map (fun _ => 60) script
     /\ is_running (self w') = true
     /\ (forallb log_written script = true ->
         sync_log w'
         = sync_log w ++ map (fun c => error_row (message c)) script))
  /\ (forall c rest,
        script = c :: rest -> fails_and_sleeps c = true ->
        exists w1,
          _sync_loop script w = _sync_loop rest w1
          /\ errors (self w1) = errors (self w) ++ error_entries c
          /\ slept w1 = slept w ++ [60]
          /\ (log_written c = true ->
              sync_log w1 = sync_log w ++ [error_row (message c)]))
  /\ (forall w', _sync_loop script w = Exited w' -> Exists cancelled script).
Proof.
  intros Hrun. split; [|split].
  - intros Hall.
    destruct (sync_loop_failures script w Hrun Hall)
      as (w' & Hloop & Hlog & Herr & Hslept & Hrun').
    exists w'. repeat split; try assumption.
    intros Hwritten. now rewrite <- (failing_log_entries script Hall Hwritten).
  - intros c rest -> Hc.
    destruct (sync_loop_failure c rest w Hrun Hc)
      as (w1 & Hstep & Hlog & Herr & Hslept & _).
    exists w1. repeat split; try assumption.
    intros Hwritten. now rewrite <- (failing_log_entry c Hc Hwritten).
  - intros w'. now apply sync_loop_exit.
Qed.

Lemma last_n_suffix {A : Type} (n : nat) (l : list A) :
  (length (last_n n l) <= n)%nat /\ exists older, l = older ++ last_n n l.
Proof.
  unfold last_n. split.
  - rewrite length_drop. lia.
  - exists (take (length l - n) l). now rewrite take_drop.
Qed.

(** C10. A cycle that fails in the loop is recorded twice in the list of
    errors, by [manual_sync] before it raises again and by the handler of
    the loop, so that total_errors grows by exactly 2; a failing
    [manual_sync] on its own makes it grow by exactly 1; and recent_errors
    is always the last entries of the list, at most 5 of them. *)
Theorem errors_counted (c : Cycle) (w : World) (e : string) :
  steps c = Raise (Exception e) ->
  total_errors (get_status (self (snd (manual_sync c w))))
  = total_errors (get_status (self w)) + 1
  /\ (is_running (self w) = true ->
      errors (self (world_of (_sync_loop [c] w)))
      = errors (self w) ++ [now_failed c +:+ ": " +:+ ("Sync failed: " +:+ e);
                            now_loop c +:+ ": " +:+ e]
      /\ total_errors (get_status (self (world_of (_sync_loop [c] w))))
         = total_errors (get_status (self w)) + 2)
  /\ (forall s : Service,
        (length (recent_errors (get_status s)) <= 5)%nat
        /\ recent_errors (get_status s) = last_n 5 (errors s)
        /\ exists older, errors s = older ++ recent_errors (get_status s)).
Proof.
  intros Hsteps. split; [|split].
  - rewrite (manual_sync_failure c w e Hsteps). unfold _log_sync_operation.
    destruct (log_written c); cbn; rewrite length_app; simpl; lia.
  - intros Hrun.
    assert (Herr : errors (self (world_of (_sync_loop [c] w)))
                   = errors (self w)
                     ++ [now_failed c +:+ ": " +:+ ("Sync failed: " +:+ e);
                         now_loop c +:+ ": " +:+ e]).
    { cbn [_sync_loop]. rewrite Hrun, (manual_sync_failure c w e Hsteps).
      unfold _log_sync_operation.
      destruct (log_written c); destruct (sleep_cancelled c); cbn;
        now rewrite <- app_assoc. }
    split; [exact Herr|].
    unfold get_status; cbn [total_errors]. rewrite Herr, length_app. simpl. lia.
  - intros s.
    assert (Hrecent : recent_errors (get_status s) = last_n 5 (errors s)).
    { unfold get_status; cbn [recent_errors]. now destruct (errors s). }
    rewrite Hrecent. destruct (last_n_suffix 5 (errors s)) as [Hlen Hsuffix].
    now repeat split.
Qed.

End SyncFacts.

(** ** The statements on the sample data *)

Section Instances.

Import PredictionEngine Vocabulary Samples.

(** C4 on a database without orders. *)
Lemma empty_window_witness :
  fst (@generate_predictions libs "2024-06-07 10:00:00" target (empty_store []))
    !! "predictions_generated" = Some (VInt 0)
  /\ snd (@generate_predictions libs "2024-06-07 10:00:00" target (empty_store []))
     = empty_store [].
Proof.
  destruct (@empty_window libs "2024-06-07 10:00:00" target (empty_store []))
    as (_ & Hcount & _ & Hdb); [reflexivity|].
  split; [exact Hcount|exact Hdb].
Defined.

(** C4 as stated fails there: the dictionary has no entry
    dishes_processed. *)
Lemma empty_window_counterexample :
  fst (@generate_predictions libs "2024-06-07 10:00:00" target (empty_store []))
    !! "dishes_processed" = None
  /\ fst (@generate_predictions libs "2024-06-07 10:00:00" target (empty_store []))
       !! "dishes_processed" <> Some (VInt 0).
Proof. split; vm_compute; congruence. Qed.

(** C6 on the forecast of the fitted mornings. *)
Lemma forecast_bounds_witness :
  In fitted_morning
    (fst (@predict_dishes libs five_mornings target
            (unique_dishes five_mornings)))
  /\ 1 <= predicted_demand fitted_morning
  /\ Z.max 2 (predicted_demand fitted_morning)
     <= recommended_prep fitted_morning
  /\ exists c, confidence fitted_morning = Fin c /\ (50 <= c)%Q /\ (c <= 95)%Q.
Proof.
  assert (H : In fitted_morning
                (fst (@predict_dishes libs five_mornings target
                        (unique_dishes five_mornings))))
    by (vm_compute; left; reflexivity).
  split; [exact H|].
  destruct (@forecast_bounds libs five_mornings target fitted_morning H)
    as (H1 & H2 & _ & H3).
  split; [exact H1|]. split; [exact H2|].
  apply H3. vm_compute. lia.
Defined.


(** C8 on the forecast of the fitted mornings. *)
Lemma fitted_factors_witness :
  In "Breakfast/morning rush" (factors fitted_morning)
  /\ (1 <= length (factors fitted_morning) <= 4)%nat.
Proof.
  destruct (@fitted_factors libs five_mornings target fitted_morning)
    as (wk & label & tr & se & _ & _ & _ & Hlabel & _ & _ & Hin & Hlen);
    [vm_compute; left; reflexivity | vm_compute; lia |].
  split; [|exact Hlen].
  vm_compute in Hlabel. inversion Hlabel as [Heq]. rewrite Heq. exact Hin.
Defined.



(** C3 on two cycles in a row whose retention step finds the database
    locked. *)
Lemma loop_survives_failures_witness :
  exists w',
    SyncService._sync_loop [locked; locked] running = SyncService.Looping w'
    /\ SyncService.sync_log w'
       = [SyncService.error_row "database is locked";
          SyncService.error_row "database is locked"]
    /\ SyncService.slept w' = [60; 60].
Proof.
  destruct (proj1 (loop_survives_failures [locked; locked] running eq_refl)
              eq_refl)
    as (w' & Hloop & _ & Hslept & _ & Hlog).
  exists w'. split; [exact Hloop|]. split; [exact (Hlog eq_refl)|exact Hslept].
Defined.

(** C3 as stated fails where the database that made the cycle fail also
    refuses the insert into the sync log: [_log_sync_operation] catches
    that, and no error row is recorded, while the loop goes on as before. *)
Lemma loop_survives_failures_counterexample :
  SyncService.failure unlogged = Some "database is locked"
  /\ SyncService.sync_log (snd (SyncService.manual_sync unlogged running)) = []
  /\ exists w',
       SyncService._sync_loop [unlogged] running = SyncService.Looping w'
       /\ SyncService.sync_log w' = []
       /\ length (SyncService.errors (SyncService.self w')) = 2%nat
       /\ SyncService.slept w' = [60].
Proof.
  split; [reflexivity|]. split; [reflexivity|].
  eexists. split; [reflexivity|]. now repeat split.
Qed.

(** C10 on one such cycle, run on its own and in the loop. *)
Lemma errors_counted_witness :
  SyncService.total_errors
    (SyncService.get_status
       (SyncService.self (snd (SyncService.manual_sync locked running)))) = 1
  /\ SyncService.total_errors
       (SyncService.get_status
          (SyncService.self
             (SyncService.world_of (SyncService._sync_loop [locked] running))))
     = 2.
Proof.
  destruct (errors_counted locked running "database is locked" eq_refl)
    as (Hmanual & Hloop & _).
  split; [exact Hmanual|exact (proj2 (Hloop eq_refl))].
Defined.

End Instances.

(** * Further properties *)

(** ** The sync service *)

Section SyncControlFacts.

Import SyncService SyncControl.

Lemma sync_days_from (c : Cycle) (days : list Z) (acc : Z) :
  existsb (day_cancelled c) days = false ->
  sync_days c days acc = Return (acc + sum (map (day_count c) days)).
Proof.
  revert acc; induction days as [|d days IH]; intros acc Hnone.
  - simpl. f_equal. lia.
  - cbn [existsb] in Hnone. apply orb_false_iff in Hnone.
    destruct Hnone as [Hd Hnone].
    cbn [sync_days map PyNum.sum fold_right]. unfold day_cancelled, day_count in *.
    destruct (generate_predictions c d) as [n|[e|]]; try discriminate;
      rewrite (IH _ Hnone); f_equal; unfold PyNum.sum; lia.
Qed.

Lemma sync_days_no_exception (c : Cycle) (days : list Z) (acc : Z) (e : string) :
  sync_days c days acc <> Raise (Exception e).
Proof.
  revert acc; induction days as [|d days IH]; intros acc; simpl.
  - discriminate.
  - destruct (generate_predictions c d) as [n|[e'|]]; try apply IH.
    discriminate.
Qed.

(** X1. The forecast step of a cycle never raises an exception of its
    own: a day whose generation raises is skipped. Unless the task is
    cancelled in it, the step returns the sum of the counts of the days
    that went through. *)
Theorem sync_predictions_sum (c : Cycle) :
  (forall e, _sync_predictions c <> Raise (Exception e))
  /\ (existsb (day_cancelled c) [1; 2; 3] = false ->
      _sync_predictions c
      = Return (day_count c 1 + day_count c 2 + day_count c 3)).
Proof.
  split.
  - intros e. apply sync_days_no_exception.
  - intros Hnone. unfold _sync_predictions.
    rewrite (sync_days_from c [1; 2; 3] 0 Hnone). f_equal.
    unfold PyNum.sum; simpl. lia.
Qed.

Lemma sync_days_cancelled (c : Cycle) (days : list Z) (acc : Z) :
  existsb (day_cancelled c) days = true ->
  sync_days c days acc = Raise CancelledError.
Proof.
  revert acc; induction days as [|d days IH]; intros acc Hsome.
  - discriminate.
  - cbn [existsb] in Hsome. cbn [sync_days]. unfold day_cancelled in *.
    destruct (generate_predictions c d) as [n|[e|]]; try reflexivity;
      simpl in Hsome; now apply IH.
Qed.

(** The outcome of the three steps, read off the data-store calls. *)
Lemma steps_cases (c : Cycle) :
  steps c
  = match get_daily_sales c with
    | Raise e => Raise e
    | Return sales_data =>
        if existsb (day_cancelled c) [1; 2; 3] then Raise CancelledError
        else
          match delete_old_rows c with
          | Raise e => Raise e
          | Return (old_predictions, old_transactions, old_logs) =>
              Return ((if sales_data then 1 else 0),
                      day_count c 1 + day_count c 2 + day_count c 3,
                      0 + old_predictions + old_transactions + old_logs)
          end
    end.
Proof.
  unfold steps, _sync_analytics, _cleanup_old_data, _sync_predictions.
  destruct (get_daily_sales c) as [b|e]; [|reflexivity].
  destruct (existsb (day_cancelled c) [1; 2; 3]) eqn:Hcancel.
  - rewrite (sync_days_cancelled c _ 0 Hcancel). now destruct b.
  - rewrite (sync_days_from c _ 0 Hcancel).
    replace (0 + PyNum.sum (map (day_count c) [1; 2; 3]))
      with (day_count c 1 + day_count c 2 + day_count c 3)
      by (unfold PyNum.sum; simpl; lia).
    destruct (delete_old_rows c) as [[[x y] z]|e]; now destruct b.
Qed.

(** X2. A cycle fails with an exception exactly when the analytics step
    raises it, or when the analytics step returns, no forecast day is
    cancelled and the retention step raises it. The forecast step is never
    the source. *)
Theorem cycle_failure_sources (c : Cycle) (e : string) :
  failure c = Some e
  <-> get_daily_sales c = Raise (Exception e)
      \/ ((exists sales_data, get_daily_sales c = Return sales_data)
          /\ existsb (day_cancelled c) [1; 2; 3] = false
          /\ delete_old_rows c = Raise (Exception e)).
Proof.
  unfold failure. rewrite steps_cases.
  destruct (get_daily_sales c) as [b|[e1|]].
  - destruct (existsb (day_cancelled c) [1; 2; 3]).
    + split; [discriminate|]. intros [H|(_ & H & _)]; discriminate.
    + destruct (delete_old_rows c) as [[[x y] z]|[e2|]].
      * split; [discriminate|]. intros [H|(_ & _ & H)]; discriminate.
      * split.
        -- intros H. inversion H; subst. right. repeat split. now exists b.
        -- intros [H|(_ & _ & H)]; [discriminate|]. now inversion H.
      * split; [discriminate|]. intros [H|(_ & _ & H)]; discriminate.
  - split.
    + intros H. inversion H; subst. now left.
    + intros [H|([b H] & _)]; [now inversion H|discriminate].
  - split; [discriminate|]. intros [H|([b H] & _)]; discriminate.
Qed.


(** One turn of the loop, whatever it brings. *)
Lemma sync_loop_turn (c : Cycle) (rest : list Cycle) (w : World) :
  is_running (self w) = true ->
  exists w1,
    errors (self w1) = errors (self w) ++ error_entries c
    /\ sync_log w1 = sync_log w ++ log_rows c
    /\ slept w1 = slept w ++ sleeps (sync_interval (self w)) c
    /\ is_running (self w1) = true
    /\ sync_interval (self w1) = sync_interval (self w)
    /\ _sync_loop (c :: rest) w
       = match steps c with
         | Raise CancelledError => Exited w1
         | _ => if sleep_cancelled c then Exited w1 else _sync_loop rest w1
         end.
Proof.
  intros Hrun. cbn [_sync_loop]. rewrite Hrun.
  exists (let w0 := snd (manual_sync c w) in
          match steps c with
          | Return _ =>
              if sleep_cancelled c then w0
              else sleep (sync_interval (self w0)) w0
          | Raise (Exception e) =>
              let w2 := errors_append (now_loop c +:+ ": " +:+ e) w0 in
              if sleep_cancelled c then w2 else sleep 60 w2
          | Raise CancelledError => w0
          end).
  unfold manual_sync, error_entries, log_rows, sleeps, failure,
    _log_sync_operation.
  destruct (steps c) as [[[a p] k]|[e|]];
    destruct (log_written c); destruct (sleep_cancelled c);
    cbn; rewrite ?app_nil_r, <- ?app_assoc;
    repeat split; (reflexivity || assumption).
Qed.



(** X5. For a number of minutes of at least 1, [set_sync_interval]
    returns a service whose status shows that number of minutes and is
    otherwise as before, and the next successful turn of the loop sleeps
    that many minutes; for a number below 1 it raises and sets nothing. *)
Theorem set_sync_interval_status (minutes : Z) (s : Service) :
  (1 <= minutes ->
   exists s',
     set_sync_interval minutes s = Return s'
     /\ sync_interval_minutes (get_status s') = minutes
     /\ st_is_running (get_status s') = st_is_running (get_status s)
     /\ st_last_sync (get_status s') = st_last_sync (get_status s)
     /\ recent_errors (get_status s') = recent_errors (get_status s)
     /\ total_errors (get_status s') = total_errors (get_status s)
     /\ forall c w,
          self w = s' -> is_running s' = true ->
          succeeds_and_sleeps c = true ->
          slept (world_of (_sync_loop [c] w)) = slept w ++ [minutes * 60])
  /\ (minutes < 1 ->
      set_sync_interval minutes s
      = Raise (Exception "Sync interval must be at least 1 minute")).
Proof.
  unfold set_sync_interval. split.
  - intros Hmin. destruct (Z.ltb_spec minutes 1) as [Hlt|_]; [lia|].
    eexists. split; [reflexivity|].
    split; [unfold get_status; cbn; apply Z.div_mul; lia|].
    do 4 (split; [reflexivity|]).
    intros c w Hself Hrun Hc.
    assert (Hrunw : is_running (self w) = true) by now rewrite Hself.
    destruct (sync_loop_turn c [] w Hrunw)
      as (w1 & _ & _ & Hslept & _ & _ & Hstep).
    rewrite Hstep. unfold succeeds_and_sleeps, sleeps in *.
    rewrite Hself in Hslept. cbn in Hslept.
    destruct (steps c) as [r|[e|]]; try discriminate.
    apply negb_true_iff in Hc. rewrite Hc in *. exact Hslept.
  - intros Hmin. destruct (Z.ltb_spec minutes 1) as [_|Hge]; [reflexivity|lia].
Qed.

Lemma start_running (s : Service) :
  is_running s = true -> start_auto_sync s = (s, false).
Proof. intros H. unfold start_auto_sync. now rewrite H. Qed.

Lemma starts_running (n : nat) (s : Service) :
  is_running s = true -> starts n s = (s, O).
Proof.
  induction n as [|n IH]; intros Hrun; [reflexivity|].
  cbn [starts]. now rewrite (start_running s Hrun), (IH Hrun).
Qed.

(** X6. However often [start_auto_sync] is called in a row, at most one
    task for the loop is created: none on a service that runs already,
    exactly one on a stopped service, which runs from the first call on;
    nothing but is_running is touched. *)
Theorem start_auto_sync_once (n : nat) (s : Service) :
  let '(s', tasks) := starts (S n) s in
  is_running s' = true
  /\ tasks = (if is_running s then 0 else 1)%nat
  /\ last_sync s' = last_sync s
  /\ sync_interval s' = sync_interval s
  /\ errors s' = errors s.
Proof.
  cbn [starts]. unfold start_auto_sync.
  destruct (is_running s) eqn:Hrun.
  - rewrite (starts_running n s Hrun). now repeat split.
  - rewrite starts_running by reflexivity. now repeat split.
Qed.

End SyncControlFacts.

(** ** The engine: one batch *)

Section BatchMore.

Import PredictionEngine Vocabulary Batch.

Context `{Libs : Libraries}.

Lemma drop_duplicates_in (seen l : list (string * string))
    (x : string * string) :
  In x (drop_duplicates seen l) <-> In x l /\ ~ In x seen.
Proof.
  revert seen; induction l as [|a l IH]; intros seen; simpl.
  - tauto.
  - destruct (decide (a ∈ seen)) as [Ha|Ha]; rewrite list_elem_of_In in Ha.
    + rewrite IH. split; [tauto|].
      intros [[->|Hx] Hn]; [contradiction|tauto].
    + simpl. rewrite IH. simpl. split.
      * intros [->|(Hx & Hn)]; [tauto|]. split; [tauto|]. tauto.
      * intros [[->|Hx] Hn]; [tauto|].
        destruct (decide (a = x)) as [->|Hne]; [tauto|]. right.
        split; [exact Hx|]. intros [Heq|Hs]; [congruence|tauto].
Qed.

Lemma drop_duplicates_NoDup (seen l : list (string * string)) :
  List.NoDup (drop_duplicates seen l).
Proof.
  revert seen; induction l as [|a l IH]; intros seen; simpl.
  - constructor.
  - destruct (decide (a ∈ seen)) as [Ha|Ha]; [apply IH|].
    constructor; [|apply IH].
    rewrite drop_duplicates_in. simpl. tauto.
Qed.

(** X7. The dishes a batch iterates are the pairs of dish_id and
    dish_name that occur in the window, each exactly once. *)
Theorem unique_dishes_exact (df : list HistRow) :
  List.NoDup (unique_dishes df)
  /\ forall dish name,
       In (dish, name) (unique_dishes df)
       <-> exists r, In r df /\ dish_id r = dish /\ dish_name r = name.
Proof.
  split; [apply drop_duplicates_NoDup|].
  intros dish name. unfold unique_dishes.
  rewrite drop_duplicates_in, in_map_iff. split.
  - intros [(r & Heq & Hr) _]. exists r. inversion Heq. now repeat split.
  - intros (r & Hr & <- & <-). split; [now exists r|]. intros [].
Qed.






(** X9. Every forecast of a batch is for a dish of the window, under its
    name there, for one of the periods morning, afternoon and evening, and
    for the target date. *)
Theorem forecast_fields (df : list HistRow) (target : string) (p : Prediction) :
  In p (fst (predict_dishes df target (unique_dishes df))) ->
  In (p_dish_id p, p_dish_name p) (unique_dishes df)
  /\ In (p_period p) ["morning"; "afternoon"; "evening"]
  /\ prediction_date p = target.
Proof.
  rewrite predict_dishes_produced. cbn [fst]. intros Hin.
  apply in_produced in Hin. destruct Hin as (dish & name & per & Hd & Hper & Hp).
  destruct (predict_key _ _ _ _ _ _ Hp) as (-> & -> & -> & ->).
  now repeat split.
Qed.



End BatchMore.

(** ** The engine: numbers of one forecast *)

Section ForecastMore.

Import PredictionEngine Vocabulary Batch.

Context `{Libs : Libraries}.







Lemma sum_zero (ys : list Z) : Forall (fun y => y = 0) ys -> sum ys = 0.
Proof.
  induction 1 as [|y ys Hy _ IH]; unfold sum in *; cbn [fold_right]; lia.
Qed.

Lemma raw_confidence_zero_mean (width mu : Q) :
  (mu == 0)%Q ->
  raw_confidence width (Fin mu)
  = if Qle_bool width 0 then Fin 95.0 else Fin 50.0.
Proof.
  intros Hmu. unfold raw_confidence, np_div.
  apply Qeq_bool_iff in Hmu. rewrite Hmu.
  destruct (Qcompare_spec width 0) as [Heq|Hlt|Hgt].
  - assert (Hle : Qle_bool width 0 = true).
    { apply Qle_bool_iff. rewrite Heq. apply Qle_refl. }
    now rewrite Hle.
  - assert (Hle : Qle_bool width 0 = true).
    { apply Qle_bool_iff. now apply Qlt_le_weak. }
    now rewrite Hle.
  - assert (Hle : Qle_bool width 0 = false).
    { destruct (Qle_bool width 0) eqn:E; [|reflexivity].
      apply Qle_bool_iff in E. exfalso. now apply (Qlt_not_le _ _ Hgt). }
    now rewrite Hle.
Qed.

(** X12. A series of at least 5 rows that sold nothing has the mean zero,
    and the division by it raises nothing: after a fit the confidence of
    the forecast is 50.0 where the upper bound of the model exceeds
    max(0, lower bound), and 95.0 otherwise. *)
Theorem zero_series_confidence (df : list HistRow)
    (dish name per target : string)
    (data : list (Timestamp * Z)) (t : Timestamp) (fc : Forecast) :
  (5 <= length (select df dish per))%nat ->
  Forall (fun r => y r = 0) (select df dish per) ->
  prepare (select df dish per) = Some data ->
  to_datetime target = Some t ->
  prophet data t = Some fc ->
  exists p,
    _predict_dish_demand df dish name per target = Some p
    /\ confidence p
       = if Qle_bool (yhat_upper fc - py_maxQ 0 (yhat_lower fc)) 0
         then Fin 95.0 else Fin 50.0.
Proof.
  intros Hlen Hzero Hprep Ht Hfit.
  eexists. split; [exact (predict_fitted _ _ name _ _ _ _ _ Hlen Hprep Ht Hfit)|].
  cbn [confidence fitted_of].
  assert (Hne : map y (select df dish per) <> []).
  { destruct (select df dish per); simpl in *; [lia|congruence]. }
  rewrite (mean_nonempty _ Hne).
  assert (Hmu : (average (map y (select df dish per)) == 0)%Q).
  { unfold average, Qeq; simpl. rewrite sum_zero; [lia|].
    apply Forall_map. exact Hzero. }
  rewrite (raw_confidence_zero_mean _ _ Hmu).
  now destruct (Qle_bool _ 0).
Qed.

Lemma half_order (x y : Q) :
  (x <= y)%Q ->
  match (x ?= 1 # 2)%Q, (y ?= 1 # 2)%Q with
  | Eq, Lt | Gt, Lt | Gt, Eq => False
  | _, _ => True
  end.
Proof.
  intros Hxy.
  destruct (Qcompare_spec x (1 # 2)) as [Hx|Hx|Hx];
    destruct (Qcompare_spec y (1 # 2)) as [Hy|Hy|Hy]; try exact I;
    destruct x as [xn xd], y as [yn yd];
    unfold Qle, Qlt, Qeq in *; simpl in *; nia.
Qed.

Lemma py_round_mono (a b : Q) : (a <= b)%Q -> py_round a <= py_round b.
Proof.
  intros Hab. pose proof (Qfloor_resp_le _ _ Hab) as Hf.
  unfold py_round.
  destruct (Z.eq_dec (Qfloor a) (Qfloor b)) as [E|E].
  - rewrite <- E.
    assert (Hd : (a - inject_Z (Qfloor a) <= b - inject_Z (Qfloor a))%Q).
    { apply Qplus_le_compat; [exact Hab|apply Qle_refl]. }
    apply half_order in Hd.
    destruct (a - inject_Z (Qfloor a) ?= 1 # 2)%Q;
      destruct (b - inject_Z (Qfloor a) ?= 1 # 2)%Q;
      try contradiction; try (destruct (Z.even (Qfloor a))); lia.
  - destruct (a - inject_Z (Qfloor a) ?= 1 # 2)%Q;
      destruct (b - inject_Z (Qfloor b) ?= 1 # 2)%Q;
      try (destruct (Z.even (Qfloor a))); try (destruct (Z.even (Qfloor b)));
      lia.
Qed.

Lemma round1_mono (a b : Q) : (a <= b)%Q -> (round1 a <= round1 b)%Q.
Proof.
  intros Hab. unfold round1.
  assert (H : py_round (a * 10) <= py_round (b * 10)).
  { apply py_round_mono. apply Qmult_le_compat_r; [exact Hab|discriminate]. }
  unfold Qle; simpl. lia.
Qed.

Lemma clamp_mono (a b : Q) : (a <= b)%Q -> (clamp a 50 95 <= clamp b 50 95)%Q.
Proof.
  intros Hab. unfold clamp.
  apply Q.max_le_compat_l. apply Q.min_le_compat_l. exact Hab.
Qed.

(** X13. For a series with a positive mean, a wider interval of the model
    never gives a higher confidence: the rounded confidence is antitone in
    the width of the interval. *)
Theorem confidence_antitone (width1 width2 mu : Q) :
  (0 < mu)%Q -> (width1 <= width2)%Q ->
  exists c1 c2,
    np_round1 (raw_confidence width1 (Fin mu)) = Fin c1
    /\ np_round1 (raw_confidence width2 (Fin mu)) = Fin c2
    /\ (c2 <= c1)%Q.
Proof.
  intros Hmu Hw.
  assert (Hne : ~ (mu == 0)%Q).
  { intros H. rewrite H in Hmu. discriminate. }
  pose proof (raw_confidence_clamp width1 mu Hne) as H1.
  pose proof (raw_confidence_clamp width2 mu Hne) as H2.
  destruct (raw_confidence width1 (Fin mu)) as [r1| | |]; try contradiction.
  destruct (raw_confidence width2 (Fin mu)) as [r2| | |]; try contradiction.
  simpl in H1, H2.
  exists (round1 r1), (round1 r2). split; [reflexivity|]. split; [reflexivity|].
  apply round1_mono. rewrite H1, H2. apply clamp_mono.
  apply Qplus_le_compat; [apply Qle_refl|]. apply Qopp_le_compat.
  apply Qmult_le_compat_r; [|discriminate].
  unfold Qdiv. apply Qmult_le_compat_r; [exact Hw|].
  apply Qinv_le_0_compat. now apply Qlt_le_weak.
Qed.

End ForecastMore.

(** ** The engine: factors *)

Section FactorsMore.

Import PredictionEngine Vocabulary Batch.

Context `{Libs : Libraries}.

Lemma period_part_short (per : string) : (length (period_part per) <= 1)%nat.
Proof. unfold period_part. destruct (period_factor per); simpl; lia. Qed.

Lemma trend_part_length (data : list (Timestamp * Z)) :
  (length (trend_part data) <= 1)%nat.
Proof.
  unfold trend_part.
  repeat match goal with
         | |- context [if ?b then _ else _] => destruct b
         end; simpl; lia.
Qed.

(** The cut to four entries never removes one. *)
Lemma analyze_uncut (t : Timestamp) (per : string)
    (data : list (Timestamp * Z)) (v : Q) :
  _analyze_prediction_factors t per data v
  = weekday_part t data ++ period_part per ++ trend_part data ++ season_part t.
Proof.
  rewrite analyze_parts. apply take_ge. rewrite !length_app.
  pose proof (period_part_short per). pose proof (trend_part_length data).
  destruct (weekday_part_cases t data) as [->|(w & -> & _)];
    destruct (season_part_cases t) as [->|(s & -> & _)]; simpl; lia.
Qed.

Lemma weekday_part_weekday (t : Timestamp) (data : list (Timestamp * Z)) :
  (dow_index (dayofweek t) < 5)%nat ->
  weekday_part t data
  = ["Weekday pattern (" +:+ nth (dow_index (dayofweek t)) dow_names "" +:+ ")"].
Proof.
  intros Hdow. unfold weekday_part.
  apply Nat.leb_gt in Hdow. now rewrite Hdow.
Qed.

Lemma np_ltb_nan_l (x : npfloat) : np_ltb NaN x = false.
Proof. reflexivity. Qed.

Lemma np_ltb_nan_r (x : npfloat) : np_ltb x NaN = false.
Proof. now destruct x. Qed.

Lemma weekday_part_one_sided (t : Timestamp) (data : list (Timestamp * Z)) :
  (5 <= dow_index (dayofweek t))%nat ->
  List.filter is_weekend data = []
  \/ List.filter (fun r => negb (is_weekend r)) data = [] ->
  weekday_part t data = [].
Proof.
  intros Hdow Hside. unfold weekday_part.
  apply Nat.leb_le in Hdow. rewrite Hdow.
  destruct Hside as [-> | ->]; cbn [map mean np_scale].
  - now rewrite np_ltb_nan_r, np_ltb_nan_l.
  - now rewrite np_ltb_nan_l, np_ltb_nan_r.
Qed.

(** X14. For a target date from Monday to Friday the first factor is
    "Weekday pattern" with the name of that day. For a Saturday or Sunday
    whose series has no weekend rows, or no weekday rows, the comparison of
    the two means has nothing to compare and no weekend factor is given:
    the list is the label of the period, the trend entry and the season
    entry alone. *)
Theorem weekday_factor (t : Timestamp) (per : string)
    (data : list (Timestamp * Z)) (v : Q) :
  ((dow_index (dayofweek t) < 5)%nat ->
   exists day rest,
     nth_error dow_names (dow_index (dayofweek t)) = Some day
     /\ _analyze_prediction_factors t per data v
        = ("Weekday pattern (" +:+ day +:+ ")") :: rest)
  /\ ((5 <= dow_index (dayofweek t))%nat ->
      List.filter is_weekend data = []
      \/ List.filter (fun r => negb (is_weekend r)) data = [] ->
      _analyze_prediction_factors t per data v
      = period_part per ++ trend_part data ++ season_part t).
Proof.
  split.
  - intros Hdow. rewrite analyze_uncut, (weekday_part_weekday t data Hdow).
    exists (nth (dow_index (dayofweek t)) dow_names ""). eexists.
    split; [|reflexivity].
    destruct (dayofweek t); reflexivity.
  - intros Hdow Hside.
    now rewrite analyze_uncut, (weekday_part_one_sided t data Hdow Hside).
Qed.

Lemma season_not_elsewhere (t : Timestamp) (per : string)
    (data : list (Timestamp * Z)) (s : string) :
  In s season_factors ->
  ~ In s (weekday_part t data) /\ ~ In s (period_part per)
  /\ ~ In s (trend_part data).
Proof.
  intros Hs. split; [|split].
  - destruct (weekday_part_cases t data) as [->|(w & -> & Hw)]; [tauto|].
    intros [<-|[]]. revert Hs Hw. unfold season_factors, weekday_factors.
    destruct (dayofweek t); simpl;
      intros [<-|[<-|[]]] [H|[H|[H|[]]]]; discriminate.
  - unfold period_part, period_factor.
    repeat match goal with
           | |- context [if ?b then _ else _] => destruct b
           end; simpl; revert Hs; unfold season_factors; simpl;
      intros [<-|[<-|[]]] H; try tauto;
      destruct H as [H|[]]; discriminate.
  - unfold trend_part.
    repeat match goal with
           | |- context [if ?b then _ else _] => destruct b
           end; simpl; revert Hs; unfold season_factors; simpl;
      intros [<-|[<-|[]]] H; try tauto;
      destruct H as [H|[]]; discriminate.
Qed.

(** X15. "Winter seasonality" is among the factors exactly for a target
    date in December, January or February, "Summer seasonality" exactly
    for one in June, July or August, and never both. *)
Theorem season_factor (t : Timestamp) (per : string)
    (data : list (Timestamp * Z)) (v : Q) :
  let fs := _analyze_prediction_factors t per data v in
  (In "Winter seasonality" fs <-> In (month t) [12; 1; 2])
  /\ (In "Summer seasonality" fs <-> In (month t) [6; 7; 8])
  /\ ~ (In "Winter seasonality" fs /\ In "Summer seasonality" fs).
Proof.
  intros fs. subst fs. rewrite analyze_uncut.
  assert (Hin : forall s, In s season_factors ->
            (In s (weekday_part t data ++ period_part per ++ trend_part data
                   ++ season_part t)
             <-> In s (season_part t))).
  { intros s Hs.
    destruct (season_not_elsewhere t per data s Hs) as (H1 & H2 & H3).
    rewrite !in_app_iff. tauto. }
  rewrite (Hin "Winter seasonality") by (simpl; tauto).
  rewrite (Hin "Summer seasonality") by (simpl; tauto).
  unfold season_part.
  assert (Hw : existsb (Z.eqb (month t)) [12; 1; 2] = true
               <-> In (month t) [12; 1; 2]).
  { rewrite existsb_exists. simpl. split.
    - intros (x & Hx & Heq). apply Z.eqb_eq in Heq. subst x. tauto.
    - intros H. exists (month t). split; [tauto|apply Z.eqb_refl]. }
  assert (Hs : existsb (Z.eqb (month t)) [6; 7; 8] = true
               <-> In (month t) [6; 7; 8]).
  { rewrite existsb_exists. simpl. split.
    - intros (x & Hx & Heq). apply Z.eqb_eq in Heq. subst x. tauto.
    - intros H. exists (month t). split; [tauto|apply Z.eqb_refl]. }
  destruct (existsb (Z.eqb (month t)) [12; 1; 2]) eqn:Ew;
    destruct (existsb (Z.eqb (month t)) [6; 7; 8]) eqn:Es; simpl.
  - assert (H1 : In (month t) [12; 1; 2]) by now apply Hw.
    assert (H2 : In (month t) [6; 7; 8]) by now apply Hs.
    simpl in H1, H2. lia.
  - split; [tauto|]. split; [|intros [_ [H|[]]]; discriminate].
    split; [intros [H|[]]; discriminate|]. intros H. apply Hs in H. discriminate.
  - split; [|split; [tauto|intros [[H|[]] _]; discriminate]].
    split; [intros [H|[]]; discriminate|]. intros H. apply Hw in H. discriminate.
  - split; [|split; [|tauto]].
    + split; [tauto|]. intros H. apply Hw in H. discriminate.
    + split; [tauto|]. intros H. apply Hs in H. discriminate.
Qed.

End FactorsMore.

(** ** The predictions table after a call *)

Section StoreMore.

Import PredictionEngine Vocabulary Batch.

Lemma save_cons (now : string) (p : Prediction) (preds : list Prediction)
    (db : Store) :
  save_predictions now (p :: preds) db
  = save_predictions now preds (insert_or_replace now db p).
Proof. reflexivity. Qed.

Lemma last_for_cons (k : string * string * string) (p : Prediction)
    (preds : list Prediction) :
  last_for k (p :: preds)
  = match last_for k preds with
    | Some q => Some q
    | None => if bool_decide (key_of p = k) then Some p else None
    end.
Proof.
  unfold last_for. cbn [List.filter].
  destruct (bool_decide (key_of p = k)); [|now destruct (last _)].
  apply last_cons.
Qed.


Lemma save_lookup (now : string) (preds : list Prediction) (db : Store)
    (k : string * string * string) :
  match last_for k preds with
  | None => predictions (save_predictions now preds db) !! k
            = predictions db !! k
  | Some p =>
      exists row,
        predictions (save_predictions now preds db) !! k = Some row
        /\ written_columns row = columns_of p
        /\ row_created_at row = now
        /\ predictions_seq db < row_id row
           <= predictions_seq db + Z.of_nat (length preds)
  end.
Proof.
  revert db; induction preds as [|p preds IH]; intros db.
  - reflexivity.
  - rewrite save_cons, last_for_cons.
    specialize (IH (insert_or_replace now db p)).
    destruct (last_for k preds) as [q|].
    + destruct IH as (row & Hrow & Hcols & Hnow & Hid).
      exists row. cbn [insert_or_replace predictions_seq length] in *.
      repeat split; try assumption; lia.
    + rewrite IH. cbn [insert_or_replace predictions].
      destruct (bool_decide_reflect (key_of p = k)) as [Hk|Hk].
      * unfold key_of in Hk. rewrite Hk, lookup_insert_eq.
        eexists. split; [reflexivity|]. cbn. repeat split; lia.
      * unfold key_of in Hk. now rewrite lookup_insert_ne.
Qed.

Lemma last_for_none (k : string * string * string) (preds : list Prediction) :
  last_for k preds = None <-> forall p, In p preds -> key_of p <> k.
Proof.
  unfold last_for. rewrite last_None. split.
  - intros Hnil p Hp Hk.
    assert (Hin : In p (List.filter (fun p => bool_decide (key_of p = k)) preds)).
    { apply filter_In. split; [exact Hp|]. now apply bool_decide_eq_true. }
    rewrite Hnil in Hin. destruct Hin.
  - intros Hall.
    destruct (List.filter (fun p => bool_decide (key_of p = k)) preds)
      as [|q l] eqn:Hf; [reflexivity|].
    assert (Hin : In q (List.filter (fun p => bool_decide (key_of p = k)) preds))
      by (rewrite Hf; now left).
    apply filter_In in Hin. destruct Hin as [Hq Hk].
    apply bool_decide_eq_true in Hk. now destruct (Hall q Hq).
Qed.

Lemma last_for_some (k : string * string * string) (preds : list Prediction)
    (p : Prediction) :
  last_for k preds = Some p -> In p preds /\ key_of p = k.
Proof.
  unfold last_for. intros Hlast.
  assert (Hin : In p (List.filter (fun p => bool_decide (key_of p = k)) preds)).
  { apply list_elem_of_In. apply last_Some in Hlast.
    destruct Hlast as [l' ->]. apply list_elem_of_In, in_or_app.
    right. now left. }
  apply filter_In in Hin. destruct Hin as [Hp Hk].
  split; [exact Hp|]. now apply bool_decide_eq_true in Hk.
Qed.





End StoreMore.

(** ** The database after a call *)

Section GenerateMore.

Import PredictionEngine Vocabulary Batch.

Context `{Libs : Libraries}.

Lemma produced_date (df : list HistRow) (target : string)
    (dishes : list (string * string)) (p : Prediction) :
  In p (produced df target dishes) -> prediction_date p = target.
Proof.
  intros Hin. apply in_produced in Hin.
  destruct Hin as (dish & name & per & _ & _ & Hp).
  now destruct (predict_key _ _ _ _ _ _ Hp) as (_ & _ & _ & ->).
Qed.



End GenerateMore.

(** ** Sales analytics *)

Section AnalyticsFacts.

Import Analytics.

Lemma has_key_In {A : Type} (k : string) (d : list (string * A)) :
  has_key k d = true <-> In k (map fst d).
Proof.
  unfold has_key. rewrite existsb_exists, in_map_iff. split.
  - intros (e & He & Hk). apply String.eqb_eq in Hk. now exists e.
  - intros (e & Hk & He). exists e. split; [exact He|]. now apply String.eqb_eq.
Qed.

Lemma alter_at_keys {A : Type} (f : A -> A) (k : string)
    (d : list (string * A)) :
  map fst (alter_at f k d) = map fst d.
Proof.
  induction d as [|[k' v] d IH]; [reflexivity|]. simpl.
  destruct (String.eqb k' k); simpl; [reflexivity|now rewrite IH].
Qed.

Lemma alter_at_shape {A : Type} (G G' : string -> A) (f : A -> A) (k : string)
    (d : list (string * A)) :
  List.NoDup (map fst d) ->
  Forall (fun e => snd e = G (fst e)) d ->
  f (G k) = G' k ->
  (forall k', k' <> k -> G k' = G' k') ->
  Forall (fun e => snd e = G' (fst e)) (alter_at f k d).
Proof.
  intros Hnd Hall Hk Hother.
  induction d as [|[k' v] d IH]; [constructor|].
  simpl in Hnd. inversion Hnd as [|? ? Hnotin Hnd']; subst.
  inversion Hall as [|? ? Hv Hall']; subst. simpl in Hv. simpl.
  destruct (String.eqb_spec k' k) as [->|Hne].
  - constructor; [simpl; now rewrite Hv|].
    apply Forall_forall. intros [k1 v1] Hin.
    rewrite Forall_forall in Hall'. rewrite (Hall' _ Hin). simpl.
    apply Hother. intros ->. apply Hnotin.
    apply in_map_iff. exists (k, v1). split; [reflexivity|].
    now apply list_elem_of_In.
  - constructor; [simpl; rewrite Hv; now apply Hother|]. now apply IH.
Qed.

Lemma rows_of_snoc (results : list SalesRow) (row : SalesRow) (d per : string) :
  rows_of (results ++ [row]) d per
  = rows_of results d per
    ++ (if String.eqb (sr_date row) d && String.eqb (sr_period row) per
        then [row] else []).
Proof. unfold rows_of. now rewrite List.filter_app. Qed.

Lemma entry_for_snoc (results : list SalesRow) (row : SalesRow)
    (d per : string) :
  entry_for (results ++ [row]) d per
  = if String.eqb (sr_date row) d && String.eqb (sr_period row) per
    then data_of row else entry_for results d per.
Proof.
  unfold entry_for. rewrite rows_of_snoc.
  destruct (String.eqb (sr_date row) d && String.eqb (sr_period row) per).
  - now rewrite last_snoc.
  - now rewrite app_nil_r.
Qed.

Lemma entry_for_absent (results : list SalesRow) (d per : string) :
  ~ In d (map sr_date results) -> entry_for results d per = nothing.
Proof.
  intros Hd. unfold entry_for, rows_of.
  assert (Hnil : List.filter
                   (fun r => String.eqb (sr_date r) d
                             && String.eqb (sr_period r) per) results = []).
  { induction results as [|r results IH]; [reflexivity|].
    cbn [List.filter map] in *.
    destruct (String.eqb_spec (sr_date r) d) as [E|Hne].
    - exfalso. apply Hd. now left.
    - cbn [andb]. apply IH. intros H. apply Hd. now right. }
  now rewrite Hnil.
Qed.

Lemma shape_other_date (results : list SalesRow) (row : SalesRow) (d : string) :
  d <> sr_date row -> shape results d = shape (results ++ [row]) d.
Proof.
  intros Hd. unfold shape. rewrite !entry_for_snoc.
  destruct (String.eqb_spec (sr_date row) d) as [E|_]; [congruence|].
  reflexivity.
Qed.

Lemma shape_other_period (results : list SalesRow) (row : SalesRow)
    (d : string) :
  is_daypart (sr_period row) = false ->
  shape results d = shape (results ++ [row]) d.
Proof.
  intros Hp. unfold shape. rewrite !entry_for_snoc.
  unfold is_daypart in Hp. simpl in Hp.
  apply orb_false_iff in Hp. destruct Hp as [H1 Hp].
  apply orb_false_iff in Hp. destruct Hp as [H2 Hp].
  apply orb_false_iff in Hp. destruct Hp as [H3 _].
  rewrite H1, H2, H3, !andb_false_r. reflexivity.
Qed.

Lemma shape_assign (results : list SalesRow) (row : SalesRow) :
  is_daypart (sr_period row) = true ->
  assign (sr_period row) (data_of row) (shape results (sr_date row))
  = shape (results ++ [row]) (sr_date row).
Proof.
  intros Hp. unfold shape, assign. rewrite !entry_for_snoc.
  rewrite String.eqb_refl. cbn [andb].
  unfold is_daypart in Hp. simpl in Hp.
  destruct (String.eqb_spec (sr_period row) "morning") as [E|_].
  - rewrite ?E. reflexivity.
  - destruct (String.eqb_spec (sr_period row) "afternoon") as [E|_].
    + rewrite ?E. reflexivity.
    + destruct (String.eqb_spec (sr_period row) "evening") as [E|_].
      * rewrite ?E. reflexivity.
      * discriminate.
Qed.

(** The dictionary after the first loop: one entry per date of the rows,
    of the shape the rows give. *)
Lemma grouped (results : list SalesRow) :
  let sales_by_date := fold_left group_row results [] in
  List.NoDup (map fst sales_by_date)
  /\ (forall d, In d (map fst sales_by_date) <-> In d (map sr_date results))
  /\ Forall (fun e => snd e = shape results (fst e)) sales_by_date.
Proof.
  induction results as [|row results IH] using rev_ind.
  - simpl. split; [constructor|]. split; [tauto|constructor].
  - cbv zeta in *. rewrite fold_left_app. cbn [fold_left].
    destruct IH as (Hnd & Hkeys & Hshape).
    set (acc := fold_left group_row results []) in *.
    unfold group_row.
    set (acc1 := if has_key (sr_date row) acc then acc
                 else acc ++ [(sr_date row, fresh (sr_date row))]).
    assert (H1 : List.NoDup (map fst acc1)
                 /\ (forall d, In d (map fst acc1)
                               <-> In d (map sr_date (results ++ [row])))
                 /\ Forall (fun e => snd e = shape results (fst e)) acc1).
    { subst acc1. destruct (has_key (sr_date row) acc) eqn:Hhas.
      - apply has_key_In in Hhas. split; [exact Hnd|]. split; [|exact Hshape].
        intros d. rewrite map_app, in_app_iff, Hkeys. simpl. split; [tauto|].
        intros [H|[<-|[]]]; [exact H|]. now apply Hkeys.
      - assert (Hnew : ~ In (sr_date row) (map fst acc)).
        { intros H. apply has_key_In in H. congruence. }
        split; [|split].
        + rewrite map_app. simpl. apply NoDup_ListNoDup.
          apply NoDup_app. split; [now apply NoDup_ListNoDup|].
          split; [|apply NoDup_ListNoDup; repeat constructor; intros []].
          intros x Hx Hx'. apply list_elem_of_In in Hx.
          apply list_elem_of_In in Hx'. simpl in Hx'.
          destruct Hx' as [<-|[]]. contradiction.
        + intros d. rewrite !map_app, !in_app_iff, Hkeys. reflexivity.
        + apply Forall_app. split; [exact Hshape|].
          constructor; [|constructor]. simpl. unfold shape, fresh.
          rewrite !entry_for_absent; try reflexivity;
            intros H; apply Hkeys in H; contradiction. }
    destruct H1 as (Hnd1 & Hkeys1 & Hshape1).
    destruct (is_daypart (sr_period row)) eqn:Hp.
    + split; [now rewrite alter_at_keys|]. split; [now rewrite alter_at_keys|].
      apply (alter_at_shape (shape results)); try assumption.
      * now apply shape_assign.
      * intros k' Hk'. now apply shape_other_date.
    + split; [exact Hnd1|]. split; [exact Hkeys1|].
      eapply Forall_impl; [exact Hshape1|]. intros e He. simpl in *.
      rewrite He. now apply shape_other_period.
Qed.

Lemma sales_data_shape (results : list SalesRow) :
  get_sales_data results
  = map (fun d => with_total (shape results d))
      (map fst (fold_left group_row results [])).
Proof.
  unfold get_sales_data. destruct (grouped results) as (_ & _ & Hshape).
  cbv zeta in Hshape. rewrite map_map.
  induction (fold_left group_row results []) as [|e l IH]; [reflexivity|].
  inversion Hshape as [|? ? He Hl]; subst. simpl. rewrite He. f_equal.
  now apply IH.
Qed.

(** X20. Every date of the answer of [get_sales_data] holds, for each of
    morning, afternoon and evening, the data of the last row of that date
    and period (NULL sums read as 0), and zeros where there is no such row;
    its total has the sum of the three order counts and of the three
    revenues, and as avg_order their quotient, or 0 when no order is
    counted: the division by zero is never made. *)
Theorem sales_day (results : list SalesRow) (day : DaySales) :
  In day (get_sales_data results) ->
  morning day = entry_for results (date day) "morning"
  /\ afternoon day = entry_for results (date day) "afternoon"
  /\ evening day = entry_for results (date day) "evening"
  /\ orders (total day)
     = orders (morning day) + orders (afternoon day) + orders (evening day)
  /\ pd_revenue (total day)
     = (pd_revenue (morning day) + pd_revenue (afternoon day)
        + pd_revenue (evening day))%Q
  /\ (0 < orders (total day) ->
      avg_order (total day)
      = (pd_revenue (total day) / inject_Z (orders (total day)))%Q)
  /\ (orders (total day) <= 0 -> avg_order (total day) = 0%Q).
Proof.
  rewrite sales_data_shape. intros Hin. apply in_map_iff in Hin.
  destruct Hin as (d & <- & _). cbn.
  repeat split.
  - intros Hpos. apply Z.ltb_lt in Hpos. now rewrite Hpos.
  - intros Hle. apply Z.ltb_ge in Hle. now rewrite Hle.
Qed.

Lemma sales_data_dates (results : list SalesRow) :
  map date (get_sales_data results)
  = map fst (fold_left group_row results []).
Proof. rewrite sales_data_shape, map_map. cbn. apply map_id. Qed.

(** [get_daily_sales] answers None for a query without rows only, and
    otherwise the entry of a date of the query. *)
Lemma daily_sales_cases (results : list SalesRow) :
  (get_daily_sales results = None <-> results = [])
  /\ (forall day, get_daily_sales results = Some day ->
                  In (date day) (map sr_date results)).
Proof.
  destruct (grouped results) as (_ & Hkeys & _). cbv zeta in Hkeys.
  pose proof (sales_data_dates results) as Hdates.
  unfold get_daily_sales. split; [split|].
  - intros H. destruct results as [|r results]; [reflexivity|]. exfalso.
    assert (Hin : In (sr_date r) (map date (get_sales_data (r :: results)))).
    { rewrite Hdates. apply Hkeys. now left. }
    destruct (get_sales_data (r :: results)) as [|x l];
      [destruct Hin|discriminate].
  - intros ->. reflexivity.
  - intros day Hday. apply Hkeys. rewrite <- Hdates.
    destruct (get_sales_data results) as [|x l]; [discriminate|].
    inversion Hday; subst x. now left.
Qed.

(** X21. The answer of [get_sales_data] has exactly one entry for every
    date that occurs in the rows of the query, whatever the period of the
    rows, 'other' included; so [get_daily_sales] answers None exactly when
    the query has no row, and otherwise the entry of a date of the
    query. *)
Theorem sales_dates (results : list SalesRow) :
  List.NoDup (map date (get_sales_data results))
  /\ (forall d, In d (map date (get_sales_data results))
                <-> In d (map sr_date results))
  /\ (get_daily_sales results = None <-> results = [])
  /\ (forall day, get_daily_sales results = Some day ->
                  In (date day) (map sr_date results)).
Proof.
  destruct (grouped results) as (Hnd & Hkeys & _). cbv zeta in *.
  rewrite sales_data_dates.
  split; [exact Hnd|]. split; [exact Hkeys|]. apply daily_sales_cases.
Qed.

Lemma is_daypart_cases (p : string) :
  is_daypart p
  = String.eqb p "morning" || String.eqb p "afternoon"
    || String.eqb p "evening".
Proof.
  unfold is_daypart. cbn [existsb]. rewrite orb_false_r.
  now rewrite orb_assoc.
Qed.

Lemma daypart_sum (results : list SalesRow) (d : string) :
  sum (map orders_count (daypart_rows results d))
  = sum (map orders_count (rows_of results d "morning"))
    + sum (map orders_count (rows_of results d "afternoon"))
    + sum (map orders_count (rows_of results d "evening")).
Proof.
  induction results as [|r results IH]; [reflexivity|].
  unfold daypart_rows, rows_of in *. cbn [List.filter].
  rewrite is_daypart_cases.
  destruct (String.eqb (sr_date r) d); cbn [andb]; [|exact IH].
  destruct (String.eqb_spec (sr_period r) "morning") as [E|_].
  - rewrite E. cbn [String.eqb Ascii.eqb Bool.eqb orb map].
    unfold sum in *. cbn [fold_right]. rewrite IH. lia.
  - destruct (String.eqb_spec (sr_period r) "afternoon") as [E|_].
    + rewrite E. cbn [String.eqb Ascii.eqb Bool.eqb orb map].
      unfold sum in *. cbn [fold_right]. rewrite IH. lia.
    + destruct (String.eqb_spec (sr_period r) "evening") as [E|_].
      * cbn [orb map]. unfold sum in *. cbn [fold_right]. rewrite IH. lia.
      * cbn [orb]. exact IH.
Qed.

Lemma rows_of_in (results : list SalesRow) (d per : string) (r : SalesRow) :
  In r (rows_of results d per) -> In (d, per) (map group_key results).
Proof.
  unfold rows_of. intros H. apply List.filter_In in H. destruct H as [Hin Hm].
  apply andb_true_iff in Hm. destruct Hm as [Hd Hp].
  apply String.eqb_eq in Hd. apply String.eqb_eq in Hp.
  apply in_map_iff. exists r. split; [|exact Hin].
  unfold group_key. now rewrite Hd, Hp.
Qed.

Lemma rows_of_single (results : list SalesRow) (d per : string) :
  List.NoDup (map group_key results) ->
  orders (entry_for results d per)
  = sum (map orders_count (rows_of results d per)).
Proof.
  intros Hnd. unfold entry_for.
  induction results as [|r results IH]; [reflexivity|].
  cbn [map] in Hnd. inversion Hnd as [|? ? Hnotin Hnd']; subst.
  specialize (IH Hnd'). unfold rows_of in *. cbn [List.filter].
  destruct (String.eqb (sr_date r) d && String.eqb (sr_period r) per) eqn:Hm;
    [|exact IH].
  fold (rows_of results d per) in *.
  destruct (rows_of results d per) as [|r' l] eqn:Hrows.
  - cbn. lia.
  - exfalso. apply Hnotin.
    apply andb_true_iff in Hm. destruct Hm as [Hd Hp].
    apply String.eqb_eq in Hd. apply String.eqb_eq in Hp.
    unfold group_key. rewrite Hd, Hp.
    apply (rows_of_in results d per r'). rewrite Hrows. now left.
Qed.

(** X22. The query groups by date and period, so its rows have distinct
    (date, period) pairs; then the order count of the total of a date is the
    sum of the counts of the rows of that date in the three day parts. The
    orders of an 'other' row, those taken before 6 o'clock, are in no
    total. *)
Theorem sales_totals (results : list SalesRow) (day : DaySales) :
  List.NoDup (map group_key results) ->
  In day (get_sales_data results) ->
  orders (total day)
  = sum (map orders_count (daypart_rows results (date day))).
Proof.
  intros Hnd Hin. rewrite sales_data_shape in Hin. apply in_map_iff in Hin.
  destruct Hin as (d & <- & _). cbn.
  rewrite daypart_sum, !rows_of_single by exact Hnd. reflexivity.
Qed.

End AnalyticsFacts.


(** ** Orders and stock *)

Section InventoryFacts.

Import SyncService Inventory.

Lemma sumQ_app (a b : list Q) : sumQ (a ++ b) == sumQ a + sumQ b.
Proof.
  unfold sumQ. induction a as [|x a IH]; cbn [app fold_right].
  - ring.
  - rewrite IH. ring.
Qed.

Lemma amount_app (us1 us2 : list (string * Q)) (i : string) :
  amount (us1 ++ us2) i == amount us1 i + amount us2 i.
Proof.
  unfold amount. rewrite List.filter_app, map_app. apply sumQ_app.
Qed.

Lemma amount_cons (u : string * Q) (us : list (string * Q)) (i : string) :
  amount (u :: us) i
  == (if String.eqb (fst u) i then snd u else 0) + amount us i.
Proof.
  unfold amount. cbn [List.filter].
  destruct (String.eqb (fst u) i); cbn [map]; unfold sumQ;
    cbn [fold_right]; ring.
Qed.

Lemma logged_usage (order_id : string) (us : list (string * Q)) (i : string) :
  logged (map (usage_row order_id) us) i == - amount us i.
Proof.
  induction us as [|u us IH].
  - unfold logged, amount, sumQ. cbn [map List.filter fold_right]. ring.
  - rewrite amount_cons. unfold logged in *. cbn [map List.filter].
    unfold usage_row at 1. cbn [tx_ingredient_id].
    destruct (String.eqb (fst u) i); cbn [map]; unfold sumQ in *;
      cbn [fold_right]; rewrite IH; unfold usage_row;
      cbn [quantity_change]; ring.
Qed.

Lemma recipe_frame (t t' : Tables) (dish_id : string) :
  dish_ingredients t' = dish_ingredients t -> recipe t' dish_id = recipe t dish_id.
Proof. unfold recipe. now intros ->. Qed.

Lemma usages_frame (t t' : Tables) (its : list OrderItem) :
  dish_ingredients t' = dish_ingredients t -> usages t' its = usages t its.
Proof.
  intros H. unfold usages. apply flat_map_ext. intros item.
  now rewrite (recipe_frame t t' _ H).
Qed.

(** One use: what it needs and what it does. *)
Lemma use_ingredient_raise (quantity : Z) (order_id : string) (t : Tables)
    (r : DishIngredient) :
  di_ingredient_id r ∉ dom (ingredients t) ->
  use_ingredient quantity order_id t r
  = Raise (Exception "FOREIGN KEY constraint failed").
Proof.
  intros Hno. unfold use_ingredient, insert_transaction, set_ingredients.
  cbn [ingredients tx_ingredient_id]. rewrite dom_alter_L.
  now rewrite bool_decide_eq_false_2.
Qed.

Lemma use_ingredient_return (quantity : Z) (order_id : string) (t : Tables)
    (r : DishIngredient) :
  di_ingredient_id r ∈ dom (ingredients t) ->
  let u := (di_ingredient_id r, (di_quantity r * inject_Z quantity)%Q) in
  use_ingredient quantity order_id t r
  = Return
      {| dishes := dishes t;
         ingredients :=
           alter (set_quantity (fmap (fun q => (q - snd u)%Q))) (fst u)
             (ingredients t);
         dish_ingredients := dish_ingredients t;
         orders := orders t;
         order_items := order_items t;
         inventory_transactions :=
           inventory_transactions t ++ [usage_row order_id u] |}.
Proof.
  intros Hin u. unfold use_ingredient, insert_transaction, set_ingredients.
  cbn [ingredients tx_ingredient_id]. rewrite dom_alter_L.
  now rewrite bool_decide_eq_true_2.
Qed.

Lemma stock_after_use (t t1 : Tables) (g : Q -> Q) (i0 i : string) :
  ingredients t1 = alter (set_quantity (fmap g)) i0 (ingredients t) ->
  stock t1 i = if String.eqb i0 i then g <$> stock t i else stock t i.
Proof.
  intros H. unfold stock. rewrite H.
  destruct (String.eqb_spec i0 i) as [->|Hne].
  - rewrite lookup_alter_eq. now destruct (ingredients t !! i).
  - now rewrite lookup_alter_ne.
Qed.

(** The effect of a list of uses on the tables. *)
Lemma uses_effect (quantity : Z) (order_id : string)
    (rs : list DishIngredient) (t t' : Tables) :
  let us := map (fun r => (di_ingredient_id r,
                           (di_quantity r * inject_Z quantity)%Q)) rs in
  for_each (use_ingredient quantity order_id) rs t = Return t' ->
  dishes t' = dishes t
  /\ dish_ingredients t' = dish_ingredients t
  /\ orders t' = orders t
  /\ order_items t' = order_items t
  /\ dom (ingredients t') = dom (ingredients t)
  /\ Forall (fun u => fst u ∈ dom (ingredients t)) us
  /\ inventory_transactions t'
     = inventory_transactions t ++ map (usage_row order_id) us
  /\ (forall i q0, stock t i = Some q0 ->
        exists q', stock t' i = Some q' /\ q' == q0 - amount us i)
  /\ (forall i, stock t i = None -> stock t' i = None)
  /\ (forall i, ~ In i (map fst us) ->
        ingredients t' !! i = ingredients t !! i).
Proof.
  cbv zeta. revert t. induction rs as [|r rs IH]; intros t Hrun.
  - cbn in Hrun. inversion Hrun; subst t'. cbn [map].
    rewrite app_nil_r. repeat split; try constructor.
    + intros i q0 Hq. exists q0. split; [exact Hq|].
      unfold amount, sumQ. cbn [map List.filter fold_right]. ring.
    + tauto.
  - cbn [for_each] in Hrun.
    destruct (decide (di_ingredient_id r ∈ dom (ingredients t))) as [Hin|Hno];
      [|rewrite (use_ingredient_raise _ _ _ _ Hno) in Hrun; discriminate].
    rewrite (use_ingredient_return _ _ _ _ Hin) in Hrun. cbn [fst snd] in Hrun.
    cbn [mbind result_bind] in Hrun. apply IH in Hrun. clear IH.
    cbn [dishes dish_ingredients orders order_items ingredients
         inventory_transactions] in Hrun.
    destruct Hrun
      as (Hd & Hdi & Ho & Hoi & Hdom & Hall & Htx & Hst & Hnull & Hframe).
    rewrite dom_alter_L in Hdom, Hall.
    split; [exact Hd|]. split; [exact Hdi|]. split; [exact Ho|].
    split; [exact Hoi|]. split; [exact Hdom|].
    split; [|split; [|split; [|split]]].
    + cbn [map]. constructor; [exact Hin|exact Hall].
    + rewrite Htx. cbn [map]. now rewrite <- app_assoc.
    + intros i q0 Hq. cbn [map].
      set (u := (di_ingredient_id r, (di_quantity r * inject_Z quantity)%Q))
        in *.
      destruct (Hst i (if String.eqb (fst u) i then q0 - snd u else q0)%Q)
        as (q' & Hq' & Heq).
      { erewrite stock_after_use by reflexivity. rewrite Hq. subst u.
        cbn [fst snd]. now destruct (String.eqb (di_ingredient_id r) i). }
      exists q'. split; [exact Hq'|]. rewrite Heq, amount_cons.
      destruct (String.eqb (fst u) i); ring.
    + intros i Hq. apply Hnull. erewrite stock_after_use by reflexivity.
      rewrite Hq. now destruct (String.eqb (di_ingredient_id r) i).
    + intros i Hi. cbn [map fst] in Hi.
      rewrite Hframe by (intros H; apply Hi; now right).
      apply lookup_alter_ne. intros E. apply Hi. now left.
Qed.

Lemma uses_return (quantity : Z) (order_id : string)
    (rs : list DishIngredient) (t : Tables) :
  Forall (fun r => di_ingredient_id r ∈ dom (ingredients t)) rs ->
  exists t', for_each (use_ingredient quantity order_id) rs t = Return t'.
Proof.
  revert t. induction rs as [|r rs IH]; intros t Hall.
  - now exists t.
  - inversion Hall as [|? ? Hin Hrest]; subst. cbn [for_each].
    rewrite (use_ingredient_return _ _ _ _ Hin). cbn [mbind result_bind].
    apply IH. cbn [ingredients]. now rewrite dom_alter_L.
Qed.

Lemma after_uses_trans (order_id : string) (us1 us2 : list (string * Q))
    (t t1 t2 : Tables) :
  after_uses order_id us1 t t1 -> after_uses order_id us2 t1 t2 ->
  after_uses order_id (us1 ++ us2) t t2.
Proof.
  intros (Hd & Hdi & Ho & Hdom & Htx & Hst & Hnull & Hframe)
         (Hd' & Hdi' & Ho' & Hdom' & Htx' & Hst' & Hnull' & Hframe').
  unfold after_uses. split; [congruence|]. split; [congruence|].
  split; [congruence|]. split; [congruence|]. split; [|split; [|split]].
  - rewrite Htx', Htx, map_app. now rewrite <- app_assoc.
  - intros i q0 Hq. destruct (Hst i q0 Hq) as (q1 & Hq1 & E1).
    destruct (Hst' i q1 Hq1) as (q2 & Hq2 & E2).
    exists q2. split; [exact Hq2|]. rewrite E2, E1, amount_app. ring.
  - intros i Hq. apply Hnull'. now apply Hnull.
  - intros i Hi. rewrite map_app, in_app_iff in Hi.
    rewrite Hframe' by tauto. apply Hframe. tauto.
Qed.

Lemma add_item_effect (order_id : string) (item : OrderItem) (t t' : Tables) :
  add_item order_id t item = Return t' ->
  Sqlite.fits64 (item_quantity item) = true
  /\ item_dish_id item ∈ dishes t
  /\ order_items t' = order_items t ++ [item_row order_id item]
  /\ Forall (fun u => fst u ∈ dom (ingredients t)) (usages t [item])
  /\ after_uses order_id (usages t [item]) t t'.
Proof.
  unfold add_item, insert_order_item.
  cbn [oi_order_id oi_dish_id oi_quantity].
  destruct (Sqlite.fits64 (item_quantity item)) eqn:Hfits; cbn [negb];
    [|discriminate].
  destruct (bool_decide (order_id ∈ dom (orders t))); cbn [andb];
    [|discriminate].
  destruct (bool_decide (item_dish_id item ∈ dishes t)) eqn:Hdish;
    [|discriminate].
  apply bool_decide_eq_true in Hdish. cbn [mbind result_bind].
  unfold _update_inventory_for_dish. cbn [dish_ingredients].
  intros Hrun. apply uses_effect in Hrun.
  cbn [dishes dish_ingredients orders order_items ingredients
       inventory_transactions] in Hrun.
  destruct Hrun
    as (Hd & Hdi & Ho & Hoi & Hdom & Hall & Htx & Hst & Hnull & Hframe).
  unfold usages. cbn [flat_map]. rewrite app_nil_r. unfold recipe.
  split; [reflexivity|].
  split; [exact Hdish|]. split; [exact Hoi|]. split; [exact Hall|].
  unfold after_uses. repeat split; assumption.
Qed.

Lemma add_item_return (order_id : string) (item : OrderItem) (t : Tables) :
  order_id ∈ dom (orders t) ->
  Sqlite.fits64 (item_quantity item) = true ->
  item_dish_id item ∈ dishes t ->
  Forall (fun u => fst u ∈ dom (ingredients t)) (usages t [item]) ->
  exists t', add_item order_id t item = Return t'.
Proof.
  intros Ho Hfits Hd Hall. unfold add_item, insert_order_item.
  cbn [oi_order_id oi_dish_id oi_quantity]. rewrite Hfits. cbn [negb].
  rewrite !bool_decide_eq_true_2 by assumption.
  cbn [andb mbind result_bind]. unfold _update_inventory_for_dish.
  apply uses_return. cbn [dish_ingredients ingredients].
  unfold usages in Hall. cbn [flat_map] in Hall. rewrite app_nil_r in Hall.
  unfold recipe in Hall. rewrite Forall_map in Hall. exact Hall.
Qed.

Lemma usages_cons (t : Tables) (item : OrderItem) (its : list OrderItem) :
  usages t (item :: its) = usages t [item] ++ usages t its.
Proof. unfold usages. cbn [flat_map]. now rewrite app_nil_r. Qed.

Lemma items_effect (order_id : string) (its : list OrderItem)
    (t t' : Tables) :
  for_each (add_item order_id) its t = Return t' ->
  orderable t its
  /\ order_items t' = order_items t ++ map (item_row order_id) its
  /\ after_uses order_id (usages t its) t t'.
Proof.
  revert t. induction its as [|item its IH]; intros t Hrun.
  - cbn in Hrun. inversion Hrun; subst t'. cbn [map].
    unfold orderable, after_uses, usages. cbn [flat_map map].
    rewrite !app_nil_r. repeat split; try constructor.
    + intros i q0 Hq. exists q0. split; [exact Hq|].
      unfold amount, sumQ. cbn [map List.filter fold_right]. ring.
    + tauto.
  - cbn [for_each] in Hrun.
    destruct (add_item order_id t item) as [t1|e] eqn:Hstep; [|discriminate].
    cbn [mbind result_bind] in Hrun.
    apply add_item_effect in Hstep.
    destruct Hstep as (Hfits & Hdish & Hoi & Hall & Hafter).
    apply IH in Hrun. destruct Hrun as ((Hqs & Hds & Hus) & Hoi' & Hafter').
    pose proof Hafter as (Hd & Hdi & _ & Hdom & _).
    rewrite (usages_frame t t1 its Hdi) in Hus, Hafter'.
    rewrite Hd in Hds. rewrite Hdom in Hus.
    split; [split; [|split]|split].
    + constructor; assumption.
    + constructor; assumption.
    + rewrite usages_cons. apply Forall_app. now split.
    + rewrite Hoi', Hoi. cbn [map]. now rewrite <- app_assoc.
    + rewrite usages_cons. eapply after_uses_trans; eassumption.
Qed.

Lemma items_return (order_id : string) (its : list OrderItem) (t : Tables) :
  order_id ∈ dom (orders t) -> orderable t its ->
  exists t', for_each (add_item order_id) its t = Return t'.
Proof.
  revert t. induction its as [|item its IH]; intros t Ho (Hqs & Hds & Hus).
  - now exists t.
  - inversion Hds as [|? ? Hdish Hds']; subst.
    inversion Hqs as [|? ? Hfits Hqs']; subst.
    rewrite usages_cons in Hus. apply Forall_app in Hus.
    destruct Hus as [Hus1 Hus2].
    destruct (add_item_return order_id item t Ho Hfits Hdish Hus1)
      as (t1 & Hstep).
    cbn [for_each]. rewrite Hstep. cbn [mbind result_bind].
    apply add_item_effect in Hstep.
    destruct Hstep as (_ & _ & _ & _ & (Hd & Hdi & Hor & Hdom & _)).
    apply IH.
    + now rewrite Hor.
    + split; [exact Hqs'|]. split.
      * now rewrite Hd.
      * rewrite (usages_frame t t1 its Hdi), Hdom. exact Hus2.
Qed.

(** X23. [create_order] goes through exactly when the id is new, the
    quantities of the items fit the 64 bits of INTEGER, the dishes of the
    items exist and so do the ingredients of their recipes; then it answers
    the id. The stock is not looked at: no quantity of an ingredient,
    however small, makes an order fail. When [create_order] raises, the
    tables are as they were before the call. *)
Theorem order_accepted (order_id : string) (order_data : OrderData)
    (t : Tables) :
  (((order_id ∉ dom (orders t)) /\ orderable t (items order_data)) <->
   (exists t', create_order order_id order_data t = (Return order_id, t')))
  /\ (forall e t', create_order order_id order_data t = (Raise e, t') ->
                   t' = t)
  /\ (forall a t', create_order order_id order_data t = (Return a, t') ->
                   a = order_id).
Proof.
  unfold create_order, insert_order. split; [split|split].
  - intros (Hnew & Hok). rewrite bool_decide_eq_false_2 by exact Hnew.
    cbn [mbind result_bind].
    match goal with
    | |- context [for_each _ _ ?t1] =>
        destruct (items_return order_id (items order_data) t1) as (t' & Hrun)
    end.
    + cbn [orders]. rewrite dom_insert_L. set_solver.
    + exact Hok.
    + exists t'. now rewrite Hrun.
  - intros (t' & Hrun).
    destruct (bool_decide (order_id ∈ dom (orders t))) eqn:Hnew;
      [discriminate|].
    apply bool_decide_eq_false in Hnew. split; [exact Hnew|].
    cbn [mbind result_bind] in Hrun.
    match type of Hrun with
    | context [for_each ?f ?l ?t1] =>
        destruct (for_each f l t1) as [t''|e] eqn:Hloop; [|discriminate]
    end.
    apply items_effect in Hloop. destruct Hloop as ((Hds & Hus) & _).
    split; [exact Hds|]. exact Hus.
  - intros e t'.
    destruct (bool_decide (order_id ∈ dom (orders t)));
      cbn [mbind result_bind].
    + now inversion 1.
    + match goal with
      | |- context [for_each ?f ?l ?t1] => destruct (for_each f l t1)
      end; now inversion 1.
  - intros a t'.
    destruct (bool_decide (order_id ∈ dom (orders t)));
      cbn [mbind result_bind].
    + discriminate.
    + match goal with
      | |- context [for_each ?f ?l ?t1] => destruct (for_each f l t1)
      end; now inversion 1.
Qed.

(** X24. An order that goes through adds to [orders] one row, under its
    id and with the status 'completed', to [order_items] one row for every
    item, in their order, and to [inventory_transactions] one 'usage' row
    for every ingredient row of the recipe of every item, which holds the
    quantity of the recipe times the quantity of the item, negated, and
    refers to the order. The dishes and the recipes stay as they are. *)
Theorem order_recorded (order_id : string) (order_data : OrderData)
    (t t' : Tables) :
  create_order order_id order_data t = (Return order_id, t') ->
  (exists row, orders t' = <[order_id := row]> (orders t)
               /\ order_status row = "completed"
               /\ total row = od_total order_data)
  /\ order_items t'
     = order_items t ++ map (item_row order_id) (items order_data)
  /\ inventory_transactions t'
     = inventory_transactions t
       ++ map (usage_row order_id) (usages t (items order_data))
  /\ dishes t' = dishes t
  /\ dish_ingredients t' = dish_ingredients t.
Proof.
  unfold create_order, insert_order.
  destruct (bool_decide (order_id ∈ dom (orders t))); [discriminate|].
  cbn [mbind result_bind].
  match goal with
  | |- context [for_each ?f ?l ?t1] =>
      destruct (for_each f l t1) as [t''|e] eqn:Hloop; [|discriminate]
  end.
  intros H. inversion H; subst t''. clear H.
  apply items_effect in Hloop.
  destruct Hloop as (_ & Hoi & (Hd & Hdi & Ho & _ & Htx & _)).
  cbn [dishes dish_ingredients orders order_items inventory_transactions]
    in *.
  split; [|repeat split; assumption].
  eexists. split; [exact Ho|]. split; reflexivity.
Qed.

Lemma amount_nonneg (us : list (string * Q)) (i : string) :
  Forall (fun u => (0 <= snd u)%Q) us -> (0 <= amount us i)%Q.
Proof.
  intros Hall. induction Hall as [|u us Hu _ IH].
  - unfold amount, sumQ. cbn. discriminate.
  - rewrite amount_cons. destruct (String.eqb (fst u) i).
    + replace 0%Q with (0 + 0)%Q by reflexivity. now apply Qplus_le_compat.
    + now rewrite Qplus_0_l.
Qed.

Lemma logged_count (order_id : string) (us : list (string * Q)) (i : string) :
  length (List.filter (fun tx => String.eqb (tx_ingredient_id tx) i)
            (map (usage_row order_id) us))
  = length (List.filter (fun u => String.eqb (fst u) i) us).
Proof.
  induction us as [|u us IH]; [reflexivity|]. cbn [map List.filter].
  unfold usage_row at 1. cbn [tx_ingredient_id].
  destruct (String.eqb (fst u) i); cbn [length]; now rewrite IH.
Qed.

(** X25. After an order that goes through, an ingredient that no recipe
    row of the items names keeps its row as it is; an ingredient without a
    stock value stays without one, one with a stock value keeps one; the
    order logs exactly one row for every use of an ingredient; and where
    neither a recipe nor an item has a negative quantity, no stock is
    higher than before. Nothing keeps a stock from falling below zero. *)
Theorem stock_effect (order_id : string) (order_data : OrderData)
    (t t' : Tables) (i : string) :
  create_order order_id order_data t = (Return order_id, t') ->
  let us := usages t (items order_data) in
  (~ In i (map fst us) -> ingredients t' !! i = ingredients t !! i)
  /\ (stock t i = None -> stock t' i = None)
  /\ (forall q0, stock t i = Some q0 ->
        exists q', stock t' i = Some q'
                   /\ (Forall (fun u => (0 <= snd u)%Q) us -> (q' <= q0)%Q))
  /\ length (List.filter (fun tx => String.eqb (tx_ingredient_id tx) i)
               (drop (length (inventory_transactions t))
                  (inventory_transactions t')))
     = length (List.filter (fun u => String.eqb (fst u) i) us).
Proof.
  unfold create_order, insert_order.
  destruct (bool_decide (order_id ∈ dom (orders t))); [discriminate|].
  cbn [mbind result_bind].
  match goal with
  | |- context [for_each ?f ?l ?t1] =>
      destruct (for_each f l t1) as [t''|e] eqn:Hloop; [|discriminate]
  end.
  intros H. inversion H; subst t''. clear H.
  apply items_effect in Hloop.
  destruct Hloop as (_ & _ & (_ & _ & _ & _ & Htx & Hst & Hnull & Hframe)).
  cbn [inventory_transactions ingredients] in Htx, Hframe.
  match type of Hst with
  | forall i q0, stock ?t1 i = _ -> _ =>
      assert (Hsame : forall j, stock t1 j = stock t j) by reflexivity;
      assert (Hus : usages t1 (items order_data)
                    = usages t (items order_data)) by reflexivity
  end.
  rewrite Hus in *. cbv zeta. split; [|split; [|split]].
  - intros Hi. now apply Hframe.
  - intros Hq. apply Hnull. now rewrite Hsame.
  - intros q0 Hq. rewrite <- Hsame in Hq.
    destruct (Hst i q0 Hq) as (q' & Hq' & E).
    exists q'. split; [exact Hq'|]. intros Hpos. rewrite E.
    pose proof (amount_nonneg _ i Hpos) as Ha.
    apply Qle_minus_iff. ring_simplify. exact Ha.
  - rewrite Htx, drop_app_length. apply logged_count.
Qed.

End InventoryFacts.


(** ** Manual stock updates and the endpoints *)

Section EndpointFacts.

Import SyncService.

(** X26. [update_ingredient_quantity] on an ingredient that exists sets
    its stock to the quantity given, leaves the other ingredients alone and
    logs one 'adjustment' row whose quantity_change is that new quantity:
    it is the change of the stock only where the stock was 0. On an
    ingredient that does not exist the insert of the log row fails on its
    foreign key, the update raises and the tables stay as they were. *)
Theorem adjustment_logged (ingredient_id : string) (quantity : Q)
    (t : Inventory.Tables) :
  (ingredient_id ∈ dom (Inventory.ingredients t) ->
   exists t' tx,
     Inventory.update_ingredient_quantity ingredient_id quantity t = (None, t')
     /\ Inventory.stock t' ingredient_id = Some quantity
     /\ (forall j, j <> ingredient_id ->
           Inventory.ingredients t' !! j = Inventory.ingredients t !! j)
     /\ Inventory.inventory_transactions t'
        = Inventory.inventory_transactions t ++ [tx]
     /\ Inventory.tx_ingredient_id tx = ingredient_id
     /\ Inventory.transaction_type tx = "adjustment"
     /\ Inventory.quantity_change tx = quantity
     /\ (forall q0, Inventory.stock t ingredient_id = Some q0 ->
           (quantity - q0 == Inventory.quantity_change tx <-> q0 == 0)))
  /\ (ingredient_id ∉ dom (Inventory.ingredients t) ->
      Inventory.update_ingredient_quantity ingredient_id quantity t
      = (Some (Exception "FOREIGN KEY constraint failed"), t)).
Proof.
  unfold Inventory.update_ingredient_quantity, Inventory.insert_transaction,
    Inventory.set_ingredients.
  cbn [Inventory.ingredients Inventory.tx_ingredient_id].
  rewrite dom_alter_L. split; intros Hin.
  - rewrite bool_decide_eq_true_2 by exact Hin.
    eexists. eexists. split; [reflexivity|].
    apply elem_of_dom in Hin. destruct Hin as (row & Hrow).
    split; [|split; [|split; [|split; [|split; [|split]]]]];
      try reflexivity.
    + unfold Inventory.stock. cbn [Inventory.ingredients].
      rewrite lookup_alter_eq, Hrow. reflexivity.
    + intros j Hj. cbn [Inventory.ingredients].
      now rewrite lookup_alter_ne.
    + intros q0 _. cbn [Inventory.quantity_change]. split; intros H.
      * assert (E : q0 == quantity - (quantity - q0)) by ring.
        rewrite E, H. ring.
      * rewrite H. ring.
  - now rewrite bool_decide_eq_false_2.
Qed.

Section Replies.

Variable http_str : Z -> string -> string.

(** X27. The daily-sales endpoint answers the entry of the date when the
    query has rows, a date of which the entry carries. When the query has
    no row, the 404 it raises is caught by its own [except Exception] and
    goes out as a 500: no reply of this endpoint has the status 404. *)
Theorem daily_sales_reply (results : list Analytics.SalesRow) :
  (results <> [] ->
   exists day, Endpoints.get_daily_sales http_str results
               = Endpoints.ApiResponse day
               /\ In (Analytics.date day) (map Analytics.sr_date results))
  /\ (results = [] ->
      Endpoints.get_daily_sales http_str results
      = Endpoints.HTTPException 500
          (http_str 404 "No sales data found for this date"))
  /\ (forall status_code detail,
        Endpoints.get_daily_sales http_str results
        = Endpoints.HTTPException status_code detail ->
        status_code = 500).
Proof.
  unfold Endpoints.get_daily_sales.
  destruct (daily_sales_cases results) as (Hnone & Hsome).
  split; [|split].
  - intros Hne.
    destruct (Analytics.get_daily_sales results) as [day|] eqn:E.
    + exists day. split; [reflexivity|]. now apply Hsome.
    + exfalso. apply Hne. now apply Hnone.
  - intros ->. reflexivity.
  - intros status_code detail.
    destruct (Analytics.get_daily_sales results); cbn; now inversion 1.
Qed.

(** X28. The quantity endpoint, for an ingredient that exists and has a
    threshold, answers its row with the new quantity and the other columns
    as before. For an ingredient that exists and has NULL as its threshold
    the update is committed, but the row does not fit the response model
    and the client gets a 500. For an ingredient that does not exist the
    update has raised already: the reply is a 500 with the message of the
    foreign key and the tables are as before. The 404 of the endpoint is
    never the reply. *)
Theorem update_quantity_reply (ingredient_id : string) (quantity : Q)
    (t : Inventory.Tables) :
  (forall row,
     Inventory.ingredients t !! ingredient_id = Some row ->
     is_Some (Inventory.min_threshold row) ->
     exists t',
       Endpoints.update_ingredient_quantity http_str ingredient_id quantity t
       = (Endpoints.Sent
            (Endpoints.ApiResponse
               (Inventory.set_quantity (fun _ => Some quantity) row)), t')
       /\ Inventory.stock t' ingredient_id = Some quantity)
  /\ (forall row,
        Inventory.ingredients t !! ingredient_id = Some row ->
        Inventory.min_threshold row = None ->
        exists t',
          Endpoints.update_ingredient_quantity http_str ingredient_id
            quantity t
          = (Endpoints.ResponseValidationError, t')
          /\ Inventory.stock t' ingredient_id = Some quantity)
  /\ (Inventory.ingredients t !! ingredient_id = None ->
      Endpoints.update_ingredient_quantity http_str ingredient_id quantity t
      = (Endpoints.Sent
           (Endpoints.HTTPException 500 "FOREIGN KEY constraint failed"), t))
  /\ (forall status_code detail t',
        Endpoints.update_ingredient_quantity http_str ingredient_id quantity t
        = (Endpoints.Sent (Endpoints.HTTPException status_code detail), t') ->
        status_code = 500 /\ t' = t).
Proof.
  unfold Endpoints.update_ingredient_quantity,
    Inventory.update_ingredient_quantity, Inventory.insert_transaction,
    Inventory.set_ingredients, Inventory.get_ingredient_by_id.
  cbn [Inventory.ingredients Inventory.tx_ingredient_id].
  rewrite dom_alter_L.
  destruct (Inventory.ingredients t !! ingredient_id) as [row|] eqn:Hrow.
  - assert (Hin : ingredient_id ∈ dom (Inventory.ingredients t)).
    { apply elem_of_dom. now exists row. }
    rewrite bool_decide_eq_true_2 by exact Hin.
    cbn [Inventory.ingredients]. rewrite lookup_alter_eq, Hrow.
    cbn [fmap option_fmap option_map Endpoints.except_exception
         Endpoints.response_model].
    unfold Endpoints.IngredientResponse.
    cbn [Inventory.set_quantity Inventory.quantity_today
         Inventory.min_threshold].
    rewrite (bool_decide_eq_true_2 (is_Some (Some quantity)))
      by (now exists quantity).
    cbn [andb].
    assert (Hstock : forall tx : list Inventory.Transaction,
              Inventory.stock
                {| Inventory.dishes := Inventory.dishes t;
                   Inventory.ingredients :=
                     alter (Inventory.set_quantity (fun _ => Some quantity))
                       ingredient_id (Inventory.ingredients t);
                   Inventory.dish_ingredients := Inventory.dish_ingredients t;
                   Inventory.orders := Inventory.orders t;
                   Inventory.order_items := Inventory.order_items t;
                   Inventory.inventory_transactions := tx |} ingredient_id
              = Some quantity).
    { intros tx. unfold Inventory.stock. cbn [Inventory.ingredients].
      rewrite lookup_alter_eq, Hrow. reflexivity. }
    split; [|split; [|split]].
    + intros row' E Hsome. inversion E; subst row'.
      rewrite bool_decide_eq_true_2 by exact Hsome.
      eexists. split; [reflexivity|]. apply Hstock.
    + intros row' E Hnone. inversion E; subst row'.
      rewrite bool_decide_eq_false_2
        by (rewrite Hnone; intros [x Hx]; discriminate).
      eexists. split; [reflexivity|]. apply Hstock.
    + discriminate.
    + intros status_code detail t'.
      destruct (bool_decide (is_Some (Inventory.min_threshold row)));
        intros H; inversion H.
  - assert (Hno : ingredient_id ∉ dom (Inventory.ingredients t)).
    { now apply not_elem_of_dom. }
    rewrite bool_decide_eq_false_2 by exact Hno.
    cbn [Endpoints.except_exception Endpoints.response_model].
    split; [|split; [|split]].
    + discriminate.
    + discriminate.
    + reflexivity.
    + intros ? ? ? H. now inversion H.
Qed.

End Replies.

End EndpointFacts.


(** ** The further statements on the sample data *)

Section MoreInstances.

Import PredictionEngine Vocabulary Batch Samples MoreSamples.

(** X1 on the cycle [smooth]: three days of three forecasts. *)
Lemma sync_predictions_sum_witness :
  SyncService._sync_predictions smooth = SyncService.Return 9.
Proof.
  exact (proj2 (sync_predictions_sum smooth) eq_refl).
Defined.

(** X2 on the cycle [locked], whose retention step raises. *)
Lemma cycle_failure_sources_witness :
  SyncService.failure locked = Some "database is locked".
Proof.
  apply (proj2 (cycle_failure_sources locked "database is locked")).
  right. split; [now exists true|]. split; reflexivity.
Defined.



(** X5 on thirty minutes. *)
Lemma set_sync_interval_status_witness :
  exists s',
    SyncControl.set_sync_interval 30 (SyncService.self running)
    = SyncService.Return s'
    /\ SyncService.sync_interval_minutes (SyncService.get_status s') = 30.
Proof.
  destruct (proj1 (set_sync_interval_status 30 (SyncService.self running)))
    as (s' & Hset & Hminutes & _); [lia|].
  exists s'. split; [exact Hset|exact Hminutes].
Defined.


(** X9 on the fallback forecast of the four mornings. *)
Lemma forecast_fields_witness :
  In (p_dish_id fallback_morning, p_dish_name fallback_morning)
    (unique_dishes four_mornings)
  /\ In (p_period fallback_morning) ["morning"; "afternoon"; "evening"]
  /\ prediction_date fallback_morning = target.
Proof.
  apply (@forecast_fields libs four_mornings target fallback_morning).
  left. reflexivity.
Defined.



(** X12 on five idle mornings and the model of [libs]. *)
Lemma zero_series_confidence_witness :
  exists p,
    @_predict_dish_demand libs idle_mornings "d1" "Soup" "morning" target
    = Some p
    /\ confidence p = Fin 50.0.
Proof.
  destruct (@zero_series_confidence libs idle_mornings "d1" "Soup" "morning"
              target
              [(Monday, 6, 0); (Tuesday, 6, 0); (Wednesday, 6, 0);
               (Thursday, 6, 0); (Friday, 6, 0)]
              (Saturday, 6) fit_5_8)
    as (p & Hp & Hconf).
  - vm_compute. lia.
  - repeat constructor.
  - reflexivity.
  - reflexivity.
  - reflexivity.
  - exists p. split; [exact Hp|exact Hconf].
Defined.

(** X13 on the widths 1 and 2 around a mean of 4. *)
Lemma confidence_antitone_witness :
  exists c1 c2,
    np_round1 (raw_confidence 1 (Fin 4)) = Fin c1
    /\ np_round1 (raw_confidence 2 (Fin 4)) = Fin c2
    /\ (c2 <= c1)%Q.
Proof.
  apply (confidence_antitone 1 2 4); [reflexivity|discriminate].
Defined.

(** X14 on a Monday in June. *)
Lemma weekday_factor_witness :
  exists day rest,
    nth_error dow_names 0 = Some day
    /\ @_analyze_prediction_factors libs (Monday, 6) "morning" [] 5
       = ("Weekday pattern (" +:+ day +:+ ")") :: rest.
Proof.
  apply (proj1 (@weekday_factor libs (Monday, 6) "morning" [] 5)).
  vm_compute. lia.
Defined.


(** X20 on the Tuesday. *)
Lemma sales_day_witness :
  Analytics.orders (Analytics.total tuesday) = 5
  /\ Analytics.pd_revenue (Analytics.total tuesday) = 65%Q
  /\ Analytics.evening tuesday = Analytics.nothing.
Proof.
  destruct (sales_day tuesday_rows tuesday)
    as (_ & _ & Hevening & _); [left; reflexivity|].
  split; [reflexivity|]. split; [reflexivity|].
  rewrite Hevening. reflexivity.
Defined.

(** X22 on the Tuesday: the order at night is not in the total of 5. *)
Lemma sales_totals_witness :
  Analytics.orders (Analytics.total tuesday) = 5
  /\ sum (map Analytics.orders_count tuesday_rows) = 6.
Proof.
  split; [|reflexivity].
  rewrite (sales_totals tuesday_rows tuesday).
  - reflexivity.
  - repeat constructor; cbn; intros H;
      repeat (destruct H as [H|H]; [discriminate|]); exact H.
  - left. reflexivity.
Defined.

(** X23 on five soups with flour for two and a half: accepted. *)
Lemma order_accepted_witness :
  exists t',
    Inventory.create_order "o1" five_soups pantry
    = (SyncService.Return "o1", t').
Proof.
  apply (proj1 (proj1 (order_accepted "o1" five_soups pantry))).
  split.
  - cbn. rewrite dom_empty_L. apply not_elem_of_empty.
  - split; repeat constructor.
Defined.

(** X24 on the same order. *)
Lemma order_recorded_witness :
  Inventory.order_items after_order
  = [Inventory.mkOrderItemRow "o1" "d1" 5 2 None]
  /\ length (Inventory.inventory_transactions after_order) = 1%nat.
Proof.
  destruct (order_recorded "o1" five_soups pantry after_order)
    as (_ & Hitems & Htx & _); [vm_compute; reflexivity|].
  split; [exact Hitems|]. rewrite Htx. reflexivity.
Defined.

(** X26 on the flour set to 3 kg. *)
Lemma adjustment_logged_witness :
  exists t' tx,
    Inventory.update_ingredient_quantity "i1" 3 pantry = (None, t')
    /\ Inventory.stock t' "i1" = Some 3%Q
    /\ Inventory.quantity_change tx = 3%Q
    /\ ~ (3 - 1 == Inventory.quantity_change tx).
Proof.
  destruct (proj1 (adjustment_logged "i1" 3 pantry))
    as (t' & tx & Hrun & Hstock & _ & _ & _ & _ & Hchange & Hiff).
  - apply elem_of_dom. now exists flour.
  - exists t', tx. split; [exact Hrun|]. split; [exact Hstock|].
    split; [exact Hchange|].
    intros H. apply (Hiff 1%Q) in H; [discriminate|reflexivity].
Defined.

(** X27 on a date without completed orders: a 500. *)
Lemma daily_sales_reply_witness :
  Endpoints.get_daily_sales http_str []
  = Endpoints.HTTPException 500 "404: No sales data found for this date".
Proof.
  exact (proj1 (proj2 (daily_sales_reply http_str [])) eq_refl).
Defined.

End MoreInstances.


(** * The exact values of a forecast *)

(** ** Binary64 arithmetic: what stays finite *)

Section Float64Facts.

Import Float64.

Lemma digits2_size (p : positive) : digits2_pos p = Pos.size p.
Proof. induction p; simpl; congruence. Qed.

Lemma digits2_lt (p : positive) : Zpos p < 2 ^ Zpos (digits2_pos p).
Proof.
  rewrite digits2_size. pose proof (Pos.size_gt p) as H.
  rewrite <- Pos2Z.inj_pow. exact H.
Qed.

Lemma digits2_ge (p : positive) : 2 ^ (Zpos (digits2_pos p) - 1) <= Zpos p.
Proof.
  rewrite digits2_size. pose proof (Pos.size_le p) as H.
  assert (H' : 2 ^ Zpos (Pos.size p) <= 2 * Zpos p).
  { rewrite <- Pos2Z.inj_pow. exact H. }
  replace (Zpos (Pos.size p)) with (Z.succ (Zpos (Pos.size p) - 1)) in H' by lia.
  rewrite Z.pow_succ_r in H' by lia. lia.
Qed.

Lemma Zdigits2_le (m k : Z) : 0 <= m -> 0 <= k -> m < 2 ^ k -> Zdigits2 m <= k.
Proof.
  intros Hm Hk Hlt. destruct m as [|p|p]; simpl; [lia| |lia].
  pose proof (digits2_ge p) as Hge.
  destruct (Z_lt_le_dec k (Zpos (digits2_pos p))) as [Hgt|]; [|assumption].
  exfalso. assert (2 ^ k <= 2 ^ (Zpos (digits2_pos p) - 1))
    by (apply Z.pow_le_mono_r; lia). lia.
Qed.

Lemma Zdigits2_lt (m : Z) : 0 <= m -> m < 2 ^ Zdigits2 m.
Proof.
  intros Hm. destruct m as [|p|p]; simpl; [lia|apply digits2_lt|lia].
Qed.

Lemma Zdigits2_nonneg (m : Z) : 0 <= Zdigits2 m.
Proof. destruct m; simpl; lia. Qed.

Lemma shr_1_m (mrs : shr_record) :
  0 <= shr_m mrs -> shr_m (shr_1 mrs) = shr_m mrs / 2.
Proof.
  destruct mrs as [m r s]. simpl. intros Hm.
  destruct m as [|[p|p|]|p]; simpl; try lia; try reflexivity.
  - rewrite Pos2Z.inj_xI. apply Z.div_unique with 1; lia.
  - rewrite Pos2Z.inj_xO. apply Z.div_unique with 0; lia.
Qed.

Lemma pow2_xI (p : positive) : 2 ^ Zpos p~1 = 2 * 2 ^ Zpos p * 2 ^ Zpos p.
Proof.
  assert (E : Zpos p~1 = 1 + Zpos p + Zpos p) by lia.
  rewrite E, Z.pow_add_r, Z.pow_add_r by lia. reflexivity.
Qed.

Lemma pow2_xO (p : positive) : 2 ^ Zpos p~0 = 2 ^ Zpos p * 2 ^ Zpos p.
Proof.
  assert (E : Zpos p~0 = Zpos p + Zpos p) by lia.
  rewrite E, Z.pow_add_r by lia. reflexivity.
Qed.

(** Shifting [p] times to the right divides the mantissa by [2^p]. *)
Lemma iter_shr_1_m (p : positive) (mrs : shr_record) :
  0 <= shr_m mrs ->
  shr_m (SpecFloat.iter_pos shr_1 p mrs) = shr_m mrs / 2 ^ Zpos p.
Proof.
  revert mrs. induction p as [p IH|p IH|]; intros mrs Hm; simpl SpecFloat.iter_pos.
  - assert (Hp : 0 < 2 ^ Zpos p) by (apply Z.pow_pos_nonneg; lia).
    assert (H1 : 0 <= shr_m (shr_1 mrs)).
    { rewrite shr_1_m by exact Hm. apply Z.div_pos; lia. }
    assert (H2 : 0 <= shr_m (SpecFloat.iter_pos shr_1 p (shr_1 mrs))).
    { rewrite IH by exact H1. apply Z.div_pos; lia. }
    rewrite IH by exact H2. rewrite IH by exact H1. rewrite shr_1_m by exact Hm.
    rewrite pow2_xI. rewrite Z.div_div by lia. rewrite Z.div_div by lia.
    f_equal. lia.
  - assert (Hp : 0 < 2 ^ Zpos p) by (apply Z.pow_pos_nonneg; lia).
    assert (H2 : 0 <= shr_m (SpecFloat.iter_pos shr_1 p mrs)).
    { rewrite IH by exact Hm. apply Z.div_pos; lia. }
    rewrite IH by exact H2. rewrite IH by exact Hm.
    rewrite pow2_xO. rewrite Z.div_div by lia. reflexivity.
  - rewrite shr_1_m by exact Hm. reflexivity.
Qed.

Lemma shr_record_of_loc_m (m : Z) (l : location) :
  shr_m (shr_record_of_loc m l) = m.
Proof. destruct l as [|[| |]]; reflexivity. Qed.

(** What [shr_fexp] does to the mantissa and the exponent. *)
Lemma shr_fexp_spec (m e : Z) (l : location) :
  0 <= m ->
  let '(mrs, e') := shr_fexp prec emax m e l in
  e' = Z.max e (fexp prec emax (Zdigits2 m + e))
  /\ shr_m mrs = m / 2 ^ (e' - e).
Proof.
  intros Hm. unfold shr_fexp, shr.
  destruct (fexp prec emax (Zdigits2 m + e) - e) as [|p|p] eqn:E.
  - split; [lia|]. rewrite shr_record_of_loc_m.
    replace (e - e) with 0 by lia. now rewrite Z.div_1_r.
  - split; [lia|].
    rewrite iter_shr_1_m by (rewrite shr_record_of_loc_m; exact Hm).
    rewrite shr_record_of_loc_m. f_equal. f_equal. lia.
  - split; [lia|]. rewrite shr_record_of_loc_m.
    replace (e - e) with 0 by lia. now rewrite Z.div_1_r.
Qed.

Lemma round_nearest_even_bound (m : Z) (l : location) :
  0 <= m -> m <= round_nearest_even m l <= m + 1.
Proof.
  intros Hm. unfold round_nearest_even.
  destruct l as [|[| |]]; try lia. destruct (Z.even m); lia.
Qed.

Lemma div_pow2_lt (m d n : Z) :
  0 <= m -> 0 <= d -> 0 <= n -> m < 2 ^ d -> m / 2 ^ n < 2 ^ Z.max 0 (d - n).
Proof.
  intros Hm Hd Hn Hlt.
  destruct (Z_le_gt_dec n d) as [Hle|Hgt].
  - rewrite Z.max_r by lia.
    apply Z.div_lt_upper_bound; [apply Z.pow_pos_nonneg; lia|].
    rewrite <- Z.pow_add_r by lia. now replace (n + (d - n)) with d by lia.
  - rewrite Z.max_l by lia. simpl.
    assert (m / 2 ^ n = 0); [|lia].
    apply Z.div_small. split; [exact Hm|].
    eapply Z.lt_le_trans; [exact Hlt|]. apply Z.pow_le_mono_r; lia.
Qed.

(** Rounding a mantissa that is not too large gives a finite number, not
    much larger. *)
Lemma binary_round_aux_below (sx : bool) (mx ex : Z) (lx : location) (k : Z) :
  0 <= mx -> ex <= 971 -> Zdigits2 mx + ex <= k -> k <= 1023 ->
  below (Z.max k (-1074) + 1) (binary_round_aux prec emax sx mx ex lx) = true.
Proof.
  intros Hm He Hk Hk'. unfold binary_round_aux.
  pose proof (shr_fexp_spec mx ex lx Hm) as H1.
  destruct (shr_fexp prec emax mx ex lx) as [mrs' e'].
  destruct H1 as [He' Hm'].
  set (m1 := round_nearest_even (shr_m mrs') (loc_of_shr_record mrs')).
  assert (Hm'0 : 0 <= shr_m mrs').
  { rewrite Hm'. apply Z.div_pos; [exact Hm|]. apply Z.pow_pos_nonneg; lia. }
  pose proof (round_nearest_even_bound (shr_m mrs') (loc_of_shr_record mrs')
                Hm'0) as Hr.
  fold m1 in Hr.
  assert (Hm1 : 0 <= m1) by lia.
  pose proof (shr_fexp_spec m1 e' loc_Exact Hm1) as H2.
  destruct (shr_fexp prec emax m1 e' loc_Exact) as [mrs'' e''].
  destruct H2 as [He'' Hm''].
  pose proof (Zdigits2_lt mx Hm) as Hmx. pose proof (Zdigits2_nonneg mx) as Hd0.
  assert (Hfe : forall t, fexp prec emax t = Z.max (t - 53) (-1074)).
  { intros t. reflexivity. }
  rewrite Hfe in He', He''.
  assert (Hlt' : shr_m mrs' < 2 ^ Z.max 0 (Zdigits2 mx - (e' - ex))).
  { rewrite Hm'. apply div_pow2_lt; lia. }
  assert (Hd1 : Zdigits2 m1 <= Z.max 0 (Zdigits2 mx - (e' - ex)) + 1).
  { apply Zdigits2_le; [exact Hm1|lia|].
    rewrite Z.pow_add_r by lia. change (2 ^ 1) with 2.
    assert (0 < 2 ^ Z.max 0 (Zdigits2 mx - (e' - ex)))
      by (apply Z.pow_pos_nonneg; lia).
    lia. }
  pose proof (Zdigits2_nonneg m1) as Hd1'.
  assert (Hm''0 : 0 <= shr_m mrs'').
  { rewrite Hm''. apply Z.div_pos; [exact Hm1|]. apply Z.pow_pos_nonneg; lia. }
  destruct (shr_m mrs'') as [|m|m] eqn:Em; [reflexivity| |lia].
  assert (Hle : e'' <= 971) by lia.
  apply Z.leb_le in Hle. change (emax - prec) with 971. rewrite Hle.
  cbn [below]. apply Z.leb_le.
  assert (Hlt'' : Zpos m < 2 ^ Z.max 0 (Zdigits2 m1 - (e'' - e'))).
  { rewrite Hm''. apply div_pow2_lt; try lia. now apply Zdigits2_lt. }
  assert (Hdm : Zdigits2 (Zpos m) <= Z.max 0 (Zdigits2 m1 - (e'' - e'))).
  { apply Zdigits2_le; lia. }
  simpl Zdigits2 in Hdm.
  assert (0 < Zdigits2 m1 - (e'' - e')).
  { destruct (Z_lt_le_dec 0 (Zdigits2 m1 - (e'' - e'))); [assumption|].
    rewrite Z.max_l in Hlt'' by lia. simpl in Hlt''. lia. }
  lia.
Qed.

Lemma digits2_mul (a b : positive) :
  Zpos (digits2_pos (a * b)) <= Zpos (digits2_pos a) + Zpos (digits2_pos b).
Proof.
  change (Zpos (digits2_pos (a * b))) with (Zdigits2 (Zpos (a * b))).
  apply Zdigits2_le; [lia|lia|].
  rewrite Z.pow_add_r by lia. rewrite Pos2Z.inj_mul.
  pose proof (digits2_lt a). pose proof (digits2_lt b). nia.
Qed.

Lemma below_mono (k k' : Z) (x : float) :
  below k x = true -> k <= k' -> below k' x = true.
Proof.
  destruct x; cbn [below]; try easy. intros H Hk.
  apply Z.leb_le in H. apply Z.leb_le. lia.
Qed.

(** A product of two numbers that are not too large is finite. *)
Lemma mul_below (x y : float) (kx ky : Z) :
  below kx x = true -> below ky y = true -> kx + ky <= 973 ->
  below (Z.max (kx + ky) (-1074) + 1) (mul x y) = true.
Proof.
  intros Hx Hy Hk.
  destruct x as [sx|sx| |sx mx ex]; try discriminate;
    destruct y as [sy|sy| |sy my ey]; try discriminate; try reflexivity.
  cbn [below] in Hx, Hy. apply Z.leb_le in Hx, Hy.
  unfold mul, SFmul. pose proof (digits2_mul mx my).
  apply binary_round_aux_below; cbn [Zdigits2]; lia.
Qed.

Lemma digits2_iter_xO (m d : positive) :
  Zpos (digits2_pos (Pos.iter xO m d)) = Zpos (digits2_pos m) + Zpos d.
Proof.
  induction d as [|d IH] using Pos.peano_ind.
  - simpl. lia.
  - rewrite Pos.iter_succ. cbn [digits2_pos]. lia.
Qed.

Lemma binary_round_below (sx : bool) (mx : positive) (ex k : Z) :
  ex <= 971 -> Zpos (digits2_pos mx) + ex <= k -> k <= 1023 ->
  below (Z.max k (-1074) + 1) (binary_round prec emax sx mx ex) = true.
Proof.
  intros He Hk Hk'. unfold binary_round, shl_align.
  destruct (fexp prec emax (Zpos (digits2_pos mx) + ex) - ex) as [|d|d] eqn:E.
  - apply binary_round_aux_below; cbn [Zdigits2]; lia.
  - apply binary_round_aux_below; cbn [Zdigits2]; lia.
  - apply binary_round_aux_below; cbn [Zdigits2]; try lia.
    rewrite digits2_iter_xO. lia.
Qed.

(** The float of an integer below [2^k] is finite. *)
Lemma of_Z_below (n k : Z) :
  Z.abs n < 2 ^ k -> 0 <= k <= 1023 -> below (k + 1) (of_Z n) = true.
Proof.
  intros Hn Hk. unfold of_Z, binary_normalize.
  destruct n as [|p|p]; [reflexivity| |].
  - replace (k + 1) with (Z.max k (-1074) + 1) by lia.
    apply binary_round_below; try lia.
    assert (Zdigits2 (Zpos p) <= k) by (apply Zdigits2_le; lia).
    cbn [Zdigits2] in *. lia.
  - replace (k + 1) with (Z.max k (-1074) + 1) by lia.
    apply binary_round_below; try lia.
    assert (Zdigits2 (Zpos p) <= k) by (apply Zdigits2_le; lia).
    cbn [Zdigits2] in *. lia.
Qed.

(** A quotient by a finite number other than zero is finite, for a
    dividend that is not too large. *)
Lemma div_below (x : float) (sy : bool) (my : positive) (ey kx : Z) :
  below kx x = true -> kx - ey <= 972 ->
  below (Z.max (kx - ey) (-1074) + 1) (div x (S754_finite sy my ey)) = true.
Proof.
  intros Hx Hk.
  destruct x as [sx|sx| |sx mx ex]; try discriminate; [reflexivity|].
  cbn [below] in Hx. apply Z.leb_le in Hx.
  unfold div, SFdiv, SFdiv_core_binary.
  set (d1 := Zdigits2 (Zpos mx)). set (d2 := Zdigits2 (Zpos my)).
  set (e' := Z.min (fexp prec emax (d1 + ex - (d2 + ey))) (ex - ey)).
  set (s := ex - ey - e').
  set (m' := match s with
             | 0 => Zpos mx
             | Zpos _ => Z.shiftl (Zpos mx) s
             | Zneg _ => 0
             end).
  assert (Hs : 0 <= s) by (subst s e'; lia).
  assert (Hm' : m' = Zpos mx * 2 ^ s).
  { subst m'. destruct s as [|p|p] eqn:Es; [simpl; lia| |lia].
    now rewrite Z.shiftl_mul_pow2 by lia. }
  destruct (Z.div_eucl m' (Zpos my)) as [q r] eqn:Eq.
  assert (Hq : q = m' / Zpos my) by (unfold Z.div; now rewrite Eq).
  assert (Hd1 : d1 = Zpos (digits2_pos mx)) by reflexivity.
  assert (Hd2 : d2 = Zpos (digits2_pos my)) by reflexivity.
  pose proof (digits2_lt mx) as Hmx. pose proof (digits2_ge my) as Hmy.
  rewrite <- Hd1 in Hmx. rewrite <- Hd2 in Hmy.
  assert (Hq0 : 0 <= q) by (rewrite Hq; apply Z.div_pos; lia).
  assert (Hqlt : q < 2 ^ Z.max 0 (d1 + s - d2 + 1)).
  { rewrite Hq. apply Z.div_lt_upper_bound; [lia|].
    assert (Hp : 0 < 2 ^ (d2 - 1)) by (apply Z.pow_pos_nonneg; lia).
    assert (Hlt : m' < 2 ^ (d1 + s)).
    { rewrite Hm', Z.pow_add_r by lia.
      assert (0 < 2 ^ s) by (apply Z.pow_pos_nonneg; lia). nia. }
    assert (Hle : 2 ^ (d1 + s) <= 2 ^ (d2 - 1) * 2 ^ Z.max 0 (d1 + s - d2 + 1)).
    { rewrite <- Z.pow_add_r by lia. apply Z.pow_le_mono_r; lia. }
    assert (0 < 2 ^ Z.max 0 (d1 + s - d2 + 1))
      by (apply Z.pow_pos_nonneg; lia).
    nia. }
  assert (Hdq : Zdigits2 q <= Z.max 0 (d1 + s - d2 + 1)).
  { apply Zdigits2_le; lia. }
  apply binary_round_aux_below; subst s e'; lia.
Qed.

(** [int()] raises on nothing that is finite. *)
Lemma to_Z_below (k : Z) (x : float) :
  below k x = true -> exists n, to_Z x = Some n.
Proof. destruct x; try discriminate; intros _; eexists; reflexivity. Qed.

Lemma abs_sum (ys : list Z) : Z.abs (sum ys) <= sum (map Z.abs ys).
Proof.
  induction ys as [|a ys IH]; [reflexivity|].
  unfold sum in *. cbn [map fold_right]. lia.
Qed.

(** The mean of up to four quantities is finite. *)
Lemma mean_below (ys : list Z) :
  (0 < length ys < 5)%nat -> sums_exactly ys -> below 108 (mean ys) = true.
Proof.
  intros Hlen Hsum. unfold sums_exactly in Hsum.
  pose proof (abs_sum ys) as Habs.
  assert (Hs : below 55 (of_Z (sum ys)) = true).
  { apply (of_Z_below (sum ys) 54); [|lia].
    assert (2 ^ 53 < 2 ^ 54) by (apply Z.pow_lt_mono_r; lia). lia. }
  assert (Hdiv : forall sy my ey,
             -52 <= ey ->
             below 108 (div (of_Z (sum ys)) (S754_finite sy my ey)) = true).
  { intros sy my ey Hey.
    apply (below_mono (Z.max (55 - ey) (-1074) + 1)); [|lia].
    apply div_below; [exact Hs|lia]. }
  destruct ys as [|a [|b [|c [|d [|e l]]]]]; cbn [length] in Hlen; try lia;
    unfold mean; cbn [length].
  - change (of_Z (Z.of_nat 1)) with (S754_finite false 4503599627370496 (-52)).
    apply Hdiv. lia.
  - change (of_Z (Z.of_nat 2)) with (S754_finite false 4503599627370496 (-51)).
    apply Hdiv. lia.
  - change (of_Z (Z.of_nat 3)) with (S754_finite false 6755399441055744 (-51)).
    apply Hdiv. lia.
  - change (of_Z (Z.of_nat 4)) with (S754_finite false 4503599627370496 (-50)).
    apply Hdiv. lia.
Qed.

End Float64Facts.

(** ** The forecast of one series *)

Section Forecast64Facts.

Import Float64 PredictionEngine64.

Context `{Libs : Libraries}.

Variable model : list (Timestamp * Z) -> Timestamp -> option Forecast.

Lemma fallback_average_below (ys : list Z) :
  (length ys < 5)%nat -> sums_exactly ys ->
  below 108 (fallback_average ys) = true.
Proof.
  intros Hlen Hsum. destruct ys as [|a ys]; [reflexivity|].
  apply mean_below; [cbn [length] in *; lia|exact Hsum].
Qed.

Lemma fallback_average_rows (rows : list HistRow) :
  (if (0 <? length rows)%nat then mean (map y rows) else of_Z 5)
  = fallback_average (map y rows).
Proof. destruct rows; reflexivity. Qed.

(** The raw confidence is 50.0, 95.0, or the value if that lies strictly
    between the two. *)
Lemma raw_confidence_cases (width mu : float) :
  let v := sub (of_Z 100) (mul (div width mu) (of_Z 100)) in
  let c := raw_confidence width mu in
  c = of_Z 50 \/ c = of_Z 95
  \/ (c = v /\ ltb (of_Z 50) v = true /\ ltb v (of_Z 95) = true).
Proof.
  intros v c. subst c. unfold raw_confidence. fold v.
  unfold py_min. destruct (ltb v (of_Z 95)) eqn:H95.
  - unfold py_max. destruct (ltb (of_Z 50) v) eqn:H50.
    + right; right. now repeat split.
    + now left.
  - right; left. reflexivity.
Qed.

(** C1, in the form the code satisfies. With fewer than 5 observations of
    a dish and period the forecast is the fallback one, and it is always
    produced: predicted_demand is max(1, int(m)) for m the mean of the
    available quantities as a binary64 number, or 5 if there are none, int
    cutting off the fraction; confidence is 60.0; recommended_prep is
    max(2, int(m * 1.2)) with the product rounded to binary64; factors are
    "Limited historical data" and "Fallback average". For the quantities
    3, 4, 3, 5 this gives predicted_demand 3 and recommended_prep 4; for
    13, 11, 11 it gives 11 and 13 (the rounded product is just below
    14). *)
Theorem fallback_prediction (df : list HistRow) (dish name per target : string) :
  (length (PredictionEngine.select df dish per) < 5)%nat ->
  sums_exactly (map y (PredictionEngine.select df dish per)) ->
  let m := fallback_average (map y (PredictionEngine.select df dish per)) in
  exists demand prep : Z,
    to_Z m = Some demand
    /\ to_Z (mul m (decimal 12 10)) = Some prep
    /\ _predict_dish_demand model df dish name per target
       = Some {| p_dish_id := dish;
                 p_dish_name := name;
                 p_period := per;
                 predicted_demand := Z.max 1 demand;
                 confidence := of_Z 60;
                 recommended_prep := Z.max 2 prep;
                 factors := ["Limited historical data"; "Fallback average"];
                 prediction_date := target |}
    /\ (map y (PredictionEngine.select df dish per) = [3; 4; 3; 5] ->
        Z.max 1 demand = 3 /\ Z.max 2 prep = 4)
    /\ (map y (PredictionEngine.select df dish per) = [13; 11; 11] ->
        Z.max 1 demand = 11 /\ Z.max 2 prep = 13).
Proof.
  intros Hlen Hsum m.
  assert (Hm : below 108 m = true).
  { apply fallback_average_below; [now rewrite length_map|exact Hsum]. }
  assert (Hp : below 110 (mul m (decimal 12 10)) = true).
  { apply (mul_below m (decimal 12 10) 108 1 Hm); [reflexivity|lia]. }
  destruct (to_Z_below _ _ Hm) as (demand & Hdemand).
  destruct (to_Z_below _ _ Hp) as (prep & Hprep).
  exists demand, prep. split; [exact Hdemand|]. split; [exact Hprep|].
  split; [|split].
  - unfold _predict_dish_demand. apply Nat.ltb_lt in Hlen. rewrite Hlen.
    rewrite fallback_average_rows. fold m. now rewrite Hdemand, Hprep.
  - intros Hys. subst m. rewrite Hys in Hdemand, Hprep.
    vm_compute in Hdemand, Hprep. inversion Hdemand; inversion Hprep.
    split; reflexivity.
  - intros Hys. subst m. rewrite Hys in Hdemand, Hprep.
    vm_compute in Hdemand, Hprep. inversion Hdemand; inversion Hprep.
    split; reflexivity.
Qed.

(** C2, in the form the code satisfies. After a successful model fit with
    a finite point estimate the forecast is produced, with
    predicted_demand = int(max(1, point_estimate)), int cutting off the
    fraction; confidence = round(c, 1) for
    c = max(50.0, min(95.0, 100 - (upper_bound - max(0, lower_bound)) /
    mean_historical_quantity * 100)), every operation rounded to binary64,
    so that c is 50.0, 95.0 or the value itself where that lies strictly
    between them; and recommended_prep = max(2, int(max(1, point_estimate)
    * m)), where m is 1.2 if the unrounded c exceeds 80 and 1.3
    otherwise. *)
Theorem fitted_prediction (df : list HistRow) (dish name per target : string)
    (data : list (Timestamp * Z)) (t : Timestamp) (fc : Forecast) :
  (5 <= length (PredictionEngine.select df dish per))%nat ->
  sums_exactly (map y (PredictionEngine.select df dish per)) ->
  PredictionEngine.prepare (PredictionEngine.select df dish per) = Some data ->
  to_datetime target = Some t ->
  model data t = Some fc ->
  below 970 (yhat fc) = true ->
  let value := py_max (of_Z 1) (yhat fc) in
  let width := sub (yhat_upper fc) (py_max (of_Z 0) (yhat_lower fc)) in
  let mu := mean (map y (PredictionEngine.select df dish per)) in
  let v := sub (of_Z 100) (mul (div width mu) (of_Z 100)) in
  let c := py_max (of_Z 50) (py_min (of_Z 95) v) in
  let m := if ltb (of_Z 80) c then decimal 12 10 else decimal 13 10 in
  exists p demand prep,
    _predict_dish_demand model df dish name per target = Some p
    /\ to_Z value = Some demand
    /\ to_Z (mul value m) = Some prep
    /\ predicted_demand p = demand
    /\ confidence p = round1 c
    /\ recommended_prep p = Z.max 2 prep
    /\ (c = of_Z 50 \/ c = of_Z 95
        \/ (c = v /\ ltb (of_Z 50) v = true /\ ltb v (of_Z 95) = true)).
Proof.
  intros Hlen Hsum Hprep Ht Hfit Hyhat value width mu v c m.
  assert (Hvalue : below 970 value = true).
  { subst value. unfold py_max. destruct (ltb (of_Z 1) (yhat fc));
      [exact Hyhat|reflexivity]. }
  assert (Hm : below 1 m = true).
  { subst m. destruct (ltb (of_Z 80) c); reflexivity. }
  assert (Hprod : below 972 (mul value m) = true).
  { apply (mul_below value m 970 1 Hvalue Hm). lia. }
  destruct (to_Z_below _ _ Hvalue) as (demand & Hdemand).
  destruct (to_Z_below _ _ Hprod) as (prep & Hprepz).
  assert (Hmean : mean (map snd data) = mu).
  { subst mu. now rewrite (prepare_y _ _ Hprep). }
  eexists. exists demand, prep.
  split.
  - unfold _predict_dish_demand. apply Nat.leb_le in Hlen.
    rewrite Nat.ltb_antisym, Hlen. cbn [negb].
    rewrite Hprep, Ht, Hfit. cbv zeta. rewrite Hmean.
    unfold raw_confidence, safety_multiplier.
    fold value. fold width. fold v. fold c. fold m.
    rewrite Hprepz, Hdemand. reflexivity.
  - split; [exact Hdemand|]. split; [exact Hprepz|].
    cbn [predicted_demand confidence recommended_prep].
    split; [reflexivity|]. split; [reflexivity|]. split; [reflexivity|].
    apply (raw_confidence_cases width mu).
Qed.

End Forecast64Facts.


(** ** The exact values on the sample data *)

Section Instances64.

Import Float64 PredictionEngine64 Samples Samples64.

(** C1 on four mornings with the quantities 3, 4, 3, 5. *)
Lemma fallback_prediction_witness :
  (length (PredictionEngine.select four_mornings "d1" "morning") < 5)%nat
  /\ @_predict_dish_demand libs (steady fit_5_8) four_mornings
       "d1" "Soup" "morning" target
     = Some {| p_dish_id := "d1";
               p_dish_name := "Soup";
               p_period := "morning";
               predicted_demand := 3;
               confidence := of_Z 60;
               recommended_prep := 4;
               factors := ["Limited historical data"; "Fallback average"];
               prediction_date := target |}.
Proof.
  assert (H : (length (PredictionEngine.select four_mornings "d1" "morning")
               < 5)%nat) by (vm_compute; lia).
  split; [exact H|].
  destruct (@fallback_prediction libs (steady fit_5_8) four_mornings
              "d1" "Soup" "morning" target H)
    as (demand & prep & _ & _ & Hres & Hvalues & _).
  - vm_compute. discriminate.
  - destruct (Hvalues eq_refl) as [Hd Hp]. rewrite Hd, Hp in Hres.
    exact Hres.
Defined.

(** C1 as stated fails on the same series: the mean 3.75 is cut to 3, not
    rounded to 4, and 3.75 * 1.2 = 4.5 is cut to 4, where the statement
    has 5. *)
Lemma fallback_prediction_counterexample :
  map y (PredictionEngine.select four_mornings "d1" "morning") = [3; 4; 3; 5]
  /\ exists p,
       @_predict_dish_demand libs (steady fit_5_8) four_mornings
         "d1" "Soup" "morning" target
       = Some p
       /\ predicted_demand p = 3
       /\ recommended_prep p = 4
       /\ Z.max 1 (py_round (Vocabulary.fallback_average [3; 4; 3; 5])) = 4
       /\ Z.max 2 (py_round (inject_Z 4 * 1.2)) = 5
       /\ predicted_demand p
          <> Z.max 1 (py_round (Vocabulary.fallback_average [3; 4; 3; 5]))
       /\ recommended_prep p <> 5.
Proof.
  split; [reflexivity|].
  eexists. split; [vm_compute; reflexivity|].
  repeat split; vm_compute; congruence.
Qed.

(** C2 on five mornings of 7 and a model that answers 10 within
    [0, 1.4]: the confidence is 80.0 on the nose, which does not exceed 80,
    so the multiplier is 1.3 and the preparation 13. *)
Lemma fitted_prediction_witness :
  exists p,
    @_predict_dish_demand libs (steady fit_10) sevens
      "d1" "Soup" "morning" target
    = Some p
    /\ predicted_demand p = 10
    /\ confidence p = of_Z 80
    /\ recommended_prep p = 13.
Proof.
  destruct (@fitted_prediction libs (steady fit_10) sevens
              "d1" "Soup" "morning" target
              [(Monday, 6, 7); (Tuesday, 6, 7); (Wednesday, 6, 7);
               (Thursday, 6, 7); (Friday, 6, 7)]
              (Saturday, 6) fit_10)
    as (p & demand & prep & Hp & Hd & Hr & Hdemand & Hconf & Hprep & _).
  - vm_compute. lia.
  - vm_compute. discriminate.
  - reflexivity.
  - reflexivity.
  - reflexivity.
  - reflexivity.
  - exists p. split; [exact Hp|].
    vm_compute in Hd, Hr.
    assert (Ed : demand = 10) by congruence.
    assert (Er : prep = 13) by congruence.
    rewrite Ed in Hdemand. rewrite Er in Hprep.
    split; [exact Hdemand|]. split; [|exact Hprep].
    rewrite Hconf. vm_compute. reflexivity.
Defined.

(** C2 as stated fails on the five mornings with a model that answers 5.8
    within [5, 6.0625]: the estimate 5.8 is cut to 5, not rounded to 6; the
    confidence 73.4375 is rounded to 73.4; and the preparation is
    int(5.8 * 1.3) = 7, neither round(6 * 1.3) = 8 nor
    round(5 * 1.3) = 6. *)
Lemma fitted_prediction_counterexample :
  exists p,
    @_predict_dish_demand libs (steady fit_5_8) five_mornings
      "d1" "Soup" "morning" target
    = Some p
    /\ predicted_demand p = 5
    /\ Z.max 1 (py_round 5.8) = 6
    /\ confidence p = decimal 734 10
    /\ raw_confidence
         (sub (yhat_upper fit_5_8) (py_max (of_Z 0) (yhat_lower fit_5_8)))
         (mean [3; 4; 3; 5; 5])
       = decimal 734375 10000
    /\ confidence p <> decimal 734375 10000
    /\ recommended_prep p = 7
    /\ Z.max 2 (py_round (inject_Z 6 * 1.3)) = 8
    /\ Z.max 2 (py_round (inject_Z (predicted_demand p) * 1.3)) = 6.
Proof.
  eexists. split; [vm_compute; reflexivity|].
  repeat split; try (vm_compute; congruence).
Qed.

End Instances64.


(** * Two calls in succession *)

Section RegenerateFacts.

Import PredictionEngine Vocabulary Batch.

(** The libraries as they answer during the first and during the second
    call. *)
Variables L1 L2 : Libraries.


End RegenerateFacts.

Section RegenerateInstances.

Import PredictionEngine Vocabulary Batch Samples RegenerateSamples.



End RegenerateInstances.


(** * The predictions table with its checks *)

Section TableFacts.

Import PredictionEngine Vocabulary Batch SyncService.

Lemma storable_execute (dishes : gset string) (now : string) (db : Store)
    (p : Prediction) :
  PredictionsTable.storable dishes p = true ->
  PredictionsTable.execute dishes now db p
  = Return (insert_or_replace now db p).
Proof.
  unfold PredictionsTable.storable, PredictionsTable.execute. intros H.
  apply andb_true_iff in H. destruct H as [H Hdish].
  apply andb_true_iff in H. destruct H as [H Hnan].
  rewrite H. cbn [negb]. apply negb_true_iff in Hnan. now rewrite Hnan, Hdish.
Qed.

Lemma not_storable_execute (dishes : gset string) (now : string) (db : Store)
    (p : Prediction) :
  PredictionsTable.storable dishes p = false ->
  exists e, PredictionsTable.execute dishes now db p = Raise e.
Proof.
  unfold PredictionsTable.storable, PredictionsTable.execute. intros H.
  destruct (Sqlite.fits64 (predicted_demand p)
            && Sqlite.fits64 (recommended_prep p)); cbn [negb andb] in *;
    [|eexists; reflexivity].
  destruct (PredictionsTable.is_nan (confidence p)); cbn [negb andb] in *;
    [eexists; reflexivity|].
  rewrite H. eexists; reflexivity.
Qed.

Lemma storable_save (dishes : gset string) (now : string)
    (preds : list Prediction) (db : Store) :
  forallb (PredictionsTable.storable dishes) preds = true ->
  Inventory.for_each (PredictionsTable.execute dishes now) preds db
  = Return (save_predictions now preds db).
Proof.
  revert db. induction preds as [|p preds IH]; intros db H; [reflexivity|].
  cbn [forallb] in H. apply andb_true_iff in H. destruct H as [Hp H].
  cbn [Inventory.for_each]. rewrite (storable_execute _ _ _ _ Hp).
  cbn [mbind result_bind]. now rewrite IH.
Qed.

Lemma not_storable_save (dishes : gset string) (now : string)
    (preds : list Prediction) (db : Store) :
  forallb (PredictionsTable.storable dishes) preds = false ->
  exists e,
    Inventory.for_each (PredictionsTable.execute dishes now) preds db = Raise e.
Proof.
  revert db. induction preds as [|p preds IH]; intros db H; [discriminate|].
  cbn [forallb] in H. cbn [Inventory.for_each].
  destruct (PredictionsTable.storable dishes p) eqn:Hp.
  - rewrite (storable_execute _ _ _ _ Hp). cbn [mbind result_bind].
    apply IH. exact H.
  - destruct (not_storable_execute dishes now db p Hp) as (e & ->).
    now exists e.
Qed.

(** X16. [save_predictions] on predictions every check lets through
    (integers that fit INTEGER, a confidence that is a number, a dish that
    exists), with prediction dates in the form year-month-day: it commits,
    and leaves under a key, if no prediction of the list has the key, the
    row that was there, untouched; otherwise a row with the columns of the
    last prediction of the list that has the key, with the current time as
    created_at and an id the sequence had not given out before. If one
    prediction of the list fails a check, the call raises and the table is
    as it was before: one failing insert rolls back all of them. *)
Theorem save_predictions_lookup (dishes : gset string) (now : string)
    (preds : list Prediction) (db : Store) (k : string * string * string) :
  (forallb (PredictionsTable.storable dishes) preds = true ->
   Forall (fun p => Sqlite.iso_date (prediction_date p) = true) preds ->
   exists db',
     PredictionsTable.save_predictions dishes now preds db = (None, db')
     /\ ((forall p, In p preds -> key_of p <> k) ->
         predictions db' !! k = predictions db !! k)
     /\ (forall p, last_for k preds = Some p ->
           exists row,
             predictions db' !! k = Some row
             /\ written_columns row = columns_of p
             /\ row_created_at row = now
             /\ predictions_seq db < row_id row
                <= predictions_seq db + Z.of_nat (length preds))
     /\ ((exists p, In p preds /\ key_of p = k) ->
         is_Some (predictions db' !! k)))
  /\ (forallb (PredictionsTable.storable dishes) preds = false ->
      exists e,
        PredictionsTable.save_predictions dishes now preds db = (Some e, db)).
Proof.
  unfold PredictionsTable.save_predictions. split.
  - intros Hok _. rewrite (storable_save _ _ _ _ Hok).
    exists (save_predictions now preds db). split; [reflexivity|].
    pose proof (save_lookup now preds db k) as H.
    split; [|split].
    + intros Hnone. apply last_for_none in Hnone. now rewrite Hnone in H.
    + intros p Hp. now rewrite Hp in H.
    + intros (p & Hp & Hk).
      destruct (last_for k preds) as [q|] eqn:Hlast.
      * destruct H as (row & Hrow & _). now exists row.
      * now destruct (proj1 (last_for_none k preds) Hlast p Hp).
  - intros Hbad. destruct (not_storable_save dishes now preds db Hbad)
      as (e & ->).
    now exists e.
Qed.

End TableFacts.

Section OtherDates.

Import PredictionEngine Vocabulary Batch.

Context `{Libs : Libraries}.

(** X17. A call for a target date leaves every row of another prediction
    date as it is, id and created_at included: what [get_predictions]
    reads for any other date is the same before and after. The dates are
    in the form year-month-day, in which the callers write them. *)
Theorem other_dates_untouched (now target date : string) (db : Store) :
  Sqlite.iso_date target = true ->
  Sqlite.iso_date date = true ->
  date <> target ->
  (forall dish per,
     predictions (snd (generate_predictions now target db))
       !! (dish, date, per)
     = predictions db !! (dish, date, per))
  /\ get_predictions date (snd (generate_predictions now target db))
     = get_predictions date db.
Proof.
  intros _ _ Hdate.
  assert (Hkey : forall dish per,
            predictions (snd (generate_predictions now target db))
              !! (dish, date, per)
            = predictions db !! (dish, date, per)).
  { intros dish per. rewrite generate_store.
    pose proof (save_lookup now
                  (produced (historical_order_data db) target
                     (unique_dishes (historical_order_data db)))
                  db (dish, date, per)) as H.
    destruct (last_for _ _) as [p|] eqn:Hlast; [|exact H].
    apply last_for_some in Hlast. destruct Hlast as [Hp Hk].
    apply produced_date in Hp. unfold key_of in Hk. congruence. }
  split; [exact Hkey|].
  unfold get_predictions. apply map_eq. intros [[dish d] per].
  rewrite !map_lookup_filter. cbn [fst snd].
  destruct (decide (d = date)) as [->|Hd].
  - now rewrite Hkey.
  - destruct (predictions _ !! _); destruct (predictions db !! _); simpl;
      repeat (rewrite option_guard_False by exact Hd); reflexivity.
Qed.

End OtherDates.

Section TableInstances.

Import PredictionEngine Vocabulary Batch Samples TableSamples.

(** X16 on two predictions for one key, saved over the row the key has:
    the second one is what the table holds; and on a list with a
    prediction for a dish that does not exist, which leaves the table
    alone. *)
Lemma save_predictions_lookup_witness :
  (exists db' row,
     PredictionsTable.save_predictions {["d1"]} "2024-06-07 12:00:00"
       [morning_3; morning_9] after_first
     = (None, db')
     /\ predictions db' !! ("d1", target, "morning") = Some row
     /\ row_predicted_demand row = 9
     /\ predictions_seq after_first < row_id row)
  /\ exists e,
       PredictionsTable.save_predictions {["d1"]} "2024-06-07 12:00:00"
         [morning_3; stray; morning_9] after_first
       = (Some e, after_first).
Proof.
  split.
  - destruct (proj1 (save_predictions_lookup {["d1"]} "2024-06-07 12:00:00"
                       [morning_3; morning_9] after_first
                       ("d1", target, "morning")))
      as (db' & Hsave & _ & Hlast & _).
    + reflexivity.
    + repeat constructor.
    + destruct (Hlast morning_9 eq_refl) as (row & Hrow & Hcols & _ & Hid).
      exists db', row. split; [exact Hsave|]. split; [exact Hrow|].
      split; [|lia]. now inversion Hcols.
  - apply (proj2 (save_predictions_lookup {["d1"]} "2024-06-07 12:00:00"
                    [morning_3; stray; morning_9] after_first
                    ("d1", target, "morning"))).
    reflexivity.
Defined.

(** X17: a call for the Saturday leaves the three rows of the Friday
    alone. *)
Lemma other_dates_untouched_witness :
  size (get_predictions friday with_friday) = 3%nat
  /\ get_predictions friday
       (snd (@generate_predictions libs "2024-06-07 11:00:00" target
               with_friday))
     = get_predictions friday with_friday.
Proof.
  split; [vm_compute; reflexivity|].
  apply (proj2 (@other_dates_untouched libs "2024-06-07 11:00:00" target
                  friday with_friday eq_refl eq_refl ltac:(discriminate))).
Defined.

End TableInstances.


Section InventoryInstances.

Import MoreSamples.

(** X25 on the five soups: the kilogram of flour is not higher afterwards,
    it is below zero, and one row is logged for it. *)
Lemma stock_effect_witness :
  exists q',
    Inventory.stock after_order "i1" = Some q'
    /\ (q' <= 1)%Q
    /\ (q' < 0)%Q
    /\ length (Inventory.inventory_transactions after_order) = 1%nat.
Proof.
  destruct (stock_effect "o1" five_soups pantry after_order "i1"
              ltac:(vm_compute; reflexivity))
    as (_ & _ & Hstock & _).
  destruct (Hstock 1%Q eq_refl) as (q' & Hq' & Hle).
  exists q'. split; [exact Hq'|]. split.
  - apply Hle. repeat constructor. discriminate.
  - vm_compute in Hq'. inversion Hq'. split; reflexivity.
Defined.

(** X28 on the flour, which has a threshold, on the salt, which has none,
    and on an ingredient that does not exist. *)
Lemma update_quantity_reply_witness :
  (exists t',
     Endpoints.update_ingredient_quantity http_str "i1" 3 pantry
     = (Endpoints.Sent
          (Endpoints.ApiResponse
             (Inventory.mkIngredient "Flour" "kg" (Some 3%Q) (Some 0%Q)
                (Some 0%Q) None)), t')
     /\ Inventory.stock t' "i1" = Some 3%Q)
  /\ (exists t',
        Endpoints.update_ingredient_quantity http_str "i3" 3 cellar
        = (Endpoints.ResponseValidationError, t')
        /\ Inventory.stock t' "i3" = Some 3%Q)
  /\ Endpoints.update_ingredient_quantity http_str "i2" 3 pantry
     = (Endpoints.Sent
          (Endpoints.HTTPException 500 "FOREIGN KEY constraint failed"),
        pantry).
Proof.
  split; [|split].
  - apply (proj1 (update_quantity_reply http_str "i1" 3 pantry) flour);
      [reflexivity|now exists 0%Q].
  - apply (proj1 (proj2 (update_quantity_reply http_str "i3" 3 cellar)) salt);
      reflexivity.
  - exact (proj1 (proj2 (proj2 (update_quantity_reply http_str "i2" 3 pantry)))
             eq_refl).
Defined.

End InventoryInstances.
